(** * The accountability engine of the productivity assistant

    A shallow embedding of [src/mcp_productivity_assistant.py]: the document
    store, the analytics recalculator, the readiness gate, report ingestion,
    plan setting and the day-off scorer, followed by the properties of the
    engine that the specification states.

    Conventions of the embedding:
    - Python [float] is IEEE-754 binary64: Rocq's primitive [float];
    - Python [int] is [Z];
    - Python [str] is [string] (a string of bytes; comparison is by bytes,
      which on UTF-8 text is comparison by code point);
    - a [dict] with string keys is an association list kept in insertion
      order, as Python iterates it;
    - the JSON file is the [Store]; every tool is a computation over it that
      returns a value or raises, and the wall clock is an explicit argument. *)

From Stdlib Require Import ZArith Bool List String Ascii Lia.
From Stdlib Require Import Floats.
Import ListNotations.

Set Warnings "-inexact-float".

Local Open Scope string_scope.
Local Open Scope list_scope.
Local Open Scope Z_scope.

(** ** Python built-ins used by the engine *)

Module Py.

(** Exceptions the modelled code can raise. *)
Inductive exn : Type :=
| ValueError
| OverflowError.

(** The result of running a piece of Python: a value or a raised exception. *)
Inductive outcome (A : Type) : Type :=
| Returns (a : A)
| Raises (e : exn).

Arguments Returns {A} a.
Arguments Raises {A} e.

Definition obind {A B : Type} (o : outcome A) (f : A -> outcome B) : outcome B :=
  match o with
  | Returns a => f a
  | Raises e => Raises e
  end.

(** *** Numbers *)

(** [float(n)] for an [int]: the nearest double (ties to even);
    [OverflowError] when the integer is beyond the range of doubles. *)
Definition float_of_Z (z : Z) : float :=
  SF2Prim (binary_normalize prec emax z 0 false).

Definition float_of_int (z : Z) : outcome float :=
  let f := float_of_Z z in
  if is_infinity f then Raises OverflowError else Returns f.

(** [int(x)] for a [float]: truncation toward zero; [ValueError] on NaN,
    [OverflowError] on an infinity. *)
Definition int_of_float (x : float) : outcome Z :=
  match Prim2SF x with
  | S754_nan => Raises ValueError
  | S754_infinity _ => Raises OverflowError
  | S754_zero _ => Returns 0
  | S754_finite s m e =>
      let q := if e >=? 0 then Z.pos m * 2 ^ e else Z.pos m / 2 ^ (- e) in
      Returns (if s then - q else q)
  end.

(** [max(0, x)] and [max(0.0, x)] for a float [x]: [max] keeps its first
    argument unless a later one is strictly greater, so NaN and [-0.0] give 0;
    the integer 0 the first form returns is only ever multiplied by a float
    afterwards, which makes it [0.0]. *)
Definition max0 (x : float) : float :=
  if (0 <? x)%float then x else 0%float.

(** [min(1.0, x)]: [x] only when it is strictly smaller. *)
Definition min1 (x : float) : float :=
  if (x <? 1)%float then x else 1%float.

(** [sum(xs)] over floats, left to right from the integer 0 (CPython before
    3.12; later versions add a compensation term to the same running sum). *)
Definition sum (xs : list float) : float :=
  fold_left PrimFloat.add xs 0%float.

(** Nearest integer to [p / q], ties to the even one ([q > 0]). *)
Definition round_half_even (p q : Z) : Z :=
  let fl := p / q in
  let r := p mod q in
  match 2 * r ?= q with
  | Lt => fl
  | Gt => fl + 1
  | Eq => if Z.even fl then fl else fl + 1
  end.

(** [round(x, 2)]: CPython prints the exact binary value of [x] with two
    decimals, correctly rounded (ties to even), and reads that decimal back as
    the nearest double.  With [n] the rounded count of hundredths, the double
    nearest to [n / 100] is the float quotient, since [n] is exact below
    [2^53]; from [2^46] on the spacing of doubles exceeds 0.01 and [x] is its
    own rounding.  NaN, infinities and zeros are returned as they are. *)
Definition round2 (x : float) : float :=
  match Prim2SF x with
  | S754_finite s m e =>
      if (e >=? 0) || (2 ^ 46 <=? Z.pos m / 2 ^ (- e)) then x
      else
        let n := round_half_even (Z.pos m * 100) (2 ^ (- e)) in
        let r := (float_of_Z n / 100)%float in
        if s then (- r)%float else r
  | _ => x
  end.

(** *** Strings *)

(** [a < b] and [a <= b] on [str]. *)
Definition str_lt (a b : string) : bool := String.ltb a b.
Definition str_le (a b : string) : bool := String.leb a b.

(** [sorted(xs)] on strings: the ascending rearrangement of [xs]. *)
Fixpoint insert_sorted (x : string) (xs : list string) : list string :=
  match xs with
  | [] => [x]
  | y :: ys => if str_le x y then x :: y :: ys else y :: insert_sorted x ys
  end.

Fixpoint sorted (xs : list string) : list string :=
  match xs with
  | [] => []
  | x :: r => insert_sorted x (sorted r)
  end.

(** [s.split(" ")[0]]: the part of [s] before its first space character (all
    of [s] when it has none, the empty string when [s] starts with a space). *)
Fixpoint split_space_head (s : string) : string :=
  match s with
  | EmptyString => EmptyString
  | String c r => if Ascii.eqb c " " then EmptyString else String c (split_space_head r)
  end.

(** *** Calendar dates *)

Record date : Type := mkdate { year : Z; month : Z; day : Z }.

Definition is_leap (y : Z) : bool :=
  (y mod 4 =? 0) && (negb (y mod 100 =? 0) || (y mod 400 =? 0)).

Definition days_in_month (y m : Z) : Z :=
  if m =? 2 then (if is_leap y then 29 else 28)
  else if (m =? 4) || (m =? 6) || (m =? 9) || (m =? 11) then 30
  else 31.

Definition days_before_year (y : Z) : Z :=
  let p := y - 1 in
  p * 365 + p / 4 - p / 100 + p / 400.

Fixpoint days_before_month_from (y : Z) (m : nat) : Z :=
  match m with
  | O => 0
  | S k => days_before_month_from y k + days_in_month y (Z.of_nat (S k))
  end.

Definition days_before_month (y m : Z) : Z :=
  days_before_month_from y (Z.to_nat (m - 1)).

(** [d.toordinal()]: days since 0001-01-01, that day being 1. *)
Definition toordinal (d : date) : Z :=
  days_before_year (year d) + days_before_month (year d) (month d) + day d.

(** [(a - b).days]. *)
Definition days_between (a b : date) : Z := toordinal a - toordinal b.

(** [\d] of a [str] pattern matches every Unicode decimal digit, and [int]
    reads each by its value.  The bytes of a [string] are the UTF-8 encoding
    of the [str]; [utf8_head s] is the first code point of [s] with what
    follows it. *)
Definition byte_of (c : ascii) : Z := Z.of_N (N_of_ascii c).

Definition continuation (c : ascii) : option Z :=
  let b := byte_of c in
  if (128 <=? b) && (b <=? 191) then Some (b - 128) else None.

Definition utf8_head (s : string) : option (Z * string) :=
  match s with
  | EmptyString => None
  | String c0 r0 =>
      let b0 := byte_of c0 in
      if b0 <? 128 then Some (b0, r0)
      else if (194 <=? b0) && (b0 <=? 223) then
        match r0 with
        | String c1 r1 =>
            match continuation c1 with
            | Some x1 => Some ((b0 - 192) * 64 + x1, r1)
            | None => None
            end
        | EmptyString => None
        end
      else if (224 <=? b0) && (b0 <=? 239) then
        match r0 with
        | String c1 (String c2 r2) =>
            match continuation c1, continuation c2 with
            | Some x1, Some x2 =>
                let cp := ((b0 - 224) * 64 + x1) * 64 + x2 in
                if (2048 <=? cp) && negb ((55296 <=? cp) && (cp <=? 57343))
                then Some (cp, r2) else None
            | _, _ => None
            end
        | _ => None
        end
      else if (240 <=? b0) && (b0 <=? 244) then
        match r0 with
        | String c1 (String c2 (String c3 r3)) =>
            match continuation c1, continuation c2, continuation c3 with
            | Some x1, Some x2, Some x3 =>
                let cp := (((b0 - 240) * 64 + x1) * 64 + x2) * 64 + x3 in
                if (65536 <=? cp) && (cp <=? 1114111) then Some (cp, r3) else None
            | _, _, _ => None
            end
        | _ => None
        end
      else None
  end.

(** The decimal digits come in runs of ten, zero to nine; these are the code
    points of the zeros (Unicode 14.0, the table of CPython 3.11), from the
    ASCII digits to the Arabic-Indic, Devanagari, fullwidth and mathematical
    ones. *)
Definition decimal_zeros : list Z :=
  [ 48; 1632; 1776; 1984; 2406; 2534; 2662; 2790; 2918; 3046; 3174; 3302; 3430;
    3558; 3664; 3792; 3872; 4160; 4240; 6112; 6160; 6470; 6608; 6784; 6800; 6992;
    7088; 7232; 7248; 42528; 43216; 43264; 43472; 43504; 43600; 44016; 65296;
    66720; 68912; 69734; 69872; 69942; 70096; 70384; 70736; 70864; 71248; 71360;
    71472; 71904; 72016; 72784; 73040; 73120; 92768; 92864; 93008; 120782;
    120792; 120802; 120812; 120822; 123200; 123632; 125264; 130032 ].

Definition decimal_value (cp : Z) : option Z :=
  match find (fun zero => (zero <=? cp) && (cp <=? zero + 9)) decimal_zeros with
  | Some zero => Some (cp - zero)
  | None => None
  end.

(** [\d] at the start of [s]: the digit's value and the rest of [s]. *)
Definition re_digit (s : string) : option (Z * string) :=
  match utf8_head s with
  | Some (cp, r) =>
      match decimal_value cp with
      | Some d => Some (d, r)
      | None => None
      end
  | None => None
  end.

(** A character of the class [[0-9]], which holds the ASCII digits only. *)
Definition digit (c : ascii) : option Z :=
  let n := Z.of_N (N_of_ascii c) in
  if (48 <=? n) && (n <=? 57) then Some (n - 48) else None.

(** The month group of the pattern: [1[0-2]|0[1-9]|[1-9]]. *)
Definition re_month (s : string) : option (Z * string) :=
  match s with
  | String c1 r1 =>
      match digit c1 with
      | Some d1 =>
          let two :=
            match r1 with
            | String c2 r2 =>
                match digit c2 with
                | Some d2 =>
                    if ((d1 =? 1) && (d2 <=? 2)) || ((d1 =? 0) && (1 <=? d2))
                    then Some (10 * d1 + d2, r2) else None
                | None => None
                end
            | EmptyString => None
            end in
          match two with
          | Some r => Some r
          | None => if 1 <=? d1 then Some (d1, r1) else None
          end
      | None => None
      end
  | EmptyString => None
  end.

(** The day group: [3[0-1]|[1-2]\d|0[1-9]|[1-9]| [1-9]]. *)
Definition re_day (s : string) : option (Z * string) :=
  match s with
  | String c1 r1 =>
      let class_second :=
        match r1 with
        | String c2 r2 =>
            match digit c2 with
            | Some d2 => Some (d2, r2)
            | None => None
            end
        | EmptyString => None
        end in
      match digit c1 with
      | Some d1 =>
          let two :=
            if (1 <=? d1) && (d1 <=? 2) then
              match re_digit r1 with
              | Some (d2, r2) => Some (10 * d1 + d2, r2)
              | None => None
              end
            else
              match class_second with
              | Some (d2, r2) =>
                  if ((d1 =? 3) && (d2 <=? 1)) || ((d1 =? 0) && (1 <=? d2))
                  then Some (10 * d1 + d2, r2) else None
              | None => None
              end in
          match two with
          | Some r => Some r
          | None => if 1 <=? d1 then Some (d1, r1) else None
          end
      | None =>
          if Ascii.eqb c1 " " then
            match class_second with
            | Some (d2, r2) => if 1 <=? d2 then Some (d2, r2) else None
            | None => None
            end
          else None
      end
  | EmptyString => None
  end.

(** [datetime.strptime(s, "%Y-%m-%d").date()], [None] standing for the
    [ValueError] it raises.  The pattern is
    [(\d\d\d\d)-(1[0-2]|0[1-9]|[1-9])-(3[0-1]|[1-2]\d|0[1-9]|[1-9]| [1-9])],
    matched at the start of [s]; text left after the match, year 0 and a day
    beyond the month's length are errors.  After the month a [-] must follow,
    so no shorter alternative of the month can succeed where a longer one
    matched: ordered choice is the regular expression's result.  [\d] is any
    decimal digit; the classes [[0-2]], [[1-9]] and the like hold ASCII digits
    only. *)
Definition strptime (s : string) : option date :=
  match re_digit s with
  | Some (a, s1) =>
  match re_digit s1 with
  | Some (b, s2) =>
  match re_digit s2 with
  | Some (c, s3) =>
  match re_digit s3 with
  | Some (d, String dash1 r) =>
      let y := 1000 * a + 100 * b + 10 * c + d in
      if negb (Ascii.eqb dash1 "-") then None else
      match re_month r with
      | Some (m, String dash2 r') =>
          if negb (Ascii.eqb dash2 "-") then None else
          match re_day r' with
          | Some (dd, EmptyString) =>
              if (1 <=? y) && (dd <=? days_in_month y m)
              then Some (mkdate y m dd) else None
          | _ => None
          end
      | _ => None
      end
  | _ => None
  end
  | None => None
  end
  | None => None
  end
  | None => None
  end.

Definition digit_char (d : Z) : ascii := ascii_of_N (Z.to_N (48 + d mod 10)).

(** [str(d)] and [d.strftime("%Y-%m-%d")]: [YYYY-MM-DD], zero padded. *)
Definition isoformat (d : date) : string :=
  let y := year d in
  let m := month d in
  let dd := day d in
  String (digit_char (y / 1000)) (String (digit_char (y / 100))
  (String (digit_char (y / 10)) (String (digit_char y)
  (String "-" (String (digit_char (m / 10)) (String (digit_char m)
  (String "-" (String (digit_char (dd / 10)) (String (digit_char dd)
  EmptyString))))))))).

End Py.

(** ** Dictionaries with string keys, in insertion order *)

Module Dict.

Definition dict (V : Type) : Type := list (string * V).

(** [d.get(k)] *)
Fixpoint get {V : Type} (k : string) (d : dict V) : option V :=
  match d with
  | [] => None
  | (k', v) :: r => if String.eqb k' k then Some v else get k r
  end.

(** [k in d] *)
Definition mem {V : Type} (k : string) (d : dict V) : bool :=
  match get k d with
  | Some _ => true
  | None => false
  end.

(** [d[k] = v]: an existing key keeps its place, a new one goes last. *)
Fixpoint set {V : Type} (k : string) (v : V) (d : dict V) : dict V :=
  match d with
  | [] => [(k, v)]
  | (k', v') :: r =>
      if String.eqb k' k then (k, v) :: r else (k', v') :: set k v r
  end.

(** Iterating over [d] yields its keys. *)
Definition keys {V : Type} (d : dict V) : list string := map fst d.

End Dict.

Import Py.
Import Dict.

(** ** The document *)

(** A task of a plan: [{name, estimated_time?, ...}].  Only [estimated_time]
    is read by the engine ([task.get("estimated_time", 0)]); JSON numbers are
    taken as doubles. *)
Record Task : Type := mkTask {
  task_name : string;
  estimated_time : option float
}.

Record Plan : Type := mkPlan {
  tasks : list Task;
  context : string;
  energy_level : string;
  total_time : float;
  created_at : string
}.

(** An entry of a report's [partial] or [skipped] list: [{name, reason?}]
    (the loop over [skipped] reads [task["name"]], so entries carry a name). *)
Record Item : Type := mkItem {
  item_name : string;
  item_reason : option string
}.

Record Report : Type := mkReport {
  completed : list string;
  partial : list Item;
  skipped : list Item;
  completion_rate : float;
  reported_at : string
}.

Record ProblemTask : Type := mkProblemTask {
  skip_count : Z;
  skip_reasons : list string
}.

(** An entry of [absence_log] or [holidays_log]. *)
Record LogEntry : Type := mkLogEntry {
  log_date : string;
  log_reason : string;
  logged_at : string
}.

Record Trends : Type := mkTrends {
  last_7_days : float;
  last_30_days : float
}.

Record Analytics : Type := mkAnalytics {
  problem_tasks : dict ProblemTask;
  completion_trends : Trends;
  dedication_percentage : float;
  absence_counter : Z;
  last_task_date : option string;
  semester_phase : string;
  consecutive_high_intensity_days : Z;
  burnout_risk : string;
  absence_log : list LogEntry;
  holidays_log : list LogEntry
}.

(** [long_term_tasks] is opaque to the engine: it is only handed back. *)
Definition LongTermTasks : Type := dict string.

Record Document : Type := mkDocument {
  plan : dict Plan;
  reports : dict Report;
  long_term_tasks : LongTermTasks;
  analytics : Analytics
}.

(** Assignments to one key of the document, as the code writes them. *)

Definition set_plan (p : dict Plan) (d : Document) : Document :=
  mkDocument p (reports d) (long_term_tasks d) (analytics d).

Definition set_reports (r : dict Report) (d : Document) : Document :=
  mkDocument (plan d) r (long_term_tasks d) (analytics d).

Definition set_long_term_tasks (t : LongTermTasks) (d : Document) : Document :=
  mkDocument (plan d) (reports d) t (analytics d).

Definition set_analytics (a : Analytics) (d : Document) : Document :=
  mkDocument (plan d) (reports d) (long_term_tasks d) a.

Definition set_problem_tasks (v : dict ProblemTask) (a : Analytics) : Analytics :=
  mkAnalytics v (completion_trends a) (dedication_percentage a)
    (absence_counter a) (last_task_date a) (semester_phase a)
    (consecutive_high_intensity_days a) (burnout_risk a) (absence_log a)
    (holidays_log a).

Definition set_completion_trends (v : Trends) (a : Analytics) : Analytics :=
  mkAnalytics (problem_tasks a) v (dedication_percentage a)
    (absence_counter a) (last_task_date a) (semester_phase a)
    (consecutive_high_intensity_days a) (burnout_risk a) (absence_log a)
    (holidays_log a).

Definition set_dedication_percentage (v : float) (a : Analytics) : Analytics :=
  mkAnalytics (problem_tasks a) (completion_trends a) v
    (absence_counter a) (last_task_date a) (semester_phase a)
    (consecutive_high_intensity_days a) (burnout_risk a) (absence_log a)
    (holidays_log a).

Definition set_absence_counter (v : Z) (a : Analytics) : Analytics :=
  mkAnalytics (problem_tasks a) (completion_trends a) (dedication_percentage a)
    v (last_task_date a) (semester_phase a)
    (consecutive_high_intensity_days a) (burnout_risk a) (absence_log a)
    (holidays_log a).

Definition set_last_task_date (v : option string) (a : Analytics) : Analytics :=
  mkAnalytics (problem_tasks a) (completion_trends a) (dedication_percentage a)
    (absence_counter a) v (semester_phase a)
    (consecutive_high_intensity_days a) (burnout_risk a) (absence_log a)
    (holidays_log a).

Definition set_semester_phase (v : string) (a : Analytics) : Analytics :=
  mkAnalytics (problem_tasks a) (completion_trends a) (dedication_percentage a)
    (absence_counter a) (last_task_date a) v
    (consecutive_high_intensity_days a) (burnout_risk a) (absence_log a)
    (holidays_log a).

Definition set_consecutive_high_intensity_days (v : Z) (a : Analytics) : Analytics :=
  mkAnalytics (problem_tasks a) (completion_trends a) (dedication_percentage a)
    (absence_counter a) (last_task_date a) (semester_phase a)
    v (burnout_risk a) (absence_log a) (holidays_log a).

Definition set_burnout_risk (v : string) (a : Analytics) : Analytics :=
  mkAnalytics (problem_tasks a) (completion_trends a) (dedication_percentage a)
    (absence_counter a) (last_task_date a) (semester_phase a)
    (consecutive_high_intensity_days a) v (absence_log a) (holidays_log a).

Definition set_absence_log (v : list LogEntry) (a : Analytics) : Analytics :=
  mkAnalytics (problem_tasks a) (completion_trends a) (dedication_percentage a)
    (absence_counter a) (last_task_date a) (semester_phase a)
    (consecutive_high_intensity_days a) (burnout_risk a) v (holidays_log a).

Definition set_holidays_log (v : list LogEntry) (a : Analytics) : Analytics :=
  mkAnalytics (problem_tasks a) (completion_trends a) (dedication_percentage a)
    (absence_counter a) (last_task_date a) (semester_phase a)
    (consecutive_high_intensity_days a) (burnout_risk a) (absence_log a) v.

(** ** The wall clock and the data file *)

(** What [datetime.now()] shows during one call: the local date, its
    [isoformat()] timestamp and the weekday name. *)
Record Clock : Type := mkClock {
  today : date;
  now_isoformat : string;
  day_of_week : string
}.

(** [str(datetime.now().date())] and [datetime.now().strftime("%Y-%m-%d")],
    which print alike from the year 1000 on. *)
Definition today_str (clk : Clock) : string := isoformat (today clk).

(** The data file: [None] when it is missing, empty or not valid JSON. *)
Definition Store : Type := option Document.

(** A computation over the data file that returns or raises; the file keeps
    what was written before an exception. *)
Definition IO (A : Type) : Type := Store -> outcome A * Store.

Definition ret {A : Type} (a : A) : IO A := fun s => (Returns a, s).

Definition raise {A : Type} (e : exn) : IO A := fun s => (Raises e, s).

Definition bind {A B : Type} (m : IO A) (f : A -> IO B) : IO B :=
  fun s =>
    match m s with
    | (Returns a, s') => f a s'
    | (Raises e, s') => (Raises e, s')
    end.

Definition lift {A : Type} (o : outcome A) : IO A := fun s => (o, s).

Notation "x <- m ;; k" := (bind m (fun x => k))
  (at level 61, m at next level, right associativity).
Notation "m ;;; k" := (bind m (fun _ => k))
  (at level 61, right associativity).

Definition _get_default_data (clk : Clock) : Document :=
  {| plan := [];
     reports := [];
     long_term_tasks := [];
     analytics :=
       {| problem_tasks := [];
          completion_trends := {| last_7_days := 0; last_30_days := 0 |};
          dedication_percentage := 0.7;
          absence_counter := 0;
          last_task_date := Some (today_str clk);
          semester_phase := "N/A";
          consecutive_high_intensity_days := 0;
          burnout_risk := "low";
          absence_log := [];
          holidays_log := [] |} |}.

Definition _save_data (data : Document) : IO unit :=
  fun _ => (Returns tt, Some data).

Definition _load_data (clk : Clock) : IO Document :=
  fun s =>
    match s with
    | Some data => (Returns data, s)
    | None =>
        let default_data := _get_default_data clk in
        (_save_data default_data ;;; ret default_data) s
    end.

(** ** Analytics recalculation *)

(** The loop of [_get_recent_reports]: a report is kept when its key parses as
    a date and [(today - report_date).days < days]; a key that does not parse
    is skipped ([except (ValueError, TypeError): continue]). *)
Fixpoint recent_reports_loop (today : date) (days : Z)
  (items : list (string * Report)) (recent_reports : list Report) : list Report :=
  match items with
  | [] => recent_reports
  | (date_str, report) :: rest =>
      match strptime date_str with
      | Some report_date =>
          if days_between today report_date <? days
          then recent_reports_loop today days rest (recent_reports ++ [report])
          else recent_reports_loop today days rest recent_reports
      | None => recent_reports_loop today days rest recent_reports
      end
  end.

Definition _get_recent_reports (clk : Clock) (data : Document) (days : Z) : list Report :=
  recent_reports_loop (today clk) days (reports data) [].

(** [sum(r["completion_rate"] for r in rs) / len(rs) if rs else 0.0], the
    expression the code writes out for the 7, 14 and 30 day windows. *)
Definition mean_completion_rate (rs : list Report) : float :=
  match rs with
  | [] => 0%float
  | _ :: _ =>
      (Py.sum (map completion_rate rs) / float_of_Z (Z.of_nat (List.length rs)))%float
  end.

(** A falsy [last_task_date]: [None] or the empty string. *)
Definition falsy_str (s : option string) : bool :=
  match s with
  | None => true
  | Some EmptyString => true
  | Some _ => false
  end.

(** [_update_absence_counter] works on a copy of its own: it loads the file,
    sets the counter in what it loaded and writes that back. *)
Definition _update_absence_counter (clk : Clock) : IO unit :=
  data <- _load_data clk ;;
  let analytics := analytics data in
  match last_task_date analytics with
  | None => ret tt
  | Some last_task_date_str =>
      if falsy_str (Some last_task_date_str) then ret tt
      else
        match strptime last_task_date_str with
        | None => raise ValueError
        | Some last_task_date =>
            let delta := days_between (today clk) last_task_date in
            _save_data
              (set_analytics (set_absence_counter (Z.max 0 (delta - 1)) analytics) data)
        end
  end.

(** [max(0, 1.0 - ((high_intensity_task_days - 3) * 0.25))] when the streak is
    above 3, else 1.0. *)
Definition intensity_factor (high_intensity_task_days : Z) : outcome float :=
  if high_intensity_task_days <=? 3 then Returns 1%float
  else
    obind (float_of_int (high_intensity_task_days - 3))
      (fun n => Returns (max0 (1 - n * 0.25)%float)).

Definition _calculate_dedication_percentage (clk : Clock) (data : Document) : outcome float :=
  let analytics := analytics data in
  let reports_14_days := _get_recent_reports clk data 14 in
  let completion_rate_14_days := mean_completion_rate reports_14_days in
  let unexplained_absences := absence_counter analytics in
  obind (float_of_int unexplained_absences) (fun absences =>
  let consistency_score := max0 (1 - absences * 0.2)%float in
  let high_intensity_task_days := consecutive_high_intensity_days analytics in
  obind (intensity_factor high_intensity_task_days) (fun intensity_factor =>
  let dedication :=
    (completion_rate_14_days * 0.5 + consistency_score * 0.3 + intensity_factor * 0.2)%float in
  Returns (round2 dedication))).

Definition _calculate_burnout_risk (data : Document) : string :=
  let analytics := analytics data in
  let risk_score := 0%float in
  let intensity := consecutive_high_intensity_days analytics in
  let risk_score := if intensity >=? 3 then (risk_score + 0.3)%float else risk_score in
  let risk_score := if intensity >=? 5 then (risk_score + 0.2)%float else risk_score in
  let completion_trend := last_7_days (completion_trends analytics) in
  let risk_score :=
    if (completion_trend <? 0.6)%float then (risk_score + 0.2)%float else risk_score in
  let dedication := dedication_percentage analytics in
  let risk_score :=
    if (dedication <? 0.5)%float then (risk_score + 0.1)%float else risk_score in
  let phase := semester_phase analytics in
  let risk_score :=
    if String.eqb phase "mid_semester" || String.eqb phase "late_semester"
    then (risk_score + 0.15)%float else risk_score in
  let risk_score :=
    if String.eqb phase "finals_period" then (risk_score + 0.25)%float else risk_score in
  let risk_score :=
    if absence_counter analytics >? 2 then (risk_score + 0.1)%float else risk_score in
  if (0.8 <=? risk_score)%float then "critical"
  else if (0.6 <=? risk_score)%float then "high"
  else if (0.4 <=? risk_score)%float then "medium"
  else "low".

(** [_update_full_analytics(data)]: the absence counter is refreshed in the
    file by [_update_absence_counter]; trends, dedication and burnout risk are
    then written into the caller's [data], which is returned. *)
Definition _update_full_analytics (clk : Clock) (data : Document) : IO Document :=
  _update_absence_counter clk ;;;
  let reports_7_days := _get_recent_reports clk data 7 in
  let reports_30_days := _get_recent_reports clk data 30 in
  let avg_7 := mean_completion_rate reports_7_days in
  let avg_30 := mean_completion_rate reports_30_days in
  let data :=
    set_analytics
      (set_completion_trends
         {| last_7_days := round2 avg_7; last_30_days := round2 avg_30 |}
         (analytics data)) data in
  dedication <- lift (_calculate_dedication_percentage clk data) ;;
  let data :=
    set_analytics (set_dedication_percentage dedication (analytics data)) data in
  let data :=
    set_analytics (set_burnout_risk (_calculate_burnout_risk data) (analytics data)) data in
  ret data.

(** ** The readiness gate *)

Record Recommendation : Type := mkRecommendation {
  recommendation : string;
  reason : string
}.

Definition _recommend_rest_or_light_day (clk : Clock) (data : Document)
  : outcome Recommendation :=
  let analytics := analytics data in
  let burnout_risk := burnout_risk analytics in
  let intensity := consecutive_high_intensity_days analytics in
  let holidays_log := holidays_log analytics in
  let rest :=
    if String.eqb burnout_risk "critical" then
      Returns {| recommendation := "MANDATORY_REST";
                 reason := "Critical burnout risk detected. Rest is required." |}
    else if String.eqb burnout_risk "high" then
      Returns {| recommendation := "RECOMMENDED_REST";
                 reason := "High burnout risk detected." |}
    else if String.eqb burnout_risk "medium" || (intensity >=? 3) then
      Returns {| recommendation := "RECOMMENDED_LIGHT_DAY";
                 reason := "Burnout risk is medium or user has had 3+ high-intensity days." |}
    else
      Returns {| recommendation := "PROCEED_NORMALLY";
                 reason := "Analytics indicate user is ready for a productive day." |} in
  match rev holidays_log with
  | [] => rest
  | last_holiday :: _ =>
      match strptime (log_date last_holiday) with
      | None => Raises ValueError
      | Some last_holiday_date =>
          if days_between (today clk) last_holiday_date <=? 2 then
            Returns {| recommendation := "PROCEED_NORMALLY";
                       reason := "A day off was taken very recently." |}
          else rest
      end
  end.

(** What a tool hands back: the JSON object it serialises, by shape. *)
Inductive Reason : Type :=
| DedicationIsAt (percent : Z)
| PhaseIsCritical
| PhaseIsEarly
| SemesterBreak
| RecentDayOff
| BurnoutIsHigh.

Inductive Response : Type :=
| BLOCKED (unreported_date : string) (unreported_tasks : list Task)
| PLAN_EXIST (today_s : string) (plans : dict Plan) (phase : string)
| ALREADY_REPORTED (report : Report) (comment : string)
| READY (rest_or_light_day : Recommendation) (ltt : LongTermTasks)
    (weekday : string) (phase : string) (absences : Z)
| RecentReports (rs : list Report)
| HolidayLogged (date : string)
| AbsenceLogged
| NoPlanFound (date : string)
| ReportLogged (new_dedication : float) (triggered_patterns : list string)
| PlanStored (plan_data : Plan)
| AnalyticsContext (a : Analytics)
| InvalidPhase
| PhaseUpdated (new_phase : string)
| LongTermTasksShown (ltt : LongTermTasks)
| DayOffScore (permissibility_score : float) (reasons : list Reason).

(** The plan dates that block planning:
    [sorted([date for date in data["plan"]
             if date not in data["reports"] and date < today_str])]. *)
Definition unreported_dates (today_str : string) (data : Document) : list string :=
  sorted
    (filter (fun date => negb (mem date (reports data)) && str_lt date today_str)
       (keys (plan data))).

Definition performance_comment (completion : float) : string :=
  if (0.9 <=? completion)%float then "Excellent work! See you tomorrow."
  else if (0.75 <=? completion)%float then "Good job, see you tomorrow."
  else if (0.5 <=? completion)%float then "Decent effort, see you tomorrow."
  else "Try to improve tomorrow.".

Definition check_readiness_for_planning (clk : Clock) : IO Response :=
  data <- _load_data clk ;;
  let today_str := today_str clk in
  match unreported_dates today_str data with
  | earliest :: _ =>
      ret (BLOCKED earliest
             match get earliest (plan data) with
             | Some p => tasks p
             | None => []
             end)
  | [] =>
      if mem today_str (plan data) then
        ret (PLAN_EXIST today_str (plan data) (semester_phase (analytics data)))
      else
        match get today_str (reports data) with
        | Some report =>
            ret (ALREADY_REPORTED report (performance_comment (completion_rate report)))
        | None =>
            data <- _update_full_analytics clk data ;;
            rest_or_light_day <- lift (_recommend_rest_or_light_day clk data) ;;
            let analytics := analytics data in
            ret (READY rest_or_light_day (long_term_tasks data) (day_of_week clk)
                   (semester_phase analytics) (absence_counter analytics))
        end
  end.

Definition get_recent_reports (clk : Clock) (days : Z) : IO Response :=
  data <- _load_data clk ;;
  ret (RecentReports (_get_recent_reports clk data days)).

(** ** Report ingestion *)

(** [task["name"].split(" ")[0]] *)
Definition task_name_base (task : Item) : string :=
  split_space_head (item_name task).

Definition pattern_alert (task_name_base : string) : string :=
  ("3rd_skip_pattern for " ++ task_name_base)%string.

(** The loop over [skipped]: a key not yet in [problem_tasks] enters with a
    zero count, the count is incremented and the reason appended
    ([task.get("reason", "unknown")]), and an alert is appended when the count
    is at least 3. *)
Fixpoint skip_loop (skipped : list Item) (problem_tasks : dict ProblemTask)
  (triggered_patterns : list string) : dict ProblemTask * list string :=
  match skipped with
  | [] => (problem_tasks, triggered_patterns)
  | task :: rest =>
      let task_name_base := task_name_base task in
      let entry :=
        match get task_name_base problem_tasks with
        | Some e => e
        | None => {| skip_count := 0; skip_reasons := [] |}
        end in
      let entry :=
        {| skip_count := skip_count entry + 1;
           skip_reasons :=
             skip_reasons entry ++
               [match item_reason task with Some r => r | None => "unknown" end] |} in
      let problem_tasks := set task_name_base entry problem_tasks in
      let triggered_patterns :=
        if skip_count entry >=? 3
        then triggered_patterns ++ [pattern_alert task_name_base]
        else triggered_patterns in
      skip_loop rest problem_tasks triggered_patterns
  end.

(** [len(completed) / total_tasks if total_tasks > 0 else 0.0] *)
Definition raw_completion_rate (completed : list string) (original_plan : Plan) : float :=
  let total_tasks := Z.of_nat (List.length (tasks original_plan)) in
  if total_tasks >? 0
  then (float_of_Z (Z.of_nat (List.length completed)) / float_of_Z total_tasks)%float
  else 0%float.

(** [report]: holiday first, then absence, then the normal report.  A stored
    plan is a non-empty object, so [not original_plan] holds exactly when the
    date has no plan. *)
Definition report (clk : Clock) (date : string) (completed : list string)
  (partial skipped : list Item) (was_absent : bool) (absence_reason : string)
  (was_holiday : bool) (holiday_reason : string) : IO Response :=
  data <- _load_data clk ;;
  let today_str := today_str clk in
  if was_holiday then
    let a := analytics data in
    let a := set_holidays_log (holidays_log a ++ [mkLogEntry date holiday_reason today_str]) a in
    let a := set_consecutive_high_intensity_days 0 a in
    _save_data (set_analytics a data) ;;;
    ret (HolidayLogged date)
  else if was_absent then
    let a := analytics data in
    let a := set_absence_log (absence_log a ++ [mkLogEntry date absence_reason today_str]) a in
    let a := set_consecutive_high_intensity_days 0 a in
    _save_data (set_analytics a data) ;;;
    ret AbsenceLogged
  else
    match get date (plan data) with
    | None => ret (NoPlanFound date)
    | Some original_plan =>
        let completion_rate := raw_completion_rate completed original_plan in
        let data :=
          set_reports
            (set date
               {| completed := completed;
                  partial := partial;
                  skipped := skipped;
                  completion_rate := round2 completion_rate;
                  reported_at := now_isoformat clk |}
               (reports data)) data in
        let '(problem_tasks, triggered_patterns) :=
          skip_loop skipped (problem_tasks (analytics data)) [] in
        let data := set_analytics (set_problem_tasks problem_tasks (analytics data)) data in
        data <- _update_full_analytics clk data ;;
        _save_data data ;;;
        ret (ReportLogged (dedication_percentage (analytics data)) triggered_patterns)
    end.

(** ** Plan setting *)

Definition task_time (task : Task) : float :=
  match estimated_time task with
  | Some t => t
  | None => 0%float
  end.

Definition set_daily_plan (clk : Clock) (date : string) (tasks : list Task)
  (context energy_level : string) : IO Response :=
  data <- _load_data clk ;;
  let plan_data :=
    {| tasks := tasks;
       context := context;
       energy_level := energy_level;
       total_time := Py.sum (map task_time tasks);
       created_at := now_isoformat clk |} in
  let data := set_plan [(date, plan_data)] data in
  let a := analytics data in
  let a := set_last_task_date (Some date) a in
  let a := set_absence_counter 0 a in
  let a :=
    if String.eqb context "hectic" || (5 <? total_time plan_data)%float
    then set_consecutive_high_intensity_days (consecutive_high_intensity_days a + 1) a
    else set_consecutive_high_intensity_days 0 a in
  _save_data (set_analytics a data) ;;;
  ret (PlanStored plan_data).

(** ** Analytics, phase and long-term tasks *)

Definition get_analytics_context (clk : Clock) : IO Response :=
  data <- _load_data clk ;;
  data <- _update_full_analytics clk data ;;
  _save_data data ;;;
  ret (AnalyticsContext (analytics data)).

Definition valid_phases : list string :=
  ["early_semester"; "mid_semester"; "late_semester"; "finals_period"; "semester_break"].

Definition update_semester_phase (clk : Clock) (phase : string) : IO Response :=
  data <- _load_data clk ;;
  if negb (existsb (String.eqb phase) valid_phases) then ret InvalidPhase
  else
    _save_data (set_analytics (set_semester_phase phase (analytics data)) data) ;;;
    ret (PhaseUpdated phase).

Definition show_long_term_tasks (clk : Clock) : IO Response :=
  data <- _load_data clk ;;
  ret (LongTermTasksShown (long_term_tasks data)).

Definition edit_long_term_tasks (clk : Clock) (new_tasks : LongTermTasks) : IO Response :=
  data <- _load_data clk ;;
  let data := set_long_term_tasks new_tasks data in
  _save_data data ;;;
  ret (LongTermTasksShown (long_term_tasks data)).

(** ** The day-off scorer *)

Definition validate_day_off_request (clk : Clock) : IO Response :=
  data <- _load_data clk ;;
  data <- _update_full_analytics clk data ;;
  let analytics := analytics data in
  let score := 0.5%float in
  let dedication := dedication_percentage analytics in
  let score := (score + (dedication - 0.7) * 0.5)%float in
  percent <- lift (int_of_float (dedication * 100)%float) ;;
  let reasons := [DedicationIsAt percent] in
  let phase := semester_phase analytics in
  let '(score, reasons) :=
    if String.eqb phase "mid_semester" || String.eqb phase "late_semester"
       || String.eqb phase "finals_period"
    then ((score + 0.2)%float, reasons ++ [PhaseIsCritical])
    else if String.eqb phase "early_semester"
    then ((score - 0.2)%float, reasons ++ [PhaseIsEarly])
    else if String.eqb phase "semester_break"
    then ((score + 0.2)%float, reasons ++ [SemesterBreak])
    else (score, reasons) in
  scored <-
    match rev (holidays_log analytics) with
    | [] => ret (score, reasons)
    | last_holiday :: _ =>
        match strptime (log_date last_holiday) with
        | None => raise ValueError
        | Some last_holiday_date =>
            if days_between (today clk) last_holiday_date <=? 4
            then ret ((score - 0.4)%float, reasons ++ [RecentDayOff])
            else ret (score, reasons)
        end
    end ;;
  let '(score, reasons) := scored in
  let '(score, reasons) :=
    if String.eqb (burnout_risk analytics) "high"
       || String.eqb (burnout_risk analytics) "critical"
    then ((score + 0.3)%float, reasons ++ [BurnoutIsHigh])
    else (score, reasons) in
  let final_score := max0 (min1 score) in
  ret (DayOffScore (round2 final_score) reasons).

(** ** Sequences of tool calls *)

Inductive Call : Type :=
| CheckReadiness
| GetRecentReports (days : Z)
| SubmitReport (date : string) (completed : list string) (partial skipped : list Item)
    (was_absent : bool) (absence_reason : string) (was_holiday : bool)
    (holiday_reason : string)
| SetDailyPlan (date : string) (tasks : list Task) (context energy_level : string)
| GetAnalyticsContext
| UpdateSemesterPhase (phase : string)
| ShowLongTermTasks
| EditLongTermTasks (new_tasks : LongTermTasks)
| ValidateDayOffRequest.

Definition run_call (clk : Clock) (c : Call) : IO Response :=
  match c with
  | CheckReadiness => check_readiness_for_planning clk
  | GetRecentReports days => get_recent_reports clk days
  | SubmitReport date completed partial skipped was_absent absence_reason
      was_holiday holiday_reason =>
      report clk date completed partial skipped was_absent absence_reason
        was_holiday holiday_reason
  | SetDailyPlan date tasks context energy_level =>
      set_daily_plan clk date tasks context energy_level
  | GetAnalyticsContext => get_analytics_context clk
  | UpdateSemesterPhase phase => update_semester_phase clk phase
  | ShowLongTermTasks => show_long_term_tasks clk
  | EditLongTermTasks new_tasks => edit_long_term_tasks clk new_tasks
  | ValidateDayOffRequest => validate_day_off_request clk
  end.

(** The data file after a sequence of calls, each at its own clock reading; a
    call that raises leaves the file as it was at that point and the server
    goes on with the next call. *)
Fixpoint run_calls (calls : list (Clock * Call)) (s : Store) : Store :=
  match calls with
  | [] => s
  | (clk, c) :: rest => run_calls rest (snd (run_call clk c s))
  end.

(** * Statements: the vocabulary of the properties *)

(** ** The data file *)

(** The document a call works on: what [_load_data] returns. *)
Definition loaded (clk : Clock) (s : Store) : Document :=
  match s with
  | Some d => d
  | None => _get_default_data clk
  end.

Definition plan_of (s : Store) : dict Plan :=
  match s with
  | Some d => plan d
  | None => []
  end.

(** ** Calendar dates and their ISO strings *)

(** A calendar date, as [datetime.date] admits it. *)
Definition valid_date (d : date) : Prop :=
  1 <= year d <= 9999 /\ 1 <= month d <= 12 /\
  1 <= day d <= days_in_month (year d) (month d).

Definition days_in_year (y : Z) : Z := if is_leap y then 366 else 365.

(** The number a date's ISO string spells: [YYYYMMDD]. *)
Definition iso_key (d : date) : Z := year d * 10000 + month d * 100 + day d.

(** Lexicographic combination of comparisons, as [String.compare] proceeds. *)
Definition then_compare (c k : comparison) : comparison :=
  match c with
  | Eq => k
  | Lt => Lt
  | Gt => Gt
  end.

(** ** Recalculation *)

(** A document with its absence counter refreshed from [last_task_date]:
    [max(0, (today - last_task_date).days - 1)] when that date is set and is a
    calendar date, the document itself otherwise. *)
Definition refresh_absence (clk : Clock) (d : Document) : Document :=
  if falsy_str (last_task_date (analytics d)) then d
  else
    match last_task_date (analytics d) with
    | Some s =>
        match strptime s with
        | Some ltd =>
            set_analytics
              (set_absence_counter (Z.max 0 (days_between (today clk) ltd - 1))
                 (analytics d)) d
        | None => d
        end
    | None => d
    end.

(** The part of [_update_full_analytics] that works on the caller's document:
    trends, then dedication, then burnout risk. *)
Definition analytics_pass (clk : Clock) (data : Document) : outcome Document :=
  let data1 :=
    set_analytics
      (set_completion_trends
         {| last_7_days := round2 (mean_completion_rate (_get_recent_reports clk data 7));
            last_30_days := round2 (mean_completion_rate (_get_recent_reports clk data 30)) |}
         (analytics data)) data in
  obind (_calculate_dedication_percentage clk data1) (fun dedication =>
  let data2 :=
    set_analytics (set_dedication_percentage dedication (analytics data1)) data1 in
  Returns
    (set_analytics (set_burnout_risk (_calculate_burnout_risk data2) (analytics data2))
       data2)).

(** The dedication formula of the specification, for a given value of the
    absence counter:
    [round(0.5 * completion_rate_14d + 0.3 * max(0, 1.0 - 0.2 * absence_counter)
           + 0.2 * intensity_factor, 2)]. *)
Definition dedication_formula (clk : Clock) (data : Document) (absence_counter : Z)
  : outcome float :=
  obind (float_of_int absence_counter) (fun absences =>
  obind (intensity_factor (consecutive_high_intensity_days (analytics data)))
    (fun intensity =>
  Returns
    (round2 (0.5 * mean_completion_rate (_get_recent_reports clk data 14)
             + 0.3 * max0 (1 - 0.2 * absences) + 0.2 * intensity)%float))).

(** The window of the specification: the reports whose date [d] satisfies
    [0 <= today - d < window]. *)
Definition window_reports (clk : Clock) (data : Document) (window : Z) : list Report :=
  map snd
    (filter
       (fun item =>
          match strptime (fst item) with
          | Some d =>
              (0 <=? days_between (today clk) d) && (days_between (today clk) d <? window)
          | None => false
          end)
       (reports data)).

(** ** The burnout score *)

(** The contributions to the burnout score, in the order they are added:
    each is a condition on the analytics and the weight it adds. *)
Definition risk_contributions (a : Analytics) : list (bool * float) :=
  [ (consecutive_high_intensity_days a >=? 3, 0.3%float);
    (consecutive_high_intensity_days a >=? 5, 0.2%float);
    ((last_7_days (completion_trends a) <? 0.6)%float, 0.2%float);
    ((dedication_percentage a <? 0.5)%float, 0.1%float);
    (String.eqb (semester_phase a) "mid_semester"
       || String.eqb (semester_phase a) "late_semester", 0.15%float);
    (String.eqb (semester_phase a) "finals_period", 0.25%float);
    (absence_counter a >? 2, 0.1%float) ].

(** The cumulative score: from 0, each weight whose condition holds is added
    in turn (in double precision, as every number of the engine). *)
Definition cumulative_risk_score (cs : list (bool * float)) : float :=
  fold_left
    (fun (score : float) (c : bool * float) =>
       if fst c then (score + snd c)%float else score) cs 0%float.

Definition risk_band (score : float) : string :=
  if (0.8 <=? score)%float then "critical"
  else if (0.6 <=? score)%float then "high"
  else if (0.4 <=? score)%float then "medium"
  else "low".

(** The score as the specification states it: the same conditions with the
    weights 0.3, 0.2, 0.2, 0.1, 0.15, 0.25 and 0.1, counted in hundredths so
    that they add exactly, and the thresholds 0.8, 0.6 and 0.4 on that exact
    sum. *)
Definition stated_risk_score (a : Analytics) : Z :=
  (if consecutive_high_intensity_days a >=? 3 then 30 else 0)
  + (if consecutive_high_intensity_days a >=? 5 then 20 else 0)
  + (if (last_7_days (completion_trends a) <? 0.6)%float then 20 else 0)
  + (if (dedication_percentage a <? 0.5)%float then 10 else 0)
  + (if String.eqb (semester_phase a) "mid_semester"
        || String.eqb (semester_phase a) "late_semester" then 15 else 0)
  + (if String.eqb (semester_phase a) "finals_period" then 25 else 0)
  + (if absence_counter a >? 2 then 10 else 0).

Definition stated_risk_band (hundredths : Z) : string :=
  if 80 <=? hundredths then "critical"
  else if 60 <=? hundredths then "high"
  else if 40 <=? hundredths then "medium"
  else "low".

(** ** The readiness gate *)

(** A date key of [plan] that is strictly earlier than today (as the code
    compares the date strings) and has no entry in [reports]. *)
Definition blocking (today_s : string) (data : Document) (date : string) : Prop :=
  In date (keys (plan data)) /\ str_lt date today_s = true /\
  mem date (reports data) = false.

(** The readiness gate on the document it has loaded: its answer and the
    document it leaves in the file. *)
Definition gate_on (clk : Clock) (d : Document) : outcome Response * Store :=
  match unreported_dates (today_str clk) d with
  | earliest :: _ =>
      (Returns (BLOCKED earliest
                  match get earliest (plan d) with Some p => tasks p | None => [] end),
       Some d)
  | [] =>
      if mem (today_str clk) (plan d) then
        (Returns (PLAN_EXIST (today_str clk) (plan d) (semester_phase (analytics d))),
         Some d)
      else
        match get (today_str clk) (reports d) with
        | Some report =>
            (Returns (ALREADY_REPORTED report
                        (performance_comment (completion_rate report))), Some d)
        | None =>
            (match fst (_update_full_analytics clk d (Some d)) with
             | Returns data =>
                 match _recommend_rest_or_light_day clk data with
                 | Returns rest =>
                     Returns (READY rest (long_term_tasks data) (day_of_week clk)
                                (semester_phase (analytics data))
                                (absence_counter (analytics data)))
                 | Raises e => Raises e
                 end
             | Raises e => Raises e
             end,
             Some (refresh_absence clk d))
        end
  end.

(** ** Report ingestion *)

(** The document [report] hands to the recalculation in its normal branch:
    the report stored under its date and the skip counters updated. *)
Definition reported_document (clk : Clock) (d : Document) (date : string)
  (completed : list string) (partial skipped : list Item) (original_plan : Plan)
  : Document :=
  let data :=
    set_reports
      (set date
         {| completed := completed; partial := partial; skipped := skipped;
            completion_rate := round2 (raw_completion_rate completed original_plan);
            reported_at := now_isoformat clk |}
         (reports d)) d in
  set_analytics
    (set_problem_tasks (fst (skip_loop skipped (problem_tasks (analytics data)) []))
       (analytics data)) data.

Definition skip_count_of (k : string) (pt : dict ProblemTask) : Z :=
  match get k pt with
  | Some e => skip_count e
  | None => 0
  end.

Definition skip_reasons_of (k : string) (pt : dict ProblemTask) : list string :=
  match get k pt with
  | Some e => skip_reasons e
  | None => []
  end.

(** How many of the skipped tasks fall under key [k], and their reasons. *)
Definition occurrences (k : string) (skipped : list Item) : Z :=
  Z.of_nat (count_occ string_dec (map task_name_base skipped) k).

Definition reason_of (task : Item) : string :=
  match item_reason task with
  | Some r => r
  | None => "unknown"
  end.

Definition reasons_for (k : string) (skipped : list Item) : list string :=
  map reason_of (filter (fun task => String.eqb (task_name_base task) k) skipped).

(** The first whitespace-delimited token of a name, as [name.split()[0]]
    gives it: leading whitespace is skipped and the token ends at the next
    whitespace character (space, tab, newline, ...). *)
Definition is_whitespace (c : ascii) : bool :=
  let n := Z.of_N (N_of_ascii c) in
  (n =? 32) || ((9 <=? n) && (n <=? 13)).

Fixpoint take_token (s : string) : string :=
  match s with
  | EmptyString => EmptyString
  | String c r => if is_whitespace c then EmptyString else String c (take_token r)
  end.

Fixpoint first_whitespace_token (s : string) : string :=
  match s with
  | EmptyString => EmptyString
  | String c r =>
      if is_whitespace c then first_whitespace_token r else String c (take_token r)
  end.

(** ** Sequences of calls *)

Definition is_set_daily_plan (c : Call) : bool :=
  match c with
  | SetDailyPlan _ _ _ _ => true
  | _ => false
  end.

(** The answers of a sequence of calls, in order. *)
Fixpoint responses (calls : list (Clock * Call)) (s : Store) : list (outcome Response) :=
  match calls with
  | [] => []
  | (clk, c) :: rest => fst (run_call clk c s) :: responses rest (snd (run_call clk c s))
  end.

Definition triggered_of (r : outcome Response) : list string :=
  match r with
  | Returns (ReportLogged _ triggered_patterns) => triggered_patterns
  | _ => []
  end.

(** ** Sample inputs *)

Definition sample_clock : Clock :=
  mkClock (mkdate 2025 1 3) "2025-01-03T09:00:00" "Friday".

Definition later_clock : Clock :=
  mkClock (mkdate 2025 1 10) "2025-01-10T09:00:00" "Friday".

Definition february_clock : Clock :=
  mkClock (mkdate 2025 2 1) "2025-02-01T21:00:00" "Saturday".

Definition sample_plan : Plan :=
  {| tasks := [mkTask "Math homework" (Some 2%float); mkTask "Read paper" None];
     context := "normal"; energy_level := "high"; total_time := 2;
     created_at := "2025-01-01T08:00:00" |}.

Definition three_task_plan : Plan :=
  {| tasks := [mkTask "Essay" None; mkTask "Lab" None; mkTask "Quiz" None];
     context := "normal"; energy_level := "medium"; total_time := 0;
     created_at := "2025-01-03T08:00:00" |}.

Definition four_task_plan : Plan :=
  {| tasks := [mkTask "Essay" None; mkTask "Lab" None; mkTask "Quiz" None;
               mkTask "Slides" None];
     context := "normal"; energy_level := "medium"; total_time := 0;
     created_at := "2025-02-01T08:00:00" |}.

(** The default document of 2025-01-03 holding a plan for that day. *)
Definition planned_document : Document :=
  set_plan [("2025-01-03", sample_plan)] (_get_default_data sample_clock).

(** The default document of 2025-01-03 with its last plan set on 2025-01-01. *)
Definition idle_document : Document :=
  set_analytics
    (set_last_task_date (Some "2025-01-01") (analytics (_get_default_data sample_clock)))
    (_get_default_data sample_clock).

(** The default document of 2025-01-03 holding one report, dated a week
    later, with every task completed. *)
Definition future_report : Report :=
  {| completed := ["Essay"]; partial := []; skipped := []; completion_rate := 1;
     reported_at := "2025-01-03T20:00:00" |}.

Definition future_document : Document :=
  set_reports [("2025-01-10", future_report)] (_get_default_data sample_clock).

(** The default document after five hectic plans in a row. *)
Definition strained_document : Document :=
  set_analytics
    (set_consecutive_high_intensity_days 5 (analytics (_get_default_data sample_clock)))
    (_get_default_data sample_clock).

(** Five hectic plans on five days in a row, the last on 2025-01-03, and
    the next day's report of the last one with nothing completed. *)
Definition hectic_plan (clk : Clock) : Clock * Call :=
  (clk, SetDailyPlan (today_str clk) [mkTask "Thesis" (Some 3%float)] "hectic" "low").

Definition five_hectic_plans : list (Clock * Call) :=
  [ hectic_plan (mkClock (mkdate 2024 12 30) "2024-12-30T09:00:00" "Monday");
    hectic_plan (mkClock (mkdate 2024 12 31) "2024-12-31T09:00:00" "Tuesday");
    hectic_plan (mkClock (mkdate 2025 1 1) "2025-01-01T09:00:00" "Wednesday");
    hectic_plan (mkClock (mkdate 2025 1 2) "2025-01-02T09:00:00" "Thursday");
    hectic_plan sample_clock ].

Definition next_day_clock : Clock :=
  mkClock (mkdate 2025 1 4) "2025-01-04T09:00:00" "Saturday".

Definition nothing_done_report : Call :=
  SubmitReport "2025-01-03" [] [] [] false "" false "".

(** A task name whose first token ends at a tab. *)
Definition tabbed_name : string := ("Math" ++ String "009" "quiz")%string.

(** A report for 2025-01-03 that skips one task. *)
Definition math_report (task : string) : Call :=
  SubmitReport "2025-01-03" [] [] [mkItem task (Some "too hard")] false "" false "".

Definition sample_calls : list (Clock * Call) :=
  [ (sample_clock, SetDailyPlan "2025-01-03" (tasks sample_plan) "hectic" "high");
    (sample_clock, SubmitReport "2025-01-03" ["Math homework"] []
                     [mkItem "Read paper" (Some "no time")] false "" false "");
    (later_clock, SetDailyPlan "2025-01-10" [] "normal" "low");
    (later_clock, CheckReadiness) ].

(** ** The transitions of the data file *)

(** What [report] writes for a holiday and for an absence: the entry is
    appended to the log and the intensity streak is reset. *)
Definition holiday_logged (clk : Clock) (date holiday_reason : string) (d : Document)
  : Document :=
  set_analytics
    (set_consecutive_high_intensity_days 0
       (set_holidays_log
          (holidays_log (analytics d) ++ [mkLogEntry date holiday_reason (today_str clk)])
          (analytics d))) d.

Definition absence_logged (clk : Clock) (date absence_reason : string) (d : Document)
  : Document :=
  set_analytics
    (set_consecutive_high_intensity_days 0
       (set_absence_log
          (absence_log (analytics d) ++ [mkLogEntry date absence_reason (today_str clk)])
          (analytics d))) d.

(** The plan [set_daily_plan] stores, and whether it counts as intense. *)
Definition plan_data_of (clk : Clock) (ts : list Task) (ctx energy : string) : Plan :=
  {| tasks := ts; context := ctx; energy_level := energy;
     total_time := Py.sum (map task_time ts); created_at := now_isoformat clk |}.

Definition intense (ts : list Task) (ctx : string) : bool :=
  String.eqb ctx "hectic" || (5 <? Py.sum (map task_time ts))%float.

(** What [set_daily_plan] writes. *)
Definition plan_set (clk : Clock) (date : string) (ts : list Task) (ctx energy : string)
  (d : Document) : Document :=
  let a := set_absence_counter 0 (set_last_task_date (Some date) (analytics d)) in
  set_analytics
    (set_consecutive_high_intensity_days
       (if intense ts ctx then consecutive_high_intensity_days (analytics d) + 1 else 0) a)
    (set_plan [(date, plan_data_of clk ts ctx energy)] d).

Definition is_valid_phase (phase : string) : bool :=
  existsb (String.eqb phase) valid_phases.

(** One call of a tool at clock [clk], seen from the data file: from the
    document the call loads to the document it leaves. *)
Inductive file_step (clk : Clock) (d : Document) : Document -> Prop :=
| step_none : file_step clk d d
| step_refresh : file_step clk d (refresh_absence clk d)
| step_holiday (date reason : string) :
    file_step clk d (holiday_logged clk date reason d)
| step_absence (date reason : string) :
    file_step clk d (absence_logged clk date reason d)
| step_report (date : string) (completed : list string) (partial skipped : list Item)
    (p : Plan) (d' : Document) :
    get date (plan d) = Some p ->
    analytics_pass clk (reported_document clk d date completed partial skipped p)
    = Returns d' ->
    file_step clk d d'
| step_plan (date : string) (ts : list Task) (ctx energy : string) :
    file_step clk d (plan_set clk date ts ctx energy d)
| step_context (d' : Document) :
    analytics_pass clk d = Returns d' -> file_step clk d d'
| step_phase (phase : string) :
    is_valid_phase phase = true ->
    file_step clk d (set_analytics (set_semester_phase phase (analytics d)) d)
| step_edit (new_tasks : LongTermTasks) :
    file_step clk d (set_long_term_tasks new_tasks d).

(** The documents a sequence of calls can leave, from a given document. *)
Inductive file_steps : Document -> Document -> Prop :=
| steps_nil (d : Document) : file_steps d d
| steps_cons (clk : Clock) (d d1 d2 : Document) :
    file_step clk d d1 -> file_steps d1 d2 -> file_steps d d2.

(** The scoring of [validate_day_off_request], on the recomputed document:
    the score before clamping with the rules that fired, then the answer. *)
Definition day_off_phase_rule (phase : string) (score : float) (reasons : list Reason)
  : float * list Reason :=
  if String.eqb phase "mid_semester" || String.eqb phase "late_semester"
     || String.eqb phase "finals_period"
  then ((score + 0.2)%float, reasons ++ [PhaseIsCritical])
  else if String.eqb phase "early_semester"
  then ((score - 0.2)%float, reasons ++ [PhaseIsEarly])
  else if String.eqb phase "semester_break"
  then ((score + 0.2)%float, reasons ++ [SemesterBreak])
  else (score, reasons).

Definition day_off_holiday_rule (clk : Clock) (holidays_log : list LogEntry)
  (score : float) (reasons : list Reason) : outcome (float * list Reason) :=
  match rev holidays_log with
  | [] => Returns (score, reasons)
  | last_holiday :: _ =>
      match strptime (log_date last_holiday) with
      | None => Raises ValueError
      | Some last_holiday_date =>
          if days_between (today clk) last_holiday_date <=? 4
          then Returns ((score - 0.4)%float, reasons ++ [RecentDayOff])
          else Returns (score, reasons)
      end
  end.

Definition day_off_burnout_rule (burnout_risk : string) (score : float)
  (reasons : list Reason) : float * list Reason :=
  if String.eqb burnout_risk "high" || String.eqb burnout_risk "critical"
  then ((score + 0.3)%float, reasons ++ [BurnoutIsHigh])
  else (score, reasons).

Definition day_off_raw_score (clk : Clock) (data : Document)
  : outcome (float * list Reason) :=
  let a := analytics data in
  let dedication := dedication_percentage a in
  obind (int_of_float (dedication * 100)%float) (fun percent =>
  let sr := day_off_phase_rule (semester_phase a)
              (0.5 + (dedication - 0.7) * 0.5)%float [DedicationIsAt percent] in
  obind (day_off_holiday_rule clk (holidays_log a) (fst sr) (snd sr)) (fun sr =>
  Returns (day_off_burnout_rule (burnout_risk a) (fst sr) (snd sr)))).

Definition day_off_answer (clk : Clock) (data : Document) : outcome Response :=
  obind (day_off_raw_score clk data) (fun sr =>
  Returns (DayOffScore (round2 (max0 (min1 (fst sr)))) (snd sr))).

(** ** Well-formed documents and growing histories *)

Definition band_names : list string := ["low"; "medium"; "high"; "critical"].

(** A skip counter that counts the reasons recorded with it. *)
Definition counted (e : ProblemTask) : Prop :=
  skip_count e = Z.of_nat (List.length (skip_reasons e)) /\ 1 <= skip_count e.

(** What every document written by the engine satisfies. *)
Definition well_formed (d : Document) : Prop :=
  0 <= absence_counter (analytics d) /\
  0 <= consecutive_high_intensity_days (analytics d) /\
  In (burnout_risk (analytics d)) band_names /\
  In (semester_phase (analytics d)) ("N/A" :: valid_phases) /\
  NoDup (keys (reports d)) /\
  NoDup (keys (problem_tasks (analytics d))) /\
  (forall k e, get k (problem_tasks (analytics d)) = Some e -> counted e).

(** [d'] keeps the history of [d]: logs are extended at the end, no report
    date disappears, no skip counter decreases and no recorded reason is
    lost. *)
Definition keeps_history (d d' : Document) : Prop :=
  (exists more, holidays_log (analytics d') = holidays_log (analytics d) ++ more) /\
  (exists more, absence_log (analytics d') = absence_log (analytics d) ++ more) /\
  (forall k, mem k (reports d) = true -> mem k (reports d') = true) /\
  (forall k, skip_count_of k (problem_tasks (analytics d))
             <= skip_count_of k (problem_tasks (analytics d'))) /\
  (forall k, exists more,
     skip_reasons_of k (problem_tasks (analytics d'))
     = skip_reasons_of k (problem_tasks (analytics d)) ++ more).

(** ** What each tool may write *)

Inductive Kind : Type :=
| Gate | Reader | Holiday | Absence | Normal | Planner | Context | Phase | Editor | Scorer.

Definition kind (c : Call) : Kind :=
  match c with
  | CheckReadiness => Gate
  | GetRecentReports _ => Reader
  | SubmitReport _ _ _ _ was_absent _ was_holiday _ =>
      if was_holiday then Holiday else if was_absent then Absence else Normal
  | SetDailyPlan _ _ _ _ => Planner
  | GetAnalyticsContext => Context
  | UpdateSemesterPhase _ => Phase
  | ShowLongTermTasks => Reader
  | EditLongTermTasks _ => Editor
  | ValidateDayOffRequest => Scorer
  end.

Inductive Field : Type :=
| FPlan | FReports | FLongTermTasks | FProblemTasks | FCompletionTrends | FDedication
| FAbsenceCounter | FLastTaskDate | FSemesterPhase | FIntensity | FBurnoutRisk
| FAbsenceLog | FHolidaysLog.

Definition same_field (f : Field) (d d' : Document) : Prop :=
  match f with
  | FPlan => plan d' = plan d
  | FReports => reports d' = reports d
  | FLongTermTasks => long_term_tasks d' = long_term_tasks d
  | FProblemTasks => problem_tasks (analytics d') = problem_tasks (analytics d)
  | FCompletionTrends => completion_trends (analytics d') = completion_trends (analytics d)
  | FDedication =>
      dedication_percentage (analytics d') = dedication_percentage (analytics d)
  | FAbsenceCounter => absence_counter (analytics d') = absence_counter (analytics d)
  | FLastTaskDate => last_task_date (analytics d') = last_task_date (analytics d)
  | FSemesterPhase => semester_phase (analytics d') = semester_phase (analytics d)
  | FIntensity =>
      consecutive_high_intensity_days (analytics d')
      = consecutive_high_intensity_days (analytics d)
  | FBurnoutRisk => burnout_risk (analytics d') = burnout_risk (analytics d)
  | FAbsenceLog => absence_log (analytics d') = absence_log (analytics d)
  | FHolidaysLog => holidays_log (analytics d') = holidays_log (analytics d)
  end.

(** The fields of the stored document a tool of each kind can change. *)
Definition writes (k : Kind) : list Field :=
  match k with
  | Gate => [FAbsenceCounter]
  | Reader => []
  | Holiday => [FHolidaysLog; FIntensity]
  | Absence => [FAbsenceLog; FIntensity]
  | Normal =>
      [FReports; FProblemTasks; FCompletionTrends; FDedication; FBurnoutRisk;
       FAbsenceCounter]
  | Planner => [FPlan; FLastTaskDate; FAbsenceCounter; FIntensity]
  | Context => [FCompletionTrends; FDedication; FBurnoutRisk; FAbsenceCounter]
  | Phase => [FSemesterPhase]
  | Editor => [FLongTermTasks]
  | Scorer => [FAbsenceCounter]
  end.

Definition stored_after (clk : Clock) (c : Call) (s : Store) : Document :=
  loaded clk (snd (run_call clk c s)).

(** ** The readiness gate, by its conditions *)

Definition no_blocking (today_s : string) (d : Document) : Prop :=
  forall date, ~ blocking today_s d date.

(** The gate goes on to recompute: nothing blocks, today has no plan and no
    report. *)
Definition ready_path (clk : Clock) (d : Document) : Prop :=
  no_blocking (today_str clk) d /\
  mem (today_str clk) (plan d) = false /\
  get (today_str clk) (reports d) = None.

(** [last_task_date] is set and is not a date. *)
Definition unreadable_last_task_date (d : Document) : Prop :=
  exists str, last_task_date (analytics d) = Some str /\ str <> EmptyString /\
              strptime str = None.

(** The last entry of [holidays_log] carries a date that is not a date. *)
Definition unreadable_last_holiday (d : Document) : Prop :=
  exists h older, rev (holidays_log (analytics d)) = h :: older /\
                  strptime (log_date h) = None.

(** The last holiday is dated at most [n] days before today. *)
Definition holiday_within (clk : Clock) (n : Z) (d : Document) : Prop :=
  exists h older dt, rev (holidays_log (analytics d)) = h :: older /\
                     strptime (log_date h) = Some dt /\
                     days_between (today clk) dt <= n.

(** The recommendation read off burnout risk and intensity alone. *)
Definition rest_table (burnout_risk : string) (intensity : Z) : string :=
  if String.eqb burnout_risk "critical" then "MANDATORY_REST"
  else if String.eqb burnout_risk "high" then "RECOMMENDED_REST"
  else if String.eqb burnout_risk "medium" || (intensity >=? 3)
  then "RECOMMENDED_LIGHT_DAY"
  else "PROCEED_NORMALLY".

(** ** When the tools raise *)

(** A counter too large for a double: [float(absence_counter)] overflows, or
    the streak is above 3 and [float(high_intensity_task_days - 3)] does. *)
Definition counters_overflow (d : Document) : Prop :=
  float_of_int (absence_counter (analytics d)) = Raises OverflowError \/
  (3 < consecutive_high_intensity_days (analytics d) /\
   float_of_int (consecutive_high_intensity_days (analytics d) - 3)
   = Raises OverflowError).

(** The recalculation of the analytics of [d] raises [e]: the absence refresh
    first, then dedication. *)
Definition recalculation_raises (d : Document) (e : exn) : Prop :=
  (unreadable_last_task_date d /\ e = ValueError) \/
  (~ unreadable_last_task_date d /\ counters_overflow d /\ e = OverflowError).

(** The day-off scorer raises [e] on the recomputed document [d']: on the
    percentage of a dedication that is NaN or infinite, then on the date of
    the last holiday. *)
Definition scoring_raises (d' : Document) (e : exn) : Prop :=
  int_of_float (dedication_percentage (analytics d') * 100)%float = Raises e \/
  ((exists percent,
       int_of_float (dedication_percentage (analytics d') * 100)%float = Returns percent) /\
   unreadable_last_holiday d' /\ e = ValueError).

(** The condition under which a call raises [e] on the document [d] it has
    loaded. *)
Definition raises_when (clk : Clock) (c : Call) (d : Document) (e : exn) : Prop :=
  match c with
  | CheckReadiness =>
      ready_path clk d /\
      (recalculation_raises d e \/
       ((forall e', ~ recalculation_raises d e') /\
        unreadable_last_holiday d /\ e = ValueError))
  | SubmitReport date _ _ _ false _ false _ =>
      mem date (plan d) = true /\ recalculation_raises d e
  | GetAnalyticsContext => recalculation_raises d e
  | ValidateDayOffRequest =>
      recalculation_raises d e \/
      (exists d', ~ unreadable_last_task_date d /\
                  analytics_pass clk d = Returns d' /\ scoring_raises d' e)
  | _ => False
  end.

(** ** The reports a window selects *)

(** The test of [_get_recent_reports] on one entry of [reports]. *)
Definition selected (today : date) (days : Z) (item : string * Report) : bool :=
  match strptime (fst item) with
  | Some report_date => days_between today report_date <? days
  | None => false
  end.

(** No report is dated after today. *)
Definition no_future_report (clk : Clock) (d : Document) : Prop :=
  forall k r dt, In (k, r) (reports d) -> strptime k = Some dt ->
                 0 <= days_between (today clk) dt.

(** ** The intensity streak *)

(** What one call does to [consecutive_high_intensity_days]: a plan that is
    hectic or longer than 5 hours adds one, any other plan and every holiday
    or absence report reset it, and nothing else touches it. *)
Definition streak_after (c : Call) (streak : Z) : Z :=
  match c with
  | SetDailyPlan _ ts ctx _ => if intense ts ctx then streak + 1 else 0
  | SubmitReport _ _ _ _ was_absent _ was_holiday _ =>
      if was_holiday || was_absent then 0 else streak
  | _ => streak
  end.

Definition is_edit_long_term_tasks (c : Call) : bool :=
  match c with
  | EditLongTermTasks _ => true
  | _ => false
  end.

(** * Lemmas on the embedding *)

(** ** ISO date strings are ordered as the dates they denote *)

Section IsoOrder.

Lemma digit_char_compare (x y : Z) :
  Ascii.compare (digit_char x) (digit_char y) = Z.compare (x mod 10) (y mod 10).
Proof.
  unfold Ascii.compare, digit_char.
  pose proof (Z.mod_pos_bound x 10 ltac:(lia)) as Hx.
  pose proof (Z.mod_pos_bound y 10 ltac:(lia)) as Hy.
  rewrite !N_ascii_embedding by lia.
  rewrite Z2N.inj_compare by lia.
  apply Z.add_compare_mono_l.
Qed.

Lemma then_compare_mix (x y r r' w : Z) :
  0 <= r < w -> 0 <= r' < w ->
  then_compare (x ?= y) (r ?= r') = (x * w + r ?= y * w + r').
Proof.
  intros Hr Hr'. unfold then_compare.
  destruct (Z.compare_spec x y) as [->|H|H]; symmetry.
  - destruct (Z.compare_spec r r') as [->|H|H].
    + apply Z.compare_refl.
    + apply Z.compare_lt_iff. lia.
    + apply Z.compare_gt_iff. lia.
  - apply Z.compare_lt_iff. nia.
  - apply Z.compare_gt_iff. nia.
Qed.

Lemma then_compare_Eq (c : comparison) : then_compare c Eq = c.
Proof. destruct c; reflexivity. Qed.

Lemma days_in_month_bounds (y m : Z) : 28 <= days_in_month y m <= 31.
Proof.
  unfold days_in_month.
  destruct (m =? 2); [destruct (is_leap y); lia|].
  destruct ((m =? 4) || (m =? 6) || (m =? 9) || (m =? 11)); lia.
Qed.

Lemma isoformat_compare (a b : date) :
  valid_date a -> valid_date b ->
  String.compare (isoformat a) (isoformat b) = Z.compare (iso_key a) (iso_key b).
Proof.
  intros (Hya & Hma & Hda) (Hyb & Hmb & Hdb).
  pose proof (days_in_month_bounds (year a) (month a)).
  pose proof (days_in_month_bounds (year b) (month b)).
  unfold isoformat, iso_key. cbn [String.compare].
  rewrite !digit_char_compare.
  replace (Ascii.compare "-" "-") with Eq by reflexivity.
  destruct a as [ya ma da], b as [yb mb db]. cbn [year month day] in *.
  repeat match goal with
         | |- context [match ?c with Eq => ?k | Lt => Lt | Gt => Gt end] =>
             change (match c with Eq => k | Lt => Lt | Gt => Gt end)
               with (then_compare c k)
         end.
  repeat match goal with
         | |- context [?t mod 10] =>
             let d := fresh "d" in
             let Hd := fresh "Hd" in
             let Ed := fresh "Ed" in
             pose proof (Z.mod_pos_bound t 10 ltac:(lia)) as Hd;
             remember (t mod 10) as d eqn:Ed
         end.
  rewrite then_compare_Eq.
  rewrite (then_compare_mix _ _ _ _ 10) by lia.
  rewrite (then_compare_mix _ _ _ _ 100) by lia.
  rewrite (then_compare_mix _ _ _ _ 1000) by lia.
  rewrite (then_compare_mix _ _ _ _ 10000) by lia.
  rewrite (then_compare_mix _ _ _ _ 100000) by lia.
  rewrite (then_compare_mix _ _ _ _ 1000000) by lia.
  rewrite (then_compare_mix _ _ _ _ 10000000) by lia.
  f_equal; subst; Z.div_mod_to_equations; lia.
Qed.

Lemma days_before_month_from_mono (y : Z) (k k' : nat) :
  (k <= k')%nat -> days_before_month_from y k <= days_before_month_from y k'.
Proof.
  induction 1 as [|k' _ IH]; [lia|]. cbn [days_before_month_from].
  pose proof (days_in_month_bounds y (Z.of_nat (S k'))). lia.
Qed.

Lemma days_before_month_succ (y m : Z) :
  1 <= m -> days_before_month y (m + 1) = days_before_month y m + days_in_month y m.
Proof.
  intros Hm. unfold days_before_month.
  replace (Z.to_nat (m + 1 - 1)) with (S (Z.to_nat (m - 1))) by lia.
  cbn [days_before_month_from]. do 2 f_equal. lia.
Qed.

Lemma days_before_month_mono (y m m' : Z) :
  m <= m' -> days_before_month y m <= days_before_month y m'.
Proof. intros H. apply days_before_month_from_mono. lia. Qed.

Lemma days_before_month_13 (y : Z) : days_before_month y 13 = days_in_year y.
Proof.
  unfold days_before_month, days_in_year.
  change (Z.to_nat (13 - 1)) with 12%nat. cbn [days_before_month_from].
  repeat match goal with
         | |- context [Z.of_nat ?n] =>
             let v := eval vm_compute in (Z.of_nat n) in change (Z.of_nat n) with v
         end.
  unfold days_in_month. cbn [Z.eqb Pos.eqb orb].
  destruct (is_leap y); reflexivity.
Qed.

Lemma days_before_year_succ (y : Z) :
  days_before_year (y + 1) = days_before_year y + days_in_year y.
Proof.
  unfold days_before_year, days_in_year, is_leap.
  replace (y + 1 - 1) with y by lia.
  destruct (Z.eqb_spec (y mod 4) 0), (Z.eqb_spec (y mod 100) 0),
    (Z.eqb_spec (y mod 400) 0); cbn [andb orb negb];
    Z.div_mod_to_equations; lia.
Qed.

Lemma days_before_year_mono (y y' : Z) :
  y <= y' -> days_before_year y <= days_before_year y'.
Proof.
  intros H. unfold days_before_year. Z.div_mod_to_equations. lia.
Qed.

Lemma day_of_year_bounds (d : date) :
  valid_date d ->
  1 <= days_before_month (year d) (month d) + day d <= days_in_year (year d).
Proof.
  intros (Hy & Hm & Hd).
  pose proof (days_before_month_mono (year d) 1 (month d) ltac:(lia)) as H1.
  change (days_before_month (year d) 1) with 0 in H1.
  pose proof (days_before_month_mono (year d) (month d + 1) 13 ltac:(lia)) as H2.
  rewrite days_before_month_succ, days_before_month_13 in H2 by lia.
  lia.
Qed.

Lemma toordinal_lt (a b : date) :
  valid_date a -> valid_date b -> iso_key a < iso_key b -> toordinal a < toordinal b.
Proof.
  intros Ha Hb Hk.
  pose proof (day_of_year_bounds a Ha) as Da.
  pose proof (day_of_year_bounds b Hb) as Db.
  destruct Ha as (Hya & Hma & Hda), Hb as (Hyb & Hmb & Hdb).
  pose proof (days_in_month_bounds (year a) (month a)).
  pose proof (days_in_month_bounds (year b) (month b)).
  unfold iso_key in Hk. unfold toordinal.
  assert (Hcases : year a < year b \/
                   (year a = year b /\ month a < month b) \/
                   (year a = year b /\ month a = month b /\ day a < day b)) by lia.
  destruct Hcases as [Hy|[(Hy & Hm)|(Hy & Hm & Hd)]].
  - pose proof (days_before_year_mono (year a + 1) (year b) ltac:(lia)) as Hmono.
    rewrite days_before_year_succ in Hmono. lia.
  - rewrite <- Hy in *.
    pose proof (days_before_month_mono (year a) (month a + 1) (month b) ltac:(lia)) as Hmono.
    rewrite days_before_month_succ in Hmono by lia. lia.
  - rewrite Hy, Hm. lia.
Qed.

(** On calendar dates, [<] on ISO strings is [<] on the dates. *)
Lemma iso_strings_order_as_dates (a b : date) :
  valid_date a -> valid_date b ->
  (str_lt (isoformat a) (isoformat b) = true <-> days_between b a > 0).
Proof.
  intros Ha Hb. unfold str_lt, String.ltb, days_between.
  rewrite (isoformat_compare a b Ha Hb).
  destruct (Z.compare_spec (iso_key a) (iso_key b)) as [He|Hl|Hg].
  - split; [discriminate|]. intros H. exfalso.
    destruct a as [ya ma da], b as [yb mb db].
    destruct Ha as (Hya & Hma & Hda), Hb as (Hyb & Hmb & Hdb).
    pose proof (days_in_month_bounds ya ma). pose proof (days_in_month_bounds yb mb).
    unfold iso_key in He. cbn [year month day] in *.
    assert (ya = yb /\ ma = mb /\ da = db) as (-> & -> & ->) by lia. lia.
  - split; [|reflexivity]. intros _. pose proof (toordinal_lt a b Ha Hb Hl). lia.
  - split; [discriminate|]. intros H. pose proof (toordinal_lt b a Hb Ha ltac:(lia)). lia.
Qed.

End IsoOrder.

(** ** Order on strings and [sorted] *)

Section StringOrder.

Lemma ascii_compare_lt_trans (a b c : ascii) :
  Ascii.compare a b = Lt -> Ascii.compare b c = Lt -> Ascii.compare a c = Lt.
Proof.
  unfold Ascii.compare. rewrite !N.compare_lt_iff. lia.
Qed.

Lemma string_compare_lt_trans (a b c : string) :
  String.compare a b = Lt -> String.compare b c = Lt -> String.compare a c = Lt.
Proof.
  revert b c. induction a as [|x a IH]; intros [|y b] [|z c]; simpl; try congruence.
  destruct (Ascii.compare x y) eqn:Hxy; try discriminate;
    destruct (Ascii.compare y z) eqn:Hyz; try discriminate; intros H1 H2.
  - apply Ascii.compare_eq_iff in Hxy, Hyz. subst.
    replace (Ascii.compare z z) with Eq
      by (symmetry; unfold Ascii.compare; apply N.compare_refl).
    eauto.
  - apply Ascii.compare_eq_iff in Hxy. subst. now rewrite Hyz.
  - apply Ascii.compare_eq_iff in Hyz. subst. now rewrite Hxy.
  - now rewrite (ascii_compare_lt_trans _ _ _ Hxy Hyz).
Qed.

Lemma string_compare_refl (a : string) : String.compare a a = Eq.
Proof.
  induction a as [|x a IH]; simpl; auto.
  replace (Ascii.compare x x) with Eq
    by (symmetry; unfold Ascii.compare; apply N.compare_refl).
  exact IH.
Qed.

Lemma str_le_refl (a : string) : str_le a a = true.
Proof. unfold str_le, String.leb. now rewrite string_compare_refl. Qed.

Lemma str_le_trans (a b c : string) :
  str_le a b = true -> str_le b c = true -> str_le a c = true.
Proof.
  unfold str_le, String.leb.
  destruct (String.compare a b) eqn:Hab; try discriminate;
    destruct (String.compare b c) eqn:Hbc; try discriminate; intros _ _.
  - apply String.compare_eq_iff in Hab, Hbc. subst. now rewrite string_compare_refl.
  - apply String.compare_eq_iff in Hab. subst. now rewrite Hbc.
  - apply String.compare_eq_iff in Hbc. subst. now rewrite Hab.
  - now rewrite (string_compare_lt_trans _ _ _ Hab Hbc).
Qed.

Lemma str_le_total (a b : string) : str_le a b = false -> str_le b a = true.
Proof.
  intros H. destruct (String.leb_total a b) as [H'|H']; unfold str_le in *; congruence.
Qed.

Lemma insert_sorted_In (x y : string) (xs : list string) :
  In y (insert_sorted x xs) <-> y = x \/ In y xs.
Proof.
  induction xs as [|z xs IH]; simpl.
  - intuition.
  - destruct (str_le x z); simpl; rewrite ?IH; intuition.
Qed.

Lemma sorted_In (y : string) (xs : list string) : In y (sorted xs) <-> In y xs.
Proof.
  induction xs as [|x xs IH]; simpl; [tauto|].
  rewrite insert_sorted_In, IH. intuition.
Qed.

Lemma insert_sorted_length (x : string) (xs : list string) :
  List.length (insert_sorted x xs) = S (List.length xs).
Proof.
  induction xs as [|z xs IH]; simpl; auto.
  destruct (str_le x z); simpl; auto.
Qed.

Lemma sorted_length (xs : list string) : List.length (sorted xs) = List.length xs.
Proof.
  induction xs as [|x xs IH]; simpl; auto.
  now rewrite insert_sorted_length, IH.
Qed.

(** The head of an insertion is below the inserted element and below the old
    head. *)
Lemma insert_sorted_head (x m : string) (xs rest : list string) (e : string) :
  (forall y, In y (m :: xs) -> str_le m y = true) ->
  insert_sorted x (m :: xs) = e :: rest ->
  forall y, In y (x :: m :: xs) -> str_le e y = true.
Proof.
  intros Hm. simpl. destruct (str_le x m) eqn:Hxm; intros He y Hy; inversion He; subst.
  - destruct Hy as [<-|Hy]; [apply str_le_refl|].
    eapply str_le_trans; [exact Hxm | now apply Hm].
  - destruct Hy as [<-|Hy]; [now apply str_le_total | now apply Hm].
Qed.

(** [sorted(xs)[0]] is the least element of [xs]. *)
Lemma sorted_head_least (xs rest : list string) (e : string) :
  sorted xs = e :: rest -> forall y, In y xs -> str_le e y = true.
Proof.
  revert e rest. induction xs as [|x xs IH]; simpl; intros e rest He y Hy; [tauto|].
  destruct (sorted xs) as [|m ms] eqn:Hs.
  - simpl in He. inversion He; subst.
    assert (xs = []) by (apply length_zero_iff_nil; now rewrite <- sorted_length, Hs).
    subst. destruct Hy as [<-|[]]. apply str_le_refl.
  - assert (Hm : forall y, In y (m :: ms) -> str_le m y = true).
    { intros z Hz. apply (IH m ms eq_refl). rewrite <- sorted_In, Hs. exact Hz. }
    apply (insert_sorted_head x m ms rest e Hm He).
    destruct Hy as [<-|Hy]; [now left|]. right.
    change (In y (m :: ms)). rewrite <- Hs. now apply sorted_In.
Qed.

End StringOrder.

(** ** Dictionaries *)

Lemma get_In_keys {V : Type} (k : string) (d : dict V) :
  In k (keys d) -> exists v, get k d = Some v.
Proof.
  induction d as [|[k' v] d IH]; simpl; [tauto|].
  intros H. destruct (String.eqb k' k) eqn:E; [eauto|].
  destruct H as [H|H]; [|auto].
  subst. rewrite String.eqb_refl in E. discriminate.
Qed.

Lemma get_set_same {V : Type} (k : string) (v : V) (d : dict V) :
  get k (set k v d) = Some v.
Proof.
  induction d as [|[k' v'] d IH]; simpl.
  - now rewrite String.eqb_refl.
  - destruct (String.eqb k' k) eqn:E; simpl.
    + now rewrite String.eqb_refl.
    + now rewrite E.
Qed.

Lemma get_set_other {V : Type} (k k0 : string) (v : V) (d : dict V) :
  k <> k0 -> get k0 (set k v d) = get k0 d.
Proof.
  intros Hne. induction d as [|[k' v'] d IH]; simpl.
  - destruct (String.eqb k k0) eqn:E; [|reflexivity].
    apply String.eqb_eq in E. contradiction.
  - destruct (String.eqb k' k) eqn:E; simpl.
    + apply String.eqb_eq in E. subst k'.
      destruct (String.eqb k k0) eqn:E0; [|reflexivity].
      apply String.eqb_eq in E0. contradiction.
    + now rewrite IH.
Qed.

(** ** The data file under the analytics recalculation *)

Lemma load_data_eq (clk : Clock) (s : Store) :
  _load_data clk s = (Returns (loaded clk s), Some (loaded clk s)).
Proof. destruct s; reflexivity. Qed.

Lemma plan_loaded (clk : Clock) (s : Store) : plan (loaded clk s) = plan_of s.
Proof. destruct s; reflexivity. Qed.

(** [_update_absence_counter] returns or raises [ValueError], and leaves the
    loaded document with its absence counter refreshed in the file. *)
Lemma update_absence_counter_eq (clk : Clock) (s : Store) :
  _update_absence_counter clk s =
    (match last_task_date (analytics (loaded clk s)) with
     | Some str =>
         if falsy_str (Some str) then Returns tt
         else match strptime str with Some _ => Returns tt | None => Raises ValueError end
     | None => Returns tt
     end,
     Some (refresh_absence clk (loaded clk s))).
Proof.
  unfold _update_absence_counter, bind. rewrite load_data_eq.
  unfold refresh_absence.
  destruct (last_task_date (analytics (loaded clk s))) as [str|]; [|reflexivity].
  destruct (falsy_str (Some str)); [reflexivity|].
  destruct (strptime str); reflexivity.
Qed.

Lemma update_absence_counter_store (clk : Clock) (s : Store) :
  snd (_update_absence_counter clk s) = Some (refresh_absence clk (loaded clk s)).
Proof. now rewrite update_absence_counter_eq. Qed.

(** The refresh writes the absence counter and nothing else. *)
Lemma refresh_absence_frame (clk : Clock) (d : Document) :
  exists c, refresh_absence clk d = set_analytics (set_absence_counter c (analytics d)) d.
Proof.
  unfold refresh_absence.
  assert (Hid : d = set_analytics (set_absence_counter (absence_counter (analytics d))
                                     (analytics d)) d)
    by (destruct d as [pl rp lt a]; destruct a; reflexivity).
  destruct (falsy_str (last_task_date (analytics d))); [eauto|].
  destruct (last_task_date (analytics d)) as [str|]; [|eauto].
  destruct (strptime str); eauto.
Qed.

Lemma refresh_absence_plan (clk : Clock) (d : Document) :
  plan (refresh_absence clk d) = plan d.
Proof. destruct (refresh_absence_frame clk d) as [c ->]. reflexivity. Qed.

Lemma refresh_absence_last_task_date (clk : Clock) (d : Document) :
  last_task_date (analytics (refresh_absence clk d)) = last_task_date (analytics d).
Proof. destruct (refresh_absence_frame clk d) as [c ->]. reflexivity. Qed.

Lemma refresh_absence_idem (clk : Clock) (d : Document) :
  refresh_absence clk (refresh_absence clk d) = refresh_absence clk d.
Proof.
  unfold refresh_absence at 1. rewrite refresh_absence_last_task_date.
  unfold refresh_absence.
  destruct (falsy_str (last_task_date (analytics d))); [reflexivity|].
  destruct (last_task_date (analytics d)) as [str|]; [|reflexivity].
  destruct (strptime str); reflexivity.
Qed.

(** [_update_full_analytics] is the file refresh followed by the pass over the
    caller's document. *)
Lemma update_full_analytics_eq (clk : Clock) (data : Document) (s : Store) :
  _update_full_analytics clk data s =
    match fst (_update_absence_counter clk s) with
    | Returns _ => (analytics_pass clk data, Some (refresh_absence clk (loaded clk s)))
    | Raises e => (Raises e, Some (refresh_absence clk (loaded clk s)))
    end.
Proof.
  unfold _update_full_analytics, bind.
  rewrite (surjective_pairing (_update_absence_counter clk s)).
  rewrite update_absence_counter_store.
  destruct (fst (_update_absence_counter clk s)); [|reflexivity].
  unfold analytics_pass, lift, ret.
  destruct (_calculate_dedication_percentage clk _); reflexivity.
Qed.

Lemma update_full_analytics_store (clk : Clock) (data : Document) (s : Store) :
  snd (_update_full_analytics clk data s) = Some (refresh_absence clk (loaded clk s)).
Proof.
  rewrite update_full_analytics_eq.
  destruct (fst (_update_absence_counter clk s)); reflexivity.
Qed.

(** The pass rewrites [completion_trends], [dedication_percentage] and
    [burnout_risk] of the caller's document and keeps every other field. *)
Lemma analytics_pass_frame (clk : Clock) (data data' : Document) :
  analytics_pass clk data = Returns data' ->
  exists t de br,
    data' =
      set_analytics
        (set_burnout_risk br
           (set_dedication_percentage de
              (set_completion_trends t (analytics data)))) data.
Proof.
  unfold analytics_pass.
  destruct (_calculate_dedication_percentage clk _) as [de|]; [|discriminate].
  cbn [obind]. intros H. inversion H. do 3 eexists. reflexivity.
Qed.

Lemma analytics_pass_plan (clk : Clock) (data data' : Document) :
  analytics_pass clk data = Returns data' -> plan data' = plan data.
Proof.
  intros H. destruct (analytics_pass_frame _ _ _ H) as (t & de & br & ->). reflexivity.
Qed.

(** Dedication reads the reports, the absence counter and the intensity
    streak of the document it is given. *)
Lemma dedication_ext (clk : Clock) (d d' : Document) :
  reports d = reports d' ->
  absence_counter (analytics d) = absence_counter (analytics d') ->
  consecutive_high_intensity_days (analytics d)
    = consecutive_high_intensity_days (analytics d') ->
  _calculate_dedication_percentage clk d = _calculate_dedication_percentage clk d'.
Proof.
  intros Hr Ha Hi. unfold _calculate_dedication_percentage, _get_recent_reports.
  now rewrite Hr, Ha, Hi.
Qed.

Lemma analytics_pass_idem (clk : Clock) (data data' : Document) :
  analytics_pass clk data = Returns data' -> analytics_pass clk data' = Returns data'.
Proof.
  unfold analytics_pass at 1.
  set (data1 := set_analytics (set_completion_trends _ (analytics data)) data).
  destruct (_calculate_dedication_percentage clk data1) as [de|] eqn:Hde; [|discriminate].
  cbn [obind]. intros H. injection H as <-.
  unfold analytics_pass.
  match goal with
  | |- obind (_calculate_dedication_percentage clk ?d) _ = _ =>
      rewrite (dedication_ext clk d data1) by reflexivity
  end.
  rewrite Hde. reflexivity.
Qed.

(** [get_analytics_context]: the recalculation on the loaded document, then
    a write of the recomputed document. *)
Lemma get_analytics_context_eq (clk : Clock) (s : Store) :
  get_analytics_context clk s =
    match fst (_update_absence_counter clk (Some (loaded clk s))) with
    | Returns _ =>
        match analytics_pass clk (loaded clk s) with
        | Returns data' => (Returns (AnalyticsContext (analytics data')), Some data')
        | Raises e => (Raises e, Some (refresh_absence clk (loaded clk s)))
        end
    | Raises e => (Raises e, Some (refresh_absence clk (loaded clk s)))
    end.
Proof.
  unfold get_analytics_context, bind. rewrite load_data_eq.
  rewrite update_full_analytics_eq. cbn [loaded].
  destruct (fst (_update_absence_counter clk (Some (loaded clk s)))); [|reflexivity].
  destruct (analytics_pass clk (loaded clk s)); reflexivity.
Qed.

Lemma update_absence_counter_returns_again (clk : Clock) (d d' : Document) (u : unit) :
  last_task_date (analytics d') = last_task_date (analytics d) ->
  fst (_update_absence_counter clk (Some d)) = Returns u ->
  fst (_update_absence_counter clk (Some d')) = Returns tt.
Proof.
  rewrite !update_absence_counter_eq. cbn [fst loaded]. intros ->.
  destruct (last_task_date (analytics d)) as [str|]; [|reflexivity].
  destruct (falsy_str (Some str)); [reflexivity|].
  destruct (strptime str); [reflexivity|discriminate].
Qed.

(** ** The burnout score *)

Lemma calculate_burnout_risk_eq (data : Document) :
  _calculate_burnout_risk data
  = risk_band (cumulative_risk_score (risk_contributions (analytics data))).
Proof.
  unfold _calculate_burnout_risk, risk_band, cumulative_risk_score, risk_contributions.
  cbn [fold_left fst snd].
  destruct (consecutive_high_intensity_days (analytics data) >=? 3);
  destruct (consecutive_high_intensity_days (analytics data) >=? 5);
  destruct (last_7_days (completion_trends (analytics data)) <? 0.6)%float;
  destruct (dedication_percentage (analytics data) <? 0.5)%float;
  destruct (String.eqb (semester_phase (analytics data)) "mid_semester"
            || String.eqb (semester_phase (analytics data)) "late_semester");
  destruct (String.eqb (semester_phase (analytics data)) "finals_period");
  destruct (absence_counter (analytics data) >? 2);
  reflexivity.
Qed.

(** ** The readiness gate *)

Lemma unreported_dates_In (today_s : string) (data : Document) (date : string) :
  In date (unreported_dates today_s data) <-> blocking today_s data date.
Proof.
  unfold unreported_dates, blocking.
  rewrite sorted_In, filter_In, andb_true_iff, negb_true_iff. tauto.
Qed.

Lemma check_readiness_blocked_inv (clk : Clock) (data : Document) (e : string)
  (ts : list Task) :
  fst (check_readiness_for_planning clk (Some data)) = Returns (BLOCKED e ts) ->
  exists rest, unreported_dates (today_str clk) data = e :: rest /\
    ts = match get e (plan data) with Some p => tasks p | None => [] end.
Proof.
  unfold check_readiness_for_planning, bind, _load_data, ret. simpl.
  destruct (unreported_dates (today_str clk) data) as [|e' rest] eqn:Hu.
  - destruct (mem (today_str clk) (plan data)); simpl; [discriminate|].
    destruct (get (today_str clk) (reports data)); simpl; [discriminate|].
    destruct (_update_full_analytics clk data (Some data)) as [[d'|x] s']; simpl;
      [|discriminate].
    unfold lift. destruct (_recommend_rest_or_light_day clk d'); simpl; discriminate.
  - simpl. intros H. inversion H; subst. eauto.
Qed.

Lemma check_readiness_eq (clk : Clock) (s : Store) :
  check_readiness_for_planning clk s = gate_on clk (loaded clk s).
Proof.
  unfold check_readiness_for_planning, gate_on, bind. rewrite load_data_eq.
  set (d := loaded clk s).
  destruct (unreported_dates (today_str clk) d); [|reflexivity].
  destruct (mem (today_str clk) (plan d)); [reflexivity|].
  destruct (get (today_str clk) (reports d)); [reflexivity|].
  rewrite (surjective_pairing (_update_full_analytics clk d (Some d))).
  rewrite update_full_analytics_store. cbn [loaded fst snd].
  destruct (fst (_update_full_analytics clk d (Some d))) as [data|e]; [|reflexivity].
  unfold lift, ret.
  destruct (_recommend_rest_or_light_day clk data); reflexivity.
Qed.

(** ** Tools and the plan mapping *)

Lemma update_full_analytics_returns_plan
  (clk : Clock) (data data' : Document) (s : Store) :
  fst (_update_full_analytics clk data s) = Returns data' -> plan data' = plan data.
Proof.
  rewrite update_full_analytics_eq.
  destruct (fst (_update_absence_counter clk s)); [|discriminate].
  cbn [fst]. apply analytics_pass_plan.
Qed.

Lemma plan_of_after_refresh (clk : Clock) (s : Store) :
  plan_of (Some (refresh_absence clk (loaded clk s))) = plan_of s.
Proof. cbn [plan_of]. now rewrite refresh_absence_plan, plan_loaded. Qed.

(** A recalculation followed by a write of the recomputed document, as
    [report] and [get_analytics_context] end. *)
Lemma recompute_and_save_plan (clk : Clock) (data : Document) (s : Store)
  (k : Document -> Response) :
  plan data = plan_of s ->
  plan_of (snd ((data' <- _update_full_analytics clk data ;;
                 _save_data data' ;;; ret (k data')) s)) = plan_of s.
Proof.
  intros Hp. unfold bind.
  rewrite (surjective_pairing (_update_full_analytics clk data s)).
  rewrite update_full_analytics_store.
  destruct (fst (_update_full_analytics clk data s)) as [data'|e] eqn:E.
  - cbn [_save_data ret snd plan_of].
    now rewrite (update_full_analytics_returns_plan _ _ _ _ E).
  - cbn [snd]. apply plan_of_after_refresh.
Qed.

Lemma report_plan (clk : Clock) (date : string) (completed : list string)
  (partial skipped : list Item) (was_absent : bool) (absence_reason : string)
  (was_holiday : bool) (holiday_reason : string) (s : Store) :
  plan_of (snd (report clk date completed partial skipped was_absent absence_reason
                  was_holiday holiday_reason s)) = plan_of s.
Proof.
  unfold report, bind at 1. rewrite load_data_eq.
  destruct was_holiday; [cbn; apply plan_loaded|].
  destruct was_absent; [cbn; apply plan_loaded|].
  destruct (get date (plan (loaded clk s))) as [original_plan|];
    [|cbn; apply plan_loaded].
  destruct (skip_loop skipped _ []) as [pt tp].
  rewrite <- (plan_loaded clk s).
  change (plan (loaded clk s)) with (plan_of (Some (loaded clk s))).
  apply recompute_and_save_plan. reflexivity.
Qed.

Lemma check_readiness_plan (clk : Clock) (s : Store) :
  plan_of (snd (check_readiness_for_planning clk s)) = plan_of s.
Proof.
  rewrite check_readiness_eq. unfold gate_on.
  destruct (unreported_dates _ _); [|apply plan_loaded].
  destruct (mem _ _); [apply plan_loaded|].
  destruct (get _ _); [apply plan_loaded|].
  cbn [snd plan_of]. now rewrite refresh_absence_plan, plan_loaded.
Qed.

Lemma get_analytics_context_plan (clk : Clock) (s : Store) :
  plan_of (snd (get_analytics_context clk s)) = plan_of s.
Proof.
  unfold get_analytics_context, bind at 1. rewrite load_data_eq.
  rewrite <- (plan_loaded clk s).
  change (plan (loaded clk s)) with (plan_of (Some (loaded clk s))).
  apply (recompute_and_save_plan clk (loaded clk s) (Some (loaded clk s))
           (fun data => AnalyticsContext (analytics data))).
  reflexivity.
Qed.

Lemma validate_day_off_request_plan (clk : Clock) (s : Store) :
  plan_of (snd (validate_day_off_request clk s)) = plan_of s.
Proof.
  unfold validate_day_off_request, bind at 1. rewrite load_data_eq.
  unfold bind at 1.
  rewrite (surjective_pairing (_update_full_analytics clk _ _)).
  rewrite update_full_analytics_store. cbn [loaded].
  destruct (fst (_update_full_analytics clk _ _)) as [data|e];
    [|cbn [snd plan_of]; now rewrite refresh_absence_plan, plan_loaded].
  unfold bind, lift, raise, ret.
  destruct (int_of_float _) as [percent|e];
    [|cbn [snd plan_of]; now rewrite refresh_absence_plan, plan_loaded].
  repeat match goal with
         | |- context [if ?b then _ else _] => destruct b
         | |- context [match rev ?x with _ => _ end] => destruct (rev x)
         | |- context [match strptime ?x with _ => _ end] => destruct (strptime x)
         end;
    cbn [snd plan_of]; now rewrite refresh_absence_plan, plan_loaded.
Qed.

Lemma run_call_keeps_plan (clk : Clock) (c : Call) (s : Store) :
  is_set_daily_plan c = false -> plan_of (snd (run_call clk c s)) = plan_of s.
Proof.
  destruct c; cbn [is_set_daily_plan run_call]; intros H; try discriminate.
  - apply check_readiness_plan.
  - unfold get_recent_reports, bind. rewrite load_data_eq. cbn. apply plan_loaded.
  - apply report_plan.
  - apply get_analytics_context_plan.
  - unfold update_semester_phase, bind. rewrite load_data_eq.
    destruct (negb _); cbn; apply plan_loaded.
  - unfold show_long_term_tasks, bind. rewrite load_data_eq. cbn. apply plan_loaded.
  - unfold edit_long_term_tasks, bind. rewrite load_data_eq. cbn. apply plan_loaded.
  - apply validate_day_off_request_plan.
Qed.

Lemma set_daily_plan_plan (clk : Clock) (date : string) (ts : list Task)
  (ctx energy : string) (s : Store) :
  plan_of (snd (set_daily_plan clk date ts ctx energy s))
  = [(date, {| tasks := ts; context := ctx; energy_level := energy;
               total_time := Py.sum (map task_time ts);
               created_at := now_isoformat clk |})].
Proof.
  unfold set_daily_plan, bind. rewrite load_data_eq. reflexivity.
Qed.

Lemma run_call_single_slot (clk : Clock) (c : Call) (s : Store) :
  (List.length (plan_of s) <= 1)%nat ->
  (List.length (plan_of (snd (run_call clk c s))) <= 1)%nat.
Proof.
  intros H. destruct (is_set_daily_plan c) eqn:E.
  - destruct c; try discriminate. cbn [run_call].
    rewrite set_daily_plan_plan. cbn. lia.
  - now rewrite run_call_keeps_plan.
Qed.

Lemma run_calls_single_slot (calls : list (Clock * Call)) (s : Store) :
  (List.length (plan_of s) <= 1)%nat ->
  (List.length (plan_of (run_calls calls s)) <= 1)%nat.
Proof.
  revert s. induction calls as [|[clk c] calls IH]; intros s H; cbn [run_calls].
  - exact H.
  - apply IH. now apply run_call_single_slot.
Qed.

Lemma unreported_dates_length (today_s : string) (d : Document) :
  (List.length (unreported_dates today_s d) <= List.length (plan d))%nat.
Proof.
  unfold unreported_dates, keys. rewrite sorted_length.
  etransitivity; [apply filter_length_le|]. now rewrite length_map.
Qed.

(** ** Report ingestion: the normal branch *)

Lemma report_normal_eq (clk : Clock) (d : Document) (date : string)
  (completed : list string) (partial skipped : list Item)
  (absence_reason holiday_reason : string) (p : Plan) :
  get date (plan d) = Some p ->
  report clk date completed partial skipped false absence_reason false holiday_reason
    (Some d)
  = match fst (_update_full_analytics clk
                 (reported_document clk d date completed partial skipped p) (Some d)) with
    | Returns data' =>
        (Returns (ReportLogged (dedication_percentage (analytics data'))
                    (snd (skip_loop skipped (problem_tasks (analytics d)) []))),
         Some data')
    | Raises e => (Raises e, Some (refresh_absence clk d))
    end.
Proof.
  intros Hp. unfold report, bind at 1. rewrite load_data_eq. cbn [loaded].
  rewrite Hp. unfold reported_document.
  cbn [analytics set_reports problem_tasks].
  destruct (skip_loop skipped (problem_tasks (analytics d)) []) as [pt tp] eqn:Hs.
  cbn [fst snd]. unfold bind.
  rewrite (surjective_pairing (_update_full_analytics clk _ (Some d))).
  rewrite update_full_analytics_store. cbn [loaded].
  destruct (fst (_update_full_analytics clk _ (Some d))); reflexivity.
Qed.

(** What a returning normal report leaves in the file: the reported document
    with its trends, dedication and burnout risk recomputed. *)
Lemma report_normal_returns (clk : Clock) (d : Document) (date : string)
  (completed : list string) (partial skipped : list Item)
  (absence_reason holiday_reason : string) (p : Plan) (resp : Response) (s' : Store) :
  get date (plan d) = Some p ->
  report clk date completed partial skipped false absence_reason false holiday_reason
    (Some d) = (Returns resp, s') ->
  exists t de br,
    let rd := reported_document clk d date completed partial skipped p in
    s' = Some (set_analytics
                 (set_burnout_risk br
                    (set_dedication_percentage de
                       (set_completion_trends t (analytics rd)))) rd) /\
    resp = ReportLogged de (snd (skip_loop skipped (problem_tasks (analytics d)) [])).
Proof.
  intros Hp. rewrite (report_normal_eq _ _ _ _ _ _ _ _ _ Hp).
  rewrite update_full_analytics_eq.
  destruct (fst (_update_absence_counter clk (Some d))); [|discriminate].
  cbn [fst].
  destruct (analytics_pass clk _) as [data'|e] eqn:Hpass; [|discriminate].
  intros H. injection H as <- <-.
  destruct (analytics_pass_frame _ _ _ Hpass) as (t & de & br & ->).
  exists t, de, br. split; reflexivity.
Qed.

(** ** The loop over the skipped tasks *)

Section SkipLoop.

Lemma pattern_alert_inj (k k' : string) : pattern_alert k = pattern_alert k' -> k = k'.
Proof. unfold pattern_alert. cbn [String.append]. congruence. Qed.

Lemma skip_count_of_set (k k0 : string) (e : ProblemTask) (pt : dict ProblemTask) :
  skip_count_of k0 (set k e pt)
  = if String.eqb k k0 then skip_count e else skip_count_of k0 pt.
Proof.
  unfold skip_count_of. destruct (String.eqb k k0) eqn:E.
  - apply String.eqb_eq in E. subst. now rewrite get_set_same.
  - apply String.eqb_neq in E. now rewrite get_set_other.
Qed.

Lemma skip_reasons_of_set (k k0 : string) (e : ProblemTask) (pt : dict ProblemTask) :
  skip_reasons_of k0 (set k e pt)
  = if String.eqb k k0 then skip_reasons e else skip_reasons_of k0 pt.
Proof.
  unfold skip_reasons_of. destruct (String.eqb k k0) eqn:E.
  - apply String.eqb_eq in E. subst. now rewrite get_set_same.
  - apply String.eqb_neq in E. now rewrite get_set_other.
Qed.

Lemma occurrences_cons (k : string) (task : Item) (rest : list Item) :
  occurrences k (task :: rest)
  = (if String.eqb (task_name_base task) k then 1 else 0) + occurrences k rest.
Proof.
  unfold occurrences. cbn [map count_occ].
  destruct (string_dec (task_name_base task) k) as [->|Hne].
  - rewrite String.eqb_refl. lia.
  - apply String.eqb_neq in Hne. rewrite Hne. lia.
Qed.

Lemma occurrences_nonneg (k : string) (skipped : list Item) : 0 <= occurrences k skipped.
Proof. unfold occurrences. lia. Qed.

Lemma occurrences_pos_iff (k : string) (skipped : list Item) :
  In k (map task_name_base skipped) <-> 0 < occurrences k skipped.
Proof.
  unfold occurrences. rewrite (count_occ_In string_dec). lia.
Qed.

(** The loop, step by step: counts grow by the occurrences of each key,
    reasons are appended in order, and an alert for a key is present at the
    end exactly when it was there before or the key was skipped and its final
    count is at least 3. *)
Lemma skip_loop_spec (skipped : list Item) :
  forall (pt : dict ProblemTask) (tp : list string),
    (forall k, skip_count_of k (fst (skip_loop skipped pt tp))
               = skip_count_of k pt + occurrences k skipped) /\
    (forall k, skip_reasons_of k (fst (skip_loop skipped pt tp))
               = skip_reasons_of k pt ++ reasons_for k skipped) /\
    (forall k, In (pattern_alert k) (snd (skip_loop skipped pt tp)) <->
               In (pattern_alert k) tp \/
               (In k (map task_name_base skipped) /\
                skip_count_of k (fst (skip_loop skipped pt tp)) >= 3)).
Proof.
  induction skipped as [|task rest IH]; intros pt tp.
  - cbn [skip_loop fst snd map]. repeat split.
    + intros k. unfold occurrences. cbn. lia.
    + intros k. unfold reasons_for. cbn. now rewrite app_nil_r.
    + tauto.
    + intros [H|[[] _]]. exact H.
  - cbn [skip_loop].
    set (base := task_name_base task).
    set (entry := match get base pt with
                  | Some e => e
                  | None => {| skip_count := 0; skip_reasons := [] |}
                  end).
    set (entry' := {| skip_count := skip_count entry + 1;
                      skip_reasons := skip_reasons entry ++ [_] |}).
    set (pt1 := set base entry' pt).
    set (tp1 := if skip_count entry' >=? 3 then tp ++ [pattern_alert base] else tp).
    destruct (IH pt1 tp1) as (Hc & Hr & Ha).
    assert (Hentry : skip_count entry = skip_count_of base pt)
      by (unfold entry, skip_count_of; destruct (get base pt); reflexivity).
    assert (Hentry_r : skip_reasons entry = skip_reasons_of base pt)
      by (unfold entry, skip_reasons_of; destruct (get base pt); reflexivity).
    assert (Hc1 : forall k, skip_count_of k pt1
                            = skip_count_of k pt + (if String.eqb base k then 1 else 0)).
    { intros k. unfold pt1. rewrite skip_count_of_set.
      destruct (String.eqb base k) eqn:E; [|lia].
      apply String.eqb_eq in E. subst k. cbn [entry' skip_count]. lia. }
    split; [|split].
    + intros k. rewrite Hc, Hc1, occurrences_cons. fold base. lia.
    + intros k. rewrite Hr. unfold pt1. rewrite skip_reasons_of_set.
      unfold reasons_for. cbn [filter]. fold base.
      destruct (String.eqb base k) eqn:E.
      * apply String.eqb_eq in E. subst k. cbn [entry' skip_reasons map].
        rewrite Hentry_r, <- app_assoc. reflexivity.
      * reflexivity.
    + intros k. rewrite Ha. cbn [map In]. fold base.
      assert (Htp1 : In (pattern_alert k) tp1 <->
                     In (pattern_alert k) tp \/ (base = k /\ skip_count_of k pt1 >= 3)).
      { unfold tp1. specialize (Hc1 k).
        destruct (skip_count entry' >=? 3) eqn:E3.
        - rewrite in_app_iff. cbn [In]. split.
          + intros [H|[H|[]]]; [now left|]. apply pattern_alert_inj in H. subst k.
            right. split; [reflexivity|].
            rewrite String.eqb_refl in Hc1. rewrite Hc1.
            apply Z.geb_le in E3. cbn [entry' skip_count] in E3. lia.
          + intros [H|[-> _]]; [now left|]. right. now left.
        - split; [now left|]. intros [H|[-> H]]; [exact H|].
          rewrite String.eqb_refl in Hc1. rewrite Hc1 in H.
          rewrite Z.geb_leb, Z.leb_gt in E3. cbn [entry' skip_count] in E3. lia. }
      rewrite Htp1. rewrite !Hc. pose proof (occurrences_nonneg k rest) as Hn.
      rewrite (occurrences_pos_iff k rest).
      split.
      * intros [[H|[-> H]]|[H1 H2]]; [now left | right; split; [now left|lia] |].
        right. split; [right; exact H1|exact H2].
      * intros [H|[[->|H1] H2]]; [now left; left | | now right].
        destruct (Z.eq_dec (occurrences k rest) 0) as [H0|H0].
        -- left. right. split; [reflexivity|]. lia.
        -- right. split; [lia|exact H2].
Qed.

End SkipLoop.

(** * Further lemmas on the embedding *)

(** * Further lemmas: the tools as transitions *)

(** Every tool starts by loading: it runs on the loaded document, which is
    then what the file holds. *)
Lemma bind_load {A : Type} (clk : Clock) (k : Document -> IO A) (s : Store) :
  (data <- _load_data clk ;; k data) s = k (loaded clk s) (Some (loaded clk s)).
Proof. unfold bind. now rewrite load_data_eq. Qed.

Lemma report_holiday_eq (clk : Clock) (date : string) (completed : list string)
  (partial skipped : list Item) (was_absent : bool) (absence_reason holiday_reason : string)
  (s : Store) :
  report clk date completed partial skipped was_absent absence_reason true holiday_reason s
  = (Returns (HolidayLogged date),
     Some (holiday_logged clk date holiday_reason (loaded clk s))).
Proof. unfold report. rewrite bind_load. reflexivity. Qed.

Lemma report_absence_eq (clk : Clock) (date : string) (completed : list string)
  (partial skipped : list Item) (absence_reason holiday_reason : string) (s : Store) :
  report clk date completed partial skipped true absence_reason false holiday_reason s
  = (Returns AbsenceLogged, Some (absence_logged clk date absence_reason (loaded clk s))).
Proof. unfold report. rewrite bind_load. reflexivity. Qed.

Lemma report_no_plan_eq (clk : Clock) (date : string) (completed : list string)
  (partial skipped : list Item) (absence_reason holiday_reason : string) (s : Store) :
  get date (plan (loaded clk s)) = None ->
  report clk date completed partial skipped false absence_reason false holiday_reason s
  = (Returns (NoPlanFound date), Some (loaded clk s)).
Proof. intros H. unfold report. rewrite bind_load, H. reflexivity. Qed.

Lemma report_normal_any_store (clk : Clock) (date : string) (completed : list string)
  (partial skipped : list Item) (absence_reason holiday_reason : string) (s : Store) :
  report clk date completed partial skipped false absence_reason false holiday_reason s
  = report clk date completed partial skipped false absence_reason false holiday_reason
      (Some (loaded clk s)).
Proof. unfold report. now rewrite !bind_load. Qed.

(** The normal branch, from the absence refresh and the pass. *)
Lemma report_normal_pass_eq (clk : Clock) (d : Document) (date : string)
  (completed : list string) (partial skipped : list Item)
  (absence_reason holiday_reason : string) (p : Plan) :
  get date (plan d) = Some p ->
  report clk date completed partial skipped false absence_reason false holiday_reason
    (Some d)
  = match fst (_update_absence_counter clk (Some d)) with
    | Returns _ =>
        match analytics_pass clk
                (reported_document clk d date completed partial skipped p) with
        | Returns data' =>
            (Returns (ReportLogged (dedication_percentage (analytics data'))
                        (snd (skip_loop skipped (problem_tasks (analytics d)) []))),
             Some data')
        | Raises e => (Raises e, Some (refresh_absence clk d))
        end
    | Raises e => (Raises e, Some (refresh_absence clk d))
    end.
Proof.
  intros Hp. rewrite (report_normal_eq _ _ _ _ _ _ _ _ _ Hp).
  rewrite update_full_analytics_eq. cbn [loaded].
  destruct (fst (_update_absence_counter clk (Some d))); [|reflexivity].
  cbn [fst]. destruct (analytics_pass clk _); reflexivity.
Qed.

Lemma set_daily_plan_eq (clk : Clock) (date : string) (ts : list Task)
  (ctx energy : string) (s : Store) :
  set_daily_plan clk date ts ctx energy s
  = (Returns (PlanStored (plan_data_of clk ts ctx energy)),
     Some (plan_set clk date ts ctx energy (loaded clk s))).
Proof.
  unfold set_daily_plan. rewrite bind_load. unfold plan_set, intense, plan_data_of.
  cbn [total_time analytics set_plan]. unfold bind, ret, _save_data.
  destruct (String.eqb ctx "hectic" || (5 <? Py.sum (map task_time ts))%float);
    reflexivity.
Qed.

Lemma update_semester_phase_eq (clk : Clock) (phase : string) (s : Store) :
  update_semester_phase clk phase s
  = if is_valid_phase phase
    then (Returns (PhaseUpdated phase),
          Some (set_analytics (set_semester_phase phase (analytics (loaded clk s)))
                  (loaded clk s)))
    else (Returns InvalidPhase, Some (loaded clk s)).
Proof.
  unfold update_semester_phase. rewrite bind_load. unfold is_valid_phase.
  destruct (existsb (String.eqb phase) valid_phases); reflexivity.
Qed.

Lemma edit_long_term_tasks_eq (clk : Clock) (new_tasks : LongTermTasks) (s : Store) :
  edit_long_term_tasks clk new_tasks s
  = (Returns (LongTermTasksShown new_tasks),
     Some (set_long_term_tasks new_tasks (loaded clk s))).
Proof. unfold edit_long_term_tasks. rewrite bind_load. reflexivity. Qed.

Lemma show_long_term_tasks_eq (clk : Clock) (s : Store) :
  show_long_term_tasks clk s
  = (Returns (LongTermTasksShown (long_term_tasks (loaded clk s))), Some (loaded clk s)).
Proof. unfold show_long_term_tasks. rewrite bind_load. reflexivity. Qed.

Lemma get_recent_reports_eq (clk : Clock) (days : Z) (s : Store) :
  get_recent_reports clk days s
  = (Returns (RecentReports (_get_recent_reports clk (loaded clk s) days)),
     Some (loaded clk s)).
Proof. unfold get_recent_reports. rewrite bind_load. reflexivity. Qed.

(** [validate_day_off_request]: the recalculation on the loaded document,
    then the scoring of the recomputed document; nothing but the absence
    refresh reaches the file. *)
Lemma validate_day_off_request_eq (clk : Clock) (s : Store) :
  validate_day_off_request clk s
  = (match fst (_update_absence_counter clk (Some (loaded clk s))) with
     | Returns _ =>
         obind (analytics_pass clk (loaded clk s)) (day_off_answer clk)
     | Raises e => Raises e
     end,
     Some (refresh_absence clk (loaded clk s))).
Proof.
  unfold validate_day_off_request. rewrite bind_load.
  unfold bind at 1. rewrite update_full_analytics_eq. cbn [loaded].
  destruct (fst (_update_absence_counter clk (Some (loaded clk s)))); [|reflexivity].
  destruct (analytics_pass clk (loaded clk s)) as [data|e]; [|reflexivity].
  cbn [obind]. unfold day_off_answer, day_off_raw_score, bind, lift.
  destruct (int_of_float _) as [percent|e]; [|reflexivity].
  cbn [obind]. unfold day_off_phase_rule, day_off_holiday_rule, day_off_burnout_rule.
  repeat match goal with
         | |- context [if ?b then _ else _] => destruct b
         | |- context [match rev ?x with _ => _ end] => destruct (rev x)
         | |- context [match strptime ?x with _ => _ end] => destruct (strptime x)
         end; reflexivity.
Qed.

(** Every call leaves a document in the file, reached from the loaded one by
    one of the transitions. *)
Lemma run_call_file_step (clk : Clock) (c : Call) (s : Store) :
  exists d', snd (run_call clk c s) = Some d' /\ file_step clk (loaded clk s) d'.
Proof.
  destruct c as [|days|dt completed partial skipped was_absent ar was_holiday hr
                |dt ts ctx energy| |phase| |new_tasks|]; cbn [run_call].
  - rewrite check_readiness_eq. unfold gate_on.
    destruct (unreported_dates _ _);
      [|eexists; split; [reflexivity|apply step_none]].
    destruct (mem _ _); [eexists; split; [reflexivity|apply step_none]|].
    destruct (get _ _); eexists; (split; [reflexivity|]);
      [apply step_none|apply step_refresh].
  - rewrite get_recent_reports_eq. eexists; split; [reflexivity|apply step_none].
  - destruct was_holiday.
    { rewrite report_holiday_eq. eexists; split; [reflexivity|apply step_holiday]. }
    destruct was_absent.
    { rewrite report_absence_eq. eexists; split; [reflexivity|apply step_absence]. }
    destruct (get dt (plan (loaded clk s))) as [p|] eqn:Hp.
    + rewrite report_normal_any_store, (report_normal_pass_eq _ _ _ _ _ _ _ _ _ Hp).
      destruct (fst (_update_absence_counter clk _));
        [|eexists; split; [reflexivity|apply step_refresh]].
      destruct (analytics_pass clk _) as [d'|e] eqn:Hpass;
        [|eexists; split; [reflexivity|apply step_refresh]].
      exists d'. split; [reflexivity|]. exact (step_report clk _ _ _ _ _ _ _ Hp Hpass).
    + rewrite (report_no_plan_eq _ _ _ _ _ _ _ _ Hp).
      eexists; split; [reflexivity|apply step_none].
  - rewrite set_daily_plan_eq. eexists; split; [reflexivity|apply step_plan].
  - rewrite get_analytics_context_eq.
    destruct (fst (_update_absence_counter clk _));
      [|eexists; split; [reflexivity|apply step_refresh]].
    destruct (analytics_pass clk _) as [d'|e] eqn:Hpass;
      [|eexists; split; [reflexivity|apply step_refresh]].
    exists d'. split; [reflexivity|]. now apply step_context.
  - rewrite update_semester_phase_eq.
    destruct (is_valid_phase phase) eqn:Hv; eexists; (split; [reflexivity|]).
    + now apply step_phase.
    + apply step_none.
  - rewrite show_long_term_tasks_eq. eexists; split; [reflexivity|apply step_none].
  - rewrite edit_long_term_tasks_eq. eexists; split; [reflexivity|apply step_edit].
  - rewrite validate_day_off_request_eq. eexists; split; [reflexivity|apply step_refresh].
Qed.

Lemma run_calls_file_steps (calls : list (Clock * Call)) (d : Document) :
  exists d', run_calls calls (Some d) = Some d' /\ file_steps d d'.
Proof.
  revert d. induction calls as [|[clk c] calls IH]; intros d; cbn [run_calls].
  - exists d. split; [reflexivity|constructor].
  - destruct (run_call_file_step clk c (Some d)) as (d1 & -> & Hstep).
    destruct (IH d1) as (d2 & Hrun & Hsteps). exists d2. split; [exact Hrun|].
    cbn [loaded] in Hstep. exact (steps_cons clk d d1 d2 Hstep Hsteps).
Qed.

(** ** Dictionaries keep their keys apart *)

Lemma keys_set {V : Type} (k : string) (v : V) (d : dict V) :
  keys (set k v d) = if mem k d then keys d else keys d ++ [k].
Proof.
  unfold mem, keys. induction d as [|[k' v'] d IH]; cbn [set get map fst app].
  - reflexivity.
  - destruct (String.eqb k' k) eqn:E; cbn [map fst].
    + apply String.eqb_eq in E. now subst.
    + rewrite IH. destruct (get k d); reflexivity.
Qed.

Lemma mem_In_keys {V : Type} (k : string) (d : dict V) :
  mem k d = true <-> In k (keys d).
Proof.
  unfold mem, keys. induction d as [|[k' v'] d IH]; cbn [get map fst In].
  - split; [discriminate|tauto].
  - destruct (String.eqb k' k) eqn:E.
    + apply String.eqb_eq in E. subst. tauto.
    + apply String.eqb_neq in E. rewrite IH. tauto.
Qed.

Lemma NoDup_keys_set {V : Type} (k : string) (v : V) (d : dict V) :
  NoDup (keys d) -> NoDup (keys (set k v d)).
Proof.
  intros H. rewrite keys_set. destruct (mem k d) eqn:E; [exact H|].
  apply NoDup_app; [exact H | repeat constructor; intros [] |].
  intros x Hx [<-|[]]. apply mem_In_keys in Hx. congruence.
Qed.

Lemma mem_set {V : Type} (k k0 : string) (v : V) (d : dict V) :
  mem k0 (set k v d) = String.eqb k k0 || mem k0 d.
Proof.
  unfold mem. destruct (String.eqb k k0) eqn:E.
  - apply String.eqb_eq in E. subst. now rewrite get_set_same.
  - apply String.eqb_neq in E. now rewrite get_set_other.
Qed.

(** ** The skip loop on well-formed counters *)

Lemma skip_loop_NoDup (skipped : list Item) :
  forall (pt : dict ProblemTask) (tp : list string),
    NoDup (keys pt) -> NoDup (keys (fst (skip_loop skipped pt tp))).
Proof.
  induction skipped as [|task rest IH]; intros pt tp H; cbn [skip_loop fst].
  - exact H.
  - apply IH. now apply NoDup_keys_set.
Qed.

Lemma skip_loop_counted (skipped : list Item) :
  forall (pt : dict ProblemTask) (tp : list string),
    (forall k e, get k pt = Some e -> counted e) ->
    forall k e, get k (fst (skip_loop skipped pt tp)) = Some e -> counted e.
Proof.
  induction skipped as [|task rest IH]; intros pt tp H; cbn [skip_loop fst].
  - exact H.
  - apply IH. clear IH. intros k0 e0.
    destruct (string_dec (task_name_base task) k0) as [<-|Hne].
    + rewrite get_set_same. intros He. injection He as <-.
      unfold counted. cbn [skip_count skip_reasons]. rewrite length_app. cbn [List.length].
      destruct (get (task_name_base task) pt) as [e1|] eqn:E1.
      * destruct (H _ _ E1) as (Hc & Hp). lia.
      * cbn. lia.
    + rewrite get_set_other by exact Hne. apply H.
Qed.

(** ** The recalculation writes one of the four bands *)

Lemma calculate_burnout_risk_band (data : Document) :
  In (_calculate_burnout_risk data) band_names.
Proof.
  rewrite calculate_burnout_risk_eq. unfold risk_band, band_names.
  destruct (0.8 <=? _)%float; [cbn; tauto|].
  destruct (0.6 <=? _)%float; [cbn; tauto|].
  destruct (0.4 <=? _)%float; cbn; tauto.
Qed.

Lemma analytics_pass_writes (clk : Clock) (data data' : Document) :
  analytics_pass clk data = Returns data' ->
  exists t de br,
    In br band_names /\
    data' =
      set_analytics
        (set_burnout_risk br
           (set_dedication_percentage de
              (set_completion_trends t (analytics data)))) data.
Proof.
  unfold analytics_pass.
  destruct (_calculate_dedication_percentage clk _) as [de|]; [|discriminate].
  cbn [obind]. intros H. injection H as <-.
  do 3 eexists. split; [apply calculate_burnout_risk_band|reflexivity].
Qed.

(** ** Every transition keeps documents well formed and histories growing *)

Lemma well_formed_default (clk : Clock) : well_formed (_get_default_data clk).
Proof.
  unfold well_formed. cbn.
  repeat split; try lia; try tauto; try constructor; discriminate.
Qed.

Lemma refresh_absence_nonneg (clk : Clock) (d : Document) :
  0 <= absence_counter (analytics d) ->
  0 <= absence_counter (analytics (refresh_absence clk d)).
Proof.
  intros H. unfold refresh_absence.
  destruct (falsy_str _); [exact H|].
  destruct (last_task_date (analytics d)) as [str|]; [|exact H].
  destruct (strptime str); [|exact H]. cbn. lia.
Qed.

Ltac wf_split :=
  unfold well_formed;
  split; [|split; [|split; [|split; [|split; [|split]]]]].

Lemma file_step_well_formed (clk : Clock) (d d' : Document) :
  file_step clk d d' -> well_formed d -> well_formed d'.
Proof.
  intros Hstep (Ha & Hi & Hb & Hp & Hr & Hk & He).
  destruct Hstep as [| |dt reason|dt reason|dt completed partial skipped p d' Hplan Hpass
                    |dt ts ctx energy|d' Hpass|phase Hv|new_tasks].
  - wf_split; assumption.
  - destruct (refresh_absence_frame clk d) as [c Hc].
    pose proof (refresh_absence_nonneg clk d Ha) as Hn. rewrite Hc in Hn |- *.
    wf_split; assumption.
  - wf_split; try assumption. cbn. lia.
  - wf_split; try assumption. cbn. lia.
  - destruct (analytics_pass_writes _ _ _ Hpass) as (t & de & br & Hbr & ->).
    unfold reported_document.
    wf_split;
      cbn [analytics set_analytics reports set_reports absence_counter
           consecutive_high_intensity_days burnout_risk semester_phase problem_tasks
           set_burnout_risk set_dedication_percentage set_completion_trends
           set_problem_tasks]; try assumption.
    + now apply NoDup_keys_set.
    + now apply skip_loop_NoDup.
    + now apply skip_loop_counted.
  - unfold plan_set.
    wf_split;
      cbn [analytics set_analytics reports set_plan absence_counter
           consecutive_high_intensity_days burnout_risk semester_phase problem_tasks
           set_absence_counter set_last_task_date set_consecutive_high_intensity_days];
      try assumption; try lia.
    destruct (intense ts ctx); lia.
  - destruct (analytics_pass_writes _ _ _ Hpass) as (t & de & br & Hbr & ->).
    wf_split; assumption.
  - wf_split; try assumption.
    cbn [analytics set_analytics semester_phase set_semester_phase].
    right. unfold is_valid_phase in Hv. apply existsb_exists in Hv.
    destruct Hv as (x & Hx & Heq). apply String.eqb_eq in Heq. now subst.
  - wf_split; assumption.
Qed.

Lemma file_steps_well_formed (d d' : Document) :
  file_steps d d' -> well_formed d -> well_formed d'.
Proof.
  induction 1 as [|clk d d1 d2 Hstep _ IH]; [auto|].
  intros H. apply IH. exact (file_step_well_formed clk d d1 Hstep H).
Qed.

Lemma keeps_history_refl (d : Document) : keeps_history d d.
Proof.
  unfold keeps_history.
  split; [exists []; now rewrite app_nil_r|].
  split; [exists []; now rewrite app_nil_r|].
  split; [auto|]. split; [intros; lia|].
  intros k. exists []. now rewrite app_nil_r.
Qed.

Lemma keeps_history_trans (d d1 d2 : Document) :
  keeps_history d d1 -> keeps_history d1 d2 -> keeps_history d d2.
Proof.
  intros ((h & Hh) & (a & Ha) & Hr & Hc & Hs) ((h' & Hh') & (a' & Ha') & Hr' & Hc' & Hs').
  unfold keeps_history. split; [|split; [|split; [|split]]].
  - exists (h ++ h'). now rewrite Hh', Hh, app_assoc.
  - exists (a ++ a'). now rewrite Ha', Ha, app_assoc.
  - auto.
  - intros k. specialize (Hc k). specialize (Hc' k). lia.
  - intros k. destruct (Hs k) as [m Hm]. destruct (Hs' k) as [m' Hm'].
    exists (m ++ m'). now rewrite Hm', Hm, app_assoc.
Qed.

(** A document that differs in fields outside the history keeps it. *)
Lemma keeps_history_same (d d' : Document) :
  holidays_log (analytics d') = holidays_log (analytics d) ->
  absence_log (analytics d') = absence_log (analytics d) ->
  reports d' = reports d ->
  problem_tasks (analytics d') = problem_tasks (analytics d) ->
  keeps_history d d'.
Proof.
  intros Hh Ha Hr Hp. unfold keeps_history. rewrite Hh, Ha, Hr, Hp.
  apply (keeps_history_refl d).
Qed.

Lemma reported_document_keeps_history (clk : Clock) (d : Document) (dt : string)
  (completed : list string) (partial skipped : list Item) (p : Plan) :
  keeps_history d (reported_document clk d dt completed partial skipped p).
Proof.
  unfold keeps_history, reported_document.
  cbn [analytics set_analytics reports set_reports problem_tasks set_problem_tasks
       holidays_log absence_log].
  destruct (skip_loop_spec skipped (problem_tasks (analytics d)) []) as (Hc & Hs & _).
  split; [exists []; now rewrite app_nil_r|].
  split; [exists []; now rewrite app_nil_r|].
  split; [|split].
  - intros k Hk. rewrite mem_set, Hk. apply orb_true_r.
  - intros k. rewrite Hc. pose proof (occurrences_nonneg k skipped). lia.
  - intros k. rewrite Hs. eauto.
Qed.

Lemma file_step_keeps_history (clk : Clock) (d d' : Document) :
  file_step clk d d' -> keeps_history d d'.
Proof.
  intros Hstep.
  destruct Hstep as [| |dt reason|dt reason|dt completed partial skipped p d' Hplan Hpass
                    |dt ts ctx energy|d' Hpass|phase Hv|new_tasks].
  - apply keeps_history_refl.
  - destruct (refresh_absence_frame clk d) as [c ->]. now apply keeps_history_same.
  - apply (keeps_history_trans d d); [apply keeps_history_refl|].
    unfold keeps_history, holiday_logged.
    cbn [analytics set_analytics reports problem_tasks holidays_log absence_log
         set_consecutive_high_intensity_days set_holidays_log].
    split; [eauto|]. split; [exists []; now rewrite app_nil_r|].
    split; [auto|]. split; [intros; lia|]. intros k. exists []. now rewrite app_nil_r.
  - unfold keeps_history, absence_logged.
    cbn [analytics set_analytics reports problem_tasks holidays_log absence_log
         set_consecutive_high_intensity_days set_absence_log].
    split; [exists []; now rewrite app_nil_r|]. split; [eauto|].
    split; [auto|]. split; [intros; lia|]. intros k. exists []. now rewrite app_nil_r.
  - eapply keeps_history_trans; [apply reported_document_keeps_history|].
    destruct (analytics_pass_frame _ _ _ Hpass) as (t & de & br & ->).
    now apply keeps_history_same.
  - now apply keeps_history_same.
  - destruct (analytics_pass_frame _ _ _ Hpass) as (t & de & br & ->).
    now apply keeps_history_same.
  - now apply keeps_history_same.
  - now apply keeps_history_same.
Qed.

Lemma file_steps_keeps_history (d d' : Document) :
  file_steps d d' -> keeps_history d d'.
Proof.
  induction 1 as [|clk d d1 d2 Hstep _ IH]; [apply keeps_history_refl|].
  eapply keeps_history_trans; [exact (file_step_keeps_history clk d d1 Hstep)|exact IH].
Qed.

(** ** Footprints *)

Lemma same_field_refresh (clk : Clock) (f : Field) (d : Document) :
  f <> FAbsenceCounter -> same_field f d (refresh_absence clk d).
Proof.
  intros Hf. destruct (refresh_absence_frame clk d) as [c ->].
  destruct f; try reflexivity. contradiction.
Qed.

Lemma same_field_refl (f : Field) (d : Document) : same_field f d d.
Proof. destruct f; reflexivity. Qed.

Lemma same_field_pass (clk : Clock) (f : Field) (d d' : Document) :
  analytics_pass clk d = Returns d' ->
  ~ In f [FCompletionTrends; FDedication; FBurnoutRisk] -> same_field f d d'.
Proof.
  intros Hpass Hf. destruct (analytics_pass_frame _ _ _ Hpass) as (t & de & br & ->).
  destruct f; try reflexivity; exfalso; apply Hf; cbn; tauto.
Qed.

Lemma run_call_footprint (clk : Clock) (c : Call) (s : Store) (f : Field) :
  ~ In f (writes (kind c)) -> same_field f (loaded clk s) (stored_after clk c s).
Proof.
  unfold stored_after.
  destruct c as [|days|dt completed partial skipped was_absent ar was_holiday hr
                |dt ts ctx energy| |phase| |new_tasks|]; cbn [run_call kind].
  - intros Hf. rewrite check_readiness_eq. unfold gate_on.
    assert (Hne : f <> FAbsenceCounter) by (intros ->; apply Hf; cbn; tauto).
    destruct (unreported_dates _ _); [|apply same_field_refl].
    destruct (mem _ _); [apply same_field_refl|].
    destruct (get _ _); [apply same_field_refl|].
    cbn [snd loaded]. now apply same_field_refresh.
  - intros _. rewrite get_recent_reports_eq. apply same_field_refl.
  - destruct was_holiday.
    { intros Hf. rewrite report_holiday_eq. cbn [snd loaded].
      destruct f; try reflexivity; exfalso; apply Hf; cbn; tauto. }
    destruct was_absent.
    { intros Hf. rewrite report_absence_eq. cbn [snd loaded].
      destruct f; try reflexivity; exfalso; apply Hf; cbn; tauto. }
    intros Hf.
    assert (Hne : f <> FAbsenceCounter) by (intros ->; apply Hf; cbn; tauto).
    destruct (get dt (plan (loaded clk s))) as [p|] eqn:Hp.
    + rewrite report_normal_any_store, (report_normal_pass_eq _ _ _ _ _ _ _ _ _ Hp).
      destruct (fst (_update_absence_counter clk _));
        [|cbn [snd loaded]; now apply same_field_refresh].
      destruct (analytics_pass clk _) as [d'|e] eqn:Hpass;
        [|cbn [snd loaded]; now apply same_field_refresh].
      cbn [snd loaded].
      destruct (analytics_pass_frame _ _ _ Hpass) as (t & de & br & ->).
      destruct f; try reflexivity; exfalso; apply Hf; cbn; tauto.
    + rewrite (report_no_plan_eq _ _ _ _ _ _ _ _ Hp). apply same_field_refl.
  - intros Hf. rewrite set_daily_plan_eq. cbn [snd loaded].
    destruct f; try reflexivity; exfalso; apply Hf; cbn; tauto.
  - intros Hf. rewrite get_analytics_context_eq.
    assert (Hne : f <> FAbsenceCounter) by (intros ->; apply Hf; cbn; tauto).
    destruct (fst (_update_absence_counter clk _));
      [|cbn [snd loaded]; now apply same_field_refresh].
    destruct (analytics_pass clk _) as [d'|e] eqn:Hpass;
      [|cbn [snd loaded]; now apply same_field_refresh].
    cbn [snd loaded]. apply (same_field_pass clk f _ _ Hpass).
    intros H. apply Hf. cbn in H |- *. tauto.
  - intros Hf. rewrite update_semester_phase_eq.
    destruct (is_valid_phase phase); [|apply same_field_refl].
    cbn [snd loaded]. destruct f; try reflexivity; exfalso; apply Hf; cbn; tauto.
  - intros _. rewrite show_long_term_tasks_eq. apply same_field_refl.
  - intros Hf. rewrite edit_long_term_tasks_eq. cbn [snd loaded].
    destruct f; try reflexivity; exfalso; apply Hf; cbn; tauto.
  - intros Hf. rewrite validate_day_off_request_eq. cbn [snd loaded].
    apply same_field_refresh. intros ->. apply Hf. cbn. tauto.
Qed.

Lemma same_field_trans (f : Field) (d d1 d2 : Document) :
  same_field f d d1 -> same_field f d1 d2 -> same_field f d d2.
Proof. destruct f; cbn; congruence. Qed.

Lemma run_calls_some (calls : list (Clock * Call)) (d : Document) :
  exists d', run_calls calls (Some d) = Some d'.
Proof. destruct (run_calls_file_steps calls d) as (d' & H & _). eauto. Qed.

(** A field no call of a sequence may write is left as it was. *)
Lemma run_calls_footprint (calls : list (Clock * Call)) (f : Field) :
  (forall clk c, In (clk, c) calls -> ~ In f (writes (kind c))) ->
  forall d, exists d', run_calls calls (Some d) = Some d' /\ same_field f d d'.
Proof.
  induction calls as [|[clk c] rest IH]; intros Hw d.
  - exists d. split; [reflexivity|apply same_field_refl].
  - cbn [run_calls].
    destruct (run_call_file_step clk c (Some d)) as (d1 & E1 & _).
    pose proof (run_call_footprint clk c (Some d) f (Hw clk c (or_introl eq_refl))) as H1.
    unfold stored_after in H1. rewrite E1 in *. cbn [loaded] in H1.
    destruct (IH (fun clk' c' Hin => Hw clk' c' (or_intror Hin)) d1) as (d2 & E2 & H2).
    exists d2. split; [exact E2|]. exact (same_field_trans f d d1 d2 H1 H2).
Qed.

(** ** The gate, by its conditions *)

Lemma unreported_dates_nil_iff (today_s : string) (d : Document) :
  unreported_dates today_s d = [] <-> no_blocking today_s d.
Proof.
  unfold no_blocking. split.
  - intros H date Hb. apply unreported_dates_In in Hb. rewrite H in Hb. destruct Hb.
  - intros H. destruct (unreported_dates today_s d) as [|e rest] eqn:E; [reflexivity|].
    exfalso. apply (H e). apply unreported_dates_In. rewrite E. now left.
Qed.

Lemma str_lt_irrefl (a : string) : str_lt a a = false.
Proof. unfold str_lt, String.ltb. now rewrite string_compare_refl. Qed.

(** The answer of the gate when nothing blocks. *)
Lemma gate_unblocked (clk : Clock) (s : Store) :
  no_blocking (today_str clk) (loaded clk s) ->
  fst (check_readiness_for_planning clk s)
  = let d := loaded clk s in
    if mem (today_str clk) (plan d) then
      Returns (PLAN_EXIST (today_str clk) (plan d) (semester_phase (analytics d)))
    else
      match get (today_str clk) (reports d) with
      | Some report =>
          Returns (ALREADY_REPORTED report (performance_comment (completion_rate report)))
      | None =>
          match fst (_update_full_analytics clk d (Some d)) with
          | Returns data =>
              match _recommend_rest_or_light_day clk data with
              | Returns rest =>
                  Returns (READY rest (long_term_tasks data) (day_of_week clk)
                             (semester_phase (analytics data))
                             (absence_counter (analytics data)))
              | Raises e => Raises e
              end
          | Raises e => Raises e
          end
      end.
Proof.
  intros H. apply unreported_dates_nil_iff in H.
  rewrite check_readiness_eq. unfold gate_on. rewrite H. cbv zeta.
  destruct (mem _ _); [reflexivity|]. destruct (get _ _); reflexivity.
Qed.

Lemma gate_blocked (clk : Clock) (s : Store) (e : string) (rest : list string) :
  unreported_dates (today_str clk) (loaded clk s) = e :: rest ->
  fst (check_readiness_for_planning clk s)
  = Returns (BLOCKED e match get e (plan (loaded clk s)) with
                       | Some p => tasks p
                       | None => []
                       end).
Proof. intros H. rewrite check_readiness_eq. unfold gate_on. now rewrite H. Qed.

(** The blocking dates read the plan and the reports only. *)
Lemma unreported_dates_ext (today_s : string) (d d' : Document) :
  plan d' = plan d -> reports d' = reports d ->
  unreported_dates today_s d' = unreported_dates today_s d.
Proof. intros Hp Hr. unfold unreported_dates. now rewrite Hp, Hr. Qed.

(** The recalculation fails exactly on an unreadable [last_task_date] or on a
    counter too large for a double. *)
Lemma update_absence_counter_raises_iff (clk : Clock) (d : Document) (e : exn) :
  fst (_update_absence_counter clk (Some d)) = Raises e <->
  unreadable_last_task_date d /\ e = ValueError.
Proof.
  rewrite update_absence_counter_eq. cbn [fst loaded]. unfold unreadable_last_task_date.
  destruct (last_task_date (analytics d)) as [str|].
  - destruct str as [|c str].
    + cbn. split; [discriminate|]. intros ((x & Hx & Hne & _) & _).
      injection Hx as <-. contradiction.
    + cbn [falsy_str]. destruct (strptime (String c str)) eqn:E.
      * split; [discriminate|]. intros ((x & Hx & _ & Hn) & _).
        injection Hx as <-. congruence.
      * split.
        -- intros H. injection H as <-. split; [|reflexivity].
           exists (String c str). repeat split; [discriminate|exact E].
        -- intros (_ & ->). reflexivity.
  - split; [discriminate|]. intros ((x & Hx & _) & _). discriminate.
Qed.

Lemma update_absence_counter_returns_iff (clk : Clock) (d : Document) :
  fst (_update_absence_counter clk (Some d)) = Returns tt <->
  ~ unreadable_last_task_date d.
Proof.
  destruct (fst (_update_absence_counter clk (Some d))) as [[]|e] eqn:E.
  - split; [|reflexivity]. intros _ H.
    assert (Hr : fst (_update_absence_counter clk (Some d)) = Raises ValueError)
      by (apply update_absence_counter_raises_iff; auto).
    congruence.
  - apply update_absence_counter_raises_iff in E. destruct E as (H & _).
    split; [discriminate|]. intros Hn. contradiction.
Qed.

Lemma analytics_pass_raises_iff (clk : Clock) (d : Document) (e : exn) :
  analytics_pass clk d = Raises e <-> _calculate_dedication_percentage clk d = Raises e.
Proof.
  unfold analytics_pass.
  match goal with
  | |- obind (_calculate_dedication_percentage clk ?d1) _ = _ <-> _ =>
      rewrite (dedication_ext clk d1 d) by reflexivity
  end.
  destruct (_calculate_dedication_percentage clk d); cbn [obind];
    split; congruence.
Qed.

Lemma recommend_raises_iff (clk : Clock) (d : Document) (e : exn) :
  _recommend_rest_or_light_day clk d = Raises e <->
  unreadable_last_holiday d /\ e = ValueError.
Proof.
  unfold _recommend_rest_or_light_day, unreadable_last_holiday.
  destruct (rev (holidays_log (analytics d))) as [|h older].
  - split.
    + repeat match goal with
             | |- context [if ?b then _ else _] => destruct b
             end; discriminate.
    + intros ((x & o & Hx & _) & _). discriminate.
  - destruct (strptime (log_date h)) eqn:E.
    + split.
      * repeat match goal with
               | |- context [if ?b then _ else _] => destruct b
               end; discriminate.
      * intros ((x & o & Hx & Hn) & _). injection Hx as <- <-. congruence.
    + split.
      * intros H. injection H as <-. split; [|reflexivity]. eauto.
      * intros (_ & ->). reflexivity.
Qed.

(** ** When the recalculation raises *)

Lemma float_of_int_cases (z : Z) :
  float_of_int z = Returns (float_of_Z z) \/ float_of_int z = Raises OverflowError.
Proof. unfold float_of_int. destruct (is_infinity (float_of_Z z)); auto. Qed.

Lemma dedication_raises_iff (clk : Clock) (d : Document) (e : exn) :
  _calculate_dedication_percentage clk d = Raises e <->
  counters_overflow d /\ e = OverflowError.
Proof.
  unfold _calculate_dedication_percentage, counters_overflow, intensity_factor.
  destruct (float_of_int_cases (absence_counter (analytics d))) as [-> | ->];
    cbn [obind].
  - destruct (Z.leb_spec (consecutive_high_intensity_days (analytics d)) 3) as [Hle|Hgt].
    + cbn [obind]. split; [discriminate|].
      intros ([H|(H & _)] & _); [discriminate|lia].
    + destruct (float_of_int_cases (consecutive_high_intensity_days (analytics d) - 3))
        as [E|E]; rewrite E; cbn [obind].
      * split; [discriminate|]. intros ([H|(_ & H)] & _); discriminate.
      * split.
        -- intros H. injection H as <-. split; [right; split; [lia|reflexivity]|reflexivity].
        -- intros (_ & ->). reflexivity.
  - split.
    + intros H. injection H as <-. split; [now left|reflexivity].
    + intros (_ & ->). reflexivity.
Qed.

(** The refresh of the absence counter raises or returns; it returns [tt]. *)
Lemma update_absence_counter_cases (clk : Clock) (d : Document) :
  (fst (_update_absence_counter clk (Some d)) = Returns tt /\ ~ unreadable_last_task_date d)
  \/ (fst (_update_absence_counter clk (Some d)) = Raises ValueError /\
      unreadable_last_task_date d).
Proof.
  destruct (fst (_update_absence_counter clk (Some d))) as [[]|e] eqn:E.
  - left. split; [reflexivity|]. now apply (update_absence_counter_returns_iff clk).
  - right. apply update_absence_counter_raises_iff in E. destruct E as (H & ->). auto.
Qed.

(** The outcome of recalculating [data] while the file holds [d], when the
    two agree on the counters. *)
Lemma recalculation_raises_iff (clk : Clock) (d data : Document) (e : exn) :
  absence_counter (analytics data) = absence_counter (analytics d) ->
  consecutive_high_intensity_days (analytics data)
  = consecutive_high_intensity_days (analytics d) ->
  fst (_update_full_analytics clk data (Some d)) = Raises e <-> recalculation_raises d e.
Proof.
  intros Ha Hi. rewrite update_full_analytics_eq. unfold recalculation_raises.
  assert (Hov : counters_overflow data <-> counters_overflow d)
    by (unfold counters_overflow; now rewrite Ha, Hi).
  destruct (update_absence_counter_cases clk d) as [(-> & Hn)|(-> & Hy)]; cbn [fst].
  - rewrite analytics_pass_raises_iff, dedication_raises_iff, Hov. tauto.
  - split.
    + intros H. injection H as <-. auto.
    + intros [(_ & ->)|(Hn & _)]; [reflexivity|contradiction].
Qed.

Lemma recalculation_returns_iff (clk : Clock) (d data : Document) :
  absence_counter (analytics data) = absence_counter (analytics d) ->
  consecutive_high_intensity_days (analytics data)
  = consecutive_high_intensity_days (analytics d) ->
  (exists data', fst (_update_full_analytics clk data (Some d)) = Returns data')
  <-> forall e, ~ recalculation_raises d e.
Proof.
  intros Ha Hi. split.
  - intros (data' & E) e He.
    apply (recalculation_raises_iff clk d data e Ha Hi) in He. congruence.
  - intros H. destruct (fst (_update_full_analytics clk data (Some d))) as [data'|e] eqn:E.
    + eauto.
    + apply (recalculation_raises_iff clk d data e Ha Hi) in E.
      destruct (H e E).
Qed.

Lemma recalculation_returns_pass (clk : Clock) (d data data' : Document) :
  fst (_update_full_analytics clk data (Some d)) = Returns data' ->
  ~ unreadable_last_task_date d /\ analytics_pass clk data = Returns data'.
Proof.
  rewrite update_full_analytics_eq.
  destruct (update_absence_counter_cases clk d) as [(-> & Hn)|(-> & Hy)]; cbn [fst].
  - auto.
  - discriminate.
Qed.

Lemma pass_returns_recalculation (clk : Clock) (d data data' : Document) :
  ~ unreadable_last_task_date d -> analytics_pass clk data = Returns data' ->
  fst (_update_full_analytics clk data (Some d)) = Returns data'.
Proof.
  intros Hn Hp. rewrite update_full_analytics_eq.
  destruct (update_absence_counter_cases clk d) as [(-> & _)|(_ & Hy)]; [exact Hp|].
  contradiction.
Qed.

Lemma reported_document_counters (clk : Clock) (d : Document) (date : string)
  (completed : list string) (partial skipped : list Item) (p : Plan) :
  let rd := reported_document clk d date completed partial skipped p in
  absence_counter (analytics rd) = absence_counter (analytics d) /\
  consecutive_high_intensity_days (analytics rd)
  = consecutive_high_intensity_days (analytics d) /\
  last_task_date (analytics rd) = last_task_date (analytics d) /\
  holidays_log (analytics rd) = holidays_log (analytics d) /\
  plan rd = plan d.
Proof.
  cbv zeta. unfold reported_document.
  destruct (skip_loop skipped (problem_tasks (analytics d)) []) as [pt tp].
  cbn. repeat split.
Qed.

Lemma mem_get {V : Type} (k : string) (d : dict V) :
  mem k d = true <-> exists v, get k d = Some v.
Proof.
  unfold mem. destruct (get k d) as [v|].
  - split; eauto.
  - split; [discriminate|]. intros (v & H). discriminate.
Qed.

Lemma day_off_answer_raises_iff (clk : Clock) (d' : Document) (e : exn) :
  day_off_answer clk d' = Raises e <-> scoring_raises d' e.
Proof.
  unfold day_off_answer, day_off_raw_score, scoring_raises, unreadable_last_holiday,
    day_off_holiday_rule.
  destruct (int_of_float (dedication_percentage (analytics d') * 100)) as [n|e0];
    cbn [obind].
  - destruct (rev (holidays_log (analytics d'))) as [|h older].
    + cbn [obind]. split; [discriminate|].
      intros [H|(_ & (x & o & Hx & _) & _)]; discriminate.
    + destruct (strptime (log_date h)) eqn:E.
      * destruct (_ <=? 4); cbn [obind]; (split; [discriminate|]);
          intros [H|(_ & (x & o & Hx & Hn) & _)]; try discriminate;
          injection Hx as <- <-; congruence.
      * cbn [obind]. split.
        -- intros H. injection H as <-. right. split; [eauto|]. split; [eauto|reflexivity].
        -- intros [H|(_ & _ & ->)]; [discriminate|reflexivity].
  - split.
    + intros H. left. congruence.
    + intros [H|((n & H) & _)]; [congruence|discriminate].
Qed.

Lemma analytics_pass_holidays_log (clk : Clock) (d d' : Document) :
  analytics_pass clk d = Returns d' ->
  holidays_log (analytics d') = holidays_log (analytics d).
Proof.
  intros H. destruct (analytics_pass_frame _ _ _ H) as (t & de & br & ->). reflexivity.
Qed.

Lemma unreadable_last_holiday_ext (d d' : Document) :
  holidays_log (analytics d') = holidays_log (analytics d) ->
  unreadable_last_holiday d' <-> unreadable_last_holiday d.
Proof. intros H. unfold unreadable_last_holiday. now rewrite H. Qed.

Lemma recalculation_raises_unique (clk : Clock) (d : Document) (e e' : exn) :
  recalculation_raises d e -> recalculation_raises d e' -> e = e'.
Proof.
  intros H H'.
  apply (recalculation_raises_iff clk d d e eq_refl eq_refl) in H.
  apply (recalculation_raises_iff clk d d e' eq_refl eq_refl) in H'.
  congruence.
Qed.

(** The answer of the gate on its last path. *)
Lemma gate_ready_path (clk : Clock) (s : Store) :
  ready_path clk (loaded clk s) ->
  fst (check_readiness_for_planning clk s)
  = let d := loaded clk s in
    match fst (_update_full_analytics clk d (Some d)) with
    | Returns data =>
        match _recommend_rest_or_light_day clk data with
        | Returns rest =>
            Returns (READY rest (long_term_tasks data) (day_of_week clk)
                       (semester_phase (analytics data))
                       (absence_counter (analytics data)))
        | Raises e => Raises e
        end
    | Raises e => Raises e
    end.
Proof.
  intros (Hb & Hm & Hg). rewrite (gate_unblocked clk s Hb). cbv zeta.
  now rewrite Hm, Hg.
Qed.

(** Off that path the gate returns. *)
Lemma gate_other_paths (clk : Clock) (s : Store) :
  ~ ready_path clk (loaded clk s) ->
  exists resp, fst (check_readiness_for_planning clk s) = Returns resp.
Proof.
  intros Hn. destruct (unreported_dates (today_str clk) (loaded clk s)) as [|e rest] eqn:E.
  - apply unreported_dates_nil_iff in E. rewrite (gate_unblocked clk s E). cbv zeta.
    destruct (mem (today_str clk) (plan (loaded clk s))) eqn:Hm; [eauto|].
    destruct (get (today_str clk) (reports (loaded clk s))) eqn:Hg; [eauto|].
    exfalso. apply Hn. repeat split; assumption.
  - rewrite (gate_blocked clk s e rest E). eauto.
Qed.

Ltac gate_split :=
  repeat match goal with
         | |- _ /\ _ => split
         | |- _ <-> _ => split
         end.

Ltac gate_leaf :=
  intros;
  repeat match goal with
         | H : exists _, _ |- _ => destruct H
         | H : _ /\ _ |- _ => destruct H
         | H : _ \/ _ |- _ => destruct H
         end;
  try discriminate; try contradiction;
  repeat match goal with
         | H : Returns _ = Returns _ |- _ => inversion H; clear H; subst
         end;
  try exact I; try (repeat split; congruence); eauto 10.

(** The calls that raise, by the document they load. *)
Lemma run_call_raises_iff (clk : Clock) (c : Call) (s : Store) (e : exn) :
  fst (run_call clk c s) = Raises e <-> raises_when clk c (loaded clk s) e.
Proof.
  destruct c as [|days|dt completed partial skipped was_absent ar was_holiday hr
                |dt ts ctx energy| |phase| |new_tasks|];
    cbn [run_call raises_when].
  - (* check_readiness_for_planning *)
    destruct (unreported_dates (today_str clk) (loaded clk s)) as [|e0 rest0] eqn:E.
    + pose proof E as Hnb. apply unreported_dates_nil_iff in Hnb.
      destruct (mem (today_str clk) (plan (loaded clk s))) eqn:Hm.
      { rewrite (gate_unblocked clk s Hnb). cbv zeta. rewrite Hm.
        split; [discriminate|]. intros ((_ & H & _) & _). congruence. }
      destruct (get (today_str clk) (reports (loaded clk s))) as [rep0|] eqn:Hg.
      { rewrite (gate_unblocked clk s Hnb). cbv zeta. rewrite Hm, Hg.
        split; [discriminate|]. intros ((_ & _ & H) & _). congruence. }
      assert (Hrp : ready_path clk (loaded clk s)) by (repeat split; assumption).
      rewrite (gate_ready_path clk s Hrp). cbv zeta.
      destruct (fst (_update_full_analytics clk (loaded clk s) (Some (loaded clk s))))
        as [data|e1] eqn:Eu.
      * assert (Hok : forall e', ~ recalculation_raises (loaded clk s) e')
          by (apply (recalculation_returns_iff clk (loaded clk s) (loaded clk s)
                       eq_refl eq_refl); eauto).
        apply recalculation_returns_pass in Eu. destruct Eu as (_ & Hp).
        pose proof (unreadable_last_holiday_ext _ _ (analytics_pass_holidays_log _ _ _ Hp))
          as Hh.
        destruct (_recommend_rest_or_light_day clk data) as [rest|e2] eqn:Er.
        -- split; [discriminate|].
           intros (_ & [H|(_ & H & ->)]); [destruct (Hok e H)|].
           assert (Hr : _recommend_rest_or_light_day clk data = Raises ValueError)
             by (apply recommend_raises_iff; split; [now apply Hh|reflexivity]).
           congruence.
        -- apply recommend_raises_iff in Er. destruct Er as (Hu & ->).
           split.
           ++ intros H. injection H as <-. split; [exact Hrp|]. right.
              split; [exact Hok|]. split; [now apply Hh|reflexivity].
           ++ intros (_ & [H|(_ & _ & ->)]); [destruct (Hok e H)|reflexivity].
      * pose proof Eu as Hr.
        apply (recalculation_raises_iff clk _ _ e1 eq_refl eq_refl) in Hr.
        split.
        -- intros H. injection H as <-. split; [exact Hrp|now left].
        -- intros (_ & [H|(H & _)]).
           ++ now rewrite (recalculation_raises_unique clk _ _ _ Hr H).
           ++ destruct (H e1 Hr).
    + rewrite (gate_blocked clk s e0 rest0 E). split; [discriminate|].
      intros ((H & _) & _). apply unreported_dates_nil_iff in H. congruence.
  - rewrite get_recent_reports_eq. cbn. split; [discriminate|tauto].
  - (* report *)
    destruct was_holiday.
    { rewrite report_holiday_eq. cbn [fst].
      destruct was_absent; (split; [discriminate|tauto]). }
    destruct was_absent.
    { rewrite report_absence_eq. cbn [fst]. split; [discriminate|tauto]. }
    destruct (get dt (plan (loaded clk s))) as [p|] eqn:Hp.
    + assert (Hm : mem dt (plan (loaded clk s)) = true) by (apply mem_get; eauto).
      rewrite report_normal_any_store, (report_normal_eq _ _ _ _ _ _ _ _ _ Hp).
      destruct (reported_document_counters clk (loaded clk s) dt completed partial
                  skipped p) as (Ha & Hi & _).
      destruct (fst (_update_full_analytics clk _ (Some (loaded clk s))))
        as [data|e1] eqn:Eu; cbn [fst].
      * split; [discriminate|]. intros (_ & H).
        apply (recalculation_raises_iff clk _ _ e Ha Hi) in H. congruence.
      * pose proof Eu as Hr. apply (recalculation_raises_iff clk _ _ e1 Ha Hi) in Hr.
        split.
        -- intros H. injection H as <-. auto.
        -- intros (_ & H). now rewrite (recalculation_raises_unique clk _ _ _ Hr H).
    + rewrite (report_no_plan_eq _ _ _ _ _ _ _ _ Hp). cbn [fst].
      split; [discriminate|]. intros (H & _). apply mem_get in H.
      destruct H as (v & H). congruence.
  - rewrite set_daily_plan_eq. cbn. split; [discriminate|tauto].
  - (* get_analytics_context *)
    rewrite <- (recalculation_raises_iff clk (loaded clk s) (loaded clk s) e
                  eq_refl eq_refl).
    rewrite get_analytics_context_eq, update_full_analytics_eq.
    destruct (fst (_update_absence_counter clk (Some (loaded clk s)))); cbn [fst];
      [|split; congruence].
    destruct (analytics_pass clk (loaded clk s)); cbn [fst]; split; congruence.
  - rewrite update_semester_phase_eq. destruct (is_valid_phase phase); cbn;
      (split; [discriminate|tauto]).
  - rewrite show_long_term_tasks_eq. cbn. split; [discriminate|tauto].
  - rewrite edit_long_term_tasks_eq. cbn. split; [discriminate|tauto].
  - (* validate_day_off_request *)
    rewrite validate_day_off_request_eq. cbn [fst].
    destruct (fst (_update_full_analytics clk (loaded clk s) (Some (loaded clk s))))
      as [data|e1] eqn:Eu.
    + assert (Hok : forall e', ~ recalculation_raises (loaded clk s) e')
        by (apply (recalculation_returns_iff clk (loaded clk s) (loaded clk s)
                     eq_refl eq_refl); eauto).
      apply recalculation_returns_pass in Eu. destruct Eu as (Hn & Hp).
      destruct (update_absence_counter_cases clk (loaded clk s)) as [(-> & _)|(_ & Hy)];
        [|contradiction].
      rewrite Hp. cbn [obind]. rewrite day_off_answer_raises_iff.
      split.
      * intros H. right. exists data. auto.
      * intros [H|(d' & _ & Hd & H)]; [destruct (Hok e H)|]. congruence.
    + pose proof Eu as Hr.
      apply (recalculation_raises_iff clk _ _ e1 eq_refl eq_refl) in Hr.
      rewrite update_full_analytics_eq in Eu.
      destruct (update_absence_counter_cases clk (loaded clk s)) as [(Ea & Hn)|(Ea & Hy)];
        rewrite Ea in *; cbn [fst] in Eu.
      * rewrite Eu. cbn [obind]. split.
        -- intros H. injection H as <-. now left.
        -- intros [H|(d' & _ & Hd & _)].
           ++ now rewrite (recalculation_raises_unique clk _ _ _ Hr H).
           ++ congruence.
      * injection Eu as <-. split.
        -- intros H. injection H as <-. left. left. auto.
        -- intros [H|(d' & Hn & _)]; [|contradiction].
           now rewrite (recalculation_raises_unique clk _ _ _ Hr H).
Qed.

(** ** Reading back a printed date *)

Lemma digit_digit_char (k : Z) : digit (digit_char k) = Some (k mod 10).
Proof.
  unfold digit, digit_char.
  pose proof (Z.mod_pos_bound k 10 ltac:(lia)) as Hk.
  rewrite N_ascii_embedding by lia.
  rewrite Z2N.id by lia.
  replace ((48 <=? 48 + k mod 10) && (48 + k mod 10 <=? 57)) with true
    by (symmetry; apply andb_true_iff; split; apply Z.leb_le; lia).
  f_equal. lia.
Qed.

Lemma re_month_two_digits (m : Z) (r : string) :
  1 <= m <= 12 ->
  re_month (String (digit_char (m / 10)) (String (digit_char m) r)) = Some (m, r).
Proof.
  intros H.
  assert (E : m = 1 \/ m = 2 \/ m = 3 \/ m = 4 \/ m = 5 \/ m = 6 \/ m = 7 \/ m = 8 \/
              m = 9 \/ m = 10 \/ m = 11 \/ m = 12) by lia.
  repeat (destruct E as [->|E]; [reflexivity|]). subst m. reflexivity.
Qed.

Lemma re_day_two_digits (dd : Z) (r : string) :
  1 <= dd <= 31 ->
  re_day (String (digit_char (dd / 10)) (String (digit_char dd) r)) = Some (dd, r).
Proof.
  intros H.
  assert (E : exists n : nat, (n < 31)%nat /\ dd = Z.of_nat (S n))
    by (exists (Z.to_nat (dd - 1)); lia).
  destruct E as (n & Hn & ->).
  do 31 (destruct n as [|n]; [reflexivity|]). lia.
Qed.

Lemma re_digit_digit_char (k : Z) (r : string) :
  re_digit (String (digit_char k) r) = Some (k mod 10, r).
Proof.
  unfold re_digit, utf8_head, byte_of, digit_char.
  pose proof (Z.mod_pos_bound k 10 ltac:(lia)) as Hk.
  rewrite N_ascii_embedding by lia.
  rewrite Z2N.id by lia.
  replace (48 + k mod 10 <? 128) with true by (symmetry; apply Z.ltb_lt; lia).
  unfold decimal_value, decimal_zeros. cbn [find].
  replace ((48 <=? 48 + k mod 10) && (48 + k mod 10 <=? 48 + 9)) with true
    by (symmetry; apply andb_true_iff; split; apply Z.leb_le; lia).
  do 2 f_equal. lia.
Qed.

Lemma year_digits (y : Z) :
  0 <= y <= 9999 ->
  1000 * ((y / 1000) mod 10) + 100 * ((y / 100) mod 10) + 10 * ((y / 10) mod 10)
  + y mod 10 = y.
Proof. intros H. Z.div_mod_to_equations. lia. Qed.

(** [strptime] reads back the date [isoformat] printed. *)
Lemma strptime_isoformat (d : date) : valid_date d -> strptime (isoformat d) = Some d.
Proof.
  destruct d as [y m dd]. intros (Hy & Hm & Hd). cbn [year month day] in *.
  pose proof (days_in_month_bounds y m) as Hb.
  unfold isoformat, strptime. cbn [year month day].
  rewrite !re_digit_digit_char.
  change (Ascii.eqb "-" "-") with true. cbn [negb].
  rewrite re_month_two_digits by lia.
  rewrite re_day_two_digits by lia.
  rewrite year_digits by lia.
  replace ((1 <=? y) && (dd <=? days_in_month y m)) with true
    by (symmetry; apply andb_true_iff; split; apply Z.leb_le; lia).
  reflexivity.
Qed.

(** ** The default document *)

Lemma default_pass (clk : Clock) :
  analytics_pass clk (_get_default_data clk)
  = Returns
      (set_analytics
         (set_burnout_risk "low"
            (set_dedication_percentage 0.5
               (set_completion_trends {| last_7_days := 0; last_30_days := 0 |}
                  (analytics (_get_default_data clk)))))
         (_get_default_data clk)).
Proof. reflexivity. Qed.

Lemma default_readable (clk : Clock) :
  valid_date (today clk) -> ~ unreadable_last_task_date (_get_default_data clk).
Proof.
  intros Hv (str & Hs & _ & Hn). cbn in Hs. injection Hs as <-.
  unfold today_str in Hn. rewrite (strptime_isoformat _ Hv) in Hn. discriminate.
Qed.

Lemma default_counters_fit (clk : Clock) : ~ counters_overflow (_get_default_data clk).
Proof. intros [H|(H & _)]; [vm_compute in H; discriminate|cbn in H; lia]. Qed.

Lemma default_recalculates (clk : Clock) (e : exn) :
  valid_date (today clk) -> ~ recalculation_raises (_get_default_data clk) e.
Proof.
  intros Hv [(H & _)|(_ & H & _)].
  - exact (default_readable clk Hv H).
  - exact (default_counters_fit clk H).
Qed.

Lemma default_no_holiday (clk : Clock) : ~ unreadable_last_holiday (_get_default_data clk).
Proof. intros (h & older & H & _). discriminate. Qed.

Lemma default_ready_path (clk : Clock) : ready_path clk (_get_default_data clk).
Proof.
  repeat split; try reflexivity. intros date (H & _). destruct H.
Qed.

Lemma refresh_absence_default (clk : Clock) :
  valid_date (today clk) ->
  refresh_absence clk (_get_default_data clk) = _get_default_data clk.
Proof.
  intros Hv. unfold refresh_absence. cbn [_get_default_data analytics last_task_date].
  unfold today_str at 1 2.
  replace (falsy_str (Some (isoformat (today clk)))) with false by reflexivity.
  rewrite (strptime_isoformat _ Hv). unfold days_between.
  replace (Z.max 0 (toordinal (today clk) - toordinal (today clk) - 1)) with 0 by lia.
  reflexivity.
Qed.

(** ** Planning and the gate *)

Lemma plan_set_fields (clk : Clock) (date : string) (ts : list Task) (ctx energy : string)
  (d : Document) :
  let d1 := plan_set clk date ts ctx energy d in
  plan d1 = [(date, plan_data_of clk ts ctx energy)] /\
  reports d1 = reports d /\
  semester_phase (analytics d1) = semester_phase (analytics d) /\
  last_task_date (analytics d1) = Some date /\
  absence_counter (analytics d1) = 0 /\
  consecutive_high_intensity_days (analytics d1)
  = (if intense ts ctx then consecutive_high_intensity_days (analytics d) + 1 else 0) /\
  holidays_log (analytics d1) = holidays_log (analytics d).
Proof. cbv zeta. unfold plan_set. cbn. repeat split. Qed.

(** With one plan entry, the blocking dates are that entry's date or none. *)
Lemma unreported_dates_single (today_s date : string) (p : Plan) (d : Document) :
  plan d = [(date, p)] ->
  unreported_dates today_s d
  = if negb (mem date (reports d)) && str_lt date today_s then [date] else [].
Proof.
  intros Hp. unfold unreported_dates. rewrite Hp. cbn.
  destruct (negb (mem date (reports d)) && str_lt date today_s); reflexivity.
Qed.

Lemma get_single {V : Type} (k : string) (v : V) : get k [(k, v)] = Some v.
Proof. cbn. now rewrite String.eqb_refl. Qed.

Lemma mem_single {V : Type} (k : string) (v : V) : mem k [(k, v)] = true.
Proof. unfold mem. now rewrite get_single. Qed.

(** The gate on a document whose plan is the single entry [date]. *)
Lemma gate_single_plan (clk : Clock) (date : string) (p : Plan) (d : Document) :
  plan d = [(date, p)] ->
  (negb (mem date (reports d)) && str_lt date (today_str clk) = true ->
   fst (check_readiness_for_planning clk (Some d)) = Returns (BLOCKED date (tasks p))) /\
  (date = today_str clk ->
   fst (check_readiness_for_planning clk (Some d))
   = Returns (PLAN_EXIST date (plan d) (semester_phase (analytics d)))) /\
  (forall e ts', fst (check_readiness_for_planning clk (Some d)) = Returns (BLOCKED e ts') ->
     e = date /\ ts' = tasks p /\
     negb (mem date (reports d)) && str_lt date (today_str clk) = true).
Proof.
  intros Hp. pose proof (unreported_dates_single (today_str clk) date p d Hp) as Hu.
  split; [|split].
  - intros Hb. rewrite Hb in Hu.
    rewrite (gate_blocked clk (Some d) date [] Hu). cbn [loaded].
    now rewrite Hp, get_single.
  - intros ->. rewrite str_lt_irrefl, andb_false_r in Hu.
    apply unreported_dates_nil_iff in Hu.
    rewrite (gate_unblocked clk (Some d) Hu). cbv zeta. cbn [loaded].
    rewrite Hp at 1. now rewrite mem_single.
  - intros e ts' H.
    destruct (negb (mem date (reports d)) && str_lt date (today_str clk)) eqn:Hb.
    + rewrite (gate_blocked clk (Some d) date [] Hu) in H. cbn [loaded] in H.
      rewrite Hp, get_single in H. injection H as <- <-. auto.
    + apply unreported_dates_nil_iff in Hu.
      rewrite (gate_unblocked clk (Some d) Hu) in H. cbv zeta in H. cbn [loaded] in H.
      destruct (mem (today_str clk) (plan d)); [discriminate|].
      destruct (get (today_str clk) (reports d)); [discriminate|].
      destruct (fst (_update_full_analytics clk d (Some d))); [|discriminate].
      destruct (_recommend_rest_or_light_day clk _); discriminate.
Qed.

Lemma not_planner_keeps_plan (c : Call) :
  is_set_daily_plan c = false -> ~ In FPlan (writes (kind c)).
Proof.
  destruct c as [|days|dt completed partial skipped was_absent ar was_holiday hr
                |dt ts ctx energy| |phase| |new_tasks|]; cbn; try discriminate;
    try (intros _; intuition discriminate).
  destruct was_holiday, was_absent; cbn; intros _; intuition discriminate.
Qed.

(** The gate does not answer BLOCKED when nothing blocks. *)
Lemma gate_unblocked_not_blocked (clk : Clock) (s : Store) (e : string) (ts : list Task) :
  no_blocking (today_str clk) (loaded clk s) ->
  fst (check_readiness_for_planning clk s) <> Returns (BLOCKED e ts).
Proof.
  intros Hnb. rewrite (gate_unblocked clk s Hnb). cbv zeta.
  destruct (mem (today_str clk) (plan (loaded clk s))); [discriminate|].
  destruct (get (today_str clk) (reports (loaded clk s))); [discriminate|].
  destruct (fst (_update_full_analytics clk _ _)); [|discriminate].
  destruct (_recommend_rest_or_light_day clk _); discriminate.
Qed.

(** Whether and on what the gate blocks depends on the plan and the reports
    only. *)
Lemma gate_blocked_ext (clk : Clock) (d d' : Document) (e : string) (ts : list Task) :
  plan d' = plan d -> reports d' = reports d ->
  fst (check_readiness_for_planning clk (Some d')) = Returns (BLOCKED e ts) <->
  fst (check_readiness_for_planning clk (Some d)) = Returns (BLOCKED e ts).
Proof.
  intros Hp Hr.
  pose proof (unreported_dates_ext (today_str clk) d d' Hp Hr) as Hu.
  destruct (unreported_dates (today_str clk) d) as [|e0 rest0] eqn:E.
  - split; intros H; exfalso;
      [apply (gate_unblocked_not_blocked clk (Some d') e ts)
      |apply (gate_unblocked_not_blocked clk (Some d) e ts)];
      try exact H; apply unreported_dates_nil_iff; assumption.
  - rewrite (gate_blocked clk (Some d') e0 rest0 Hu).
    rewrite (gate_blocked clk (Some d) e0 rest0 E). cbn [loaded]. now rewrite Hp.
Qed.

Lemma holiday_logged_fields (clk : Clock) (date reason : string) (d : Document) :
  let d' := holiday_logged clk date reason d in
  plan d' = plan d /\ reports d' = reports d /\
  consecutive_high_intensity_days (analytics d') = 0 /\
  holidays_log (analytics d')
  = holidays_log (analytics d) ++ [mkLogEntry date reason (today_str clk)] /\
  absence_log (analytics d') = absence_log (analytics d).
Proof. cbv zeta. unfold holiday_logged. cbn. repeat split. Qed.

Lemma absence_logged_fields (clk : Clock) (date reason : string) (d : Document) :
  let d' := absence_logged clk date reason d in
  plan d' = plan d /\ reports d' = reports d /\
  consecutive_high_intensity_days (analytics d') = 0 /\
  absence_log (analytics d')
  = absence_log (analytics d) ++ [mkLogEntry date reason (today_str clk)] /\
  holidays_log (analytics d') = holidays_log (analytics d).
Proof. cbv zeta. unfold absence_logged. cbn. repeat split. Qed.

Lemma reported_document_reports (clk : Clock) (d : Document) (date : string)
  (completed : list string) (partial skipped : list Item) (p : Plan) :
  reports (reported_document clk d date completed partial skipped p)
  = set date
      {| completed := completed; partial := partial; skipped := skipped;
         completion_rate := round2 (raw_completion_rate completed p);
         reported_at := now_isoformat clk |} (reports d).
Proof.
  unfold reported_document.
  destruct (skip_loop skipped (problem_tasks (analytics d)) []) as [pt tp]. reflexivity.
Qed.

Lemma analytics_pass_reports (clk : Clock) (d d' : Document) :
  analytics_pass clk d = Returns d' -> reports d' = reports d.
Proof.
  intros H. destruct (analytics_pass_frame _ _ _ H) as (t & de & br & ->). reflexivity.
Qed.

Lemma analytics_pass_absence_counter (clk : Clock) (d d' : Document) :
  analytics_pass clk d = Returns d' ->
  absence_counter (analytics d') = absence_counter (analytics d).
Proof.
  intros H. destruct (analytics_pass_frame _ _ _ H) as (t & de & br & ->). reflexivity.
Qed.

(** A normal report for a planned date that returns: the document it
    leaves. *)
Lemma report_normal_stored (clk : Clock) (s : Store) (date : string)
  (completed : list string) (partial skipped : list Item)
  (absence_reason holiday_reason : string) (p : Plan) (resp : Response) :
  get date (plan (loaded clk s)) = Some p ->
  fst (report clk date completed partial skipped false absence_reason false
         holiday_reason s) = Returns resp ->
  exists d',
    report clk date completed partial skipped false absence_reason false holiday_reason s
    = (Returns resp, Some d') /\
    ~ unreadable_last_task_date (loaded clk s) /\
    analytics_pass clk
      (reported_document clk (loaded clk s) date completed partial skipped p)
    = Returns d' /\
    resp = ReportLogged (dedication_percentage (analytics d'))
             (snd (skip_loop skipped (problem_tasks (analytics (loaded clk s))) [])).
Proof.
  intros Hp. rewrite report_normal_any_store.
  rewrite (report_normal_pass_eq _ _ _ _ _ _ _ _ _ Hp).
  destruct (update_absence_counter_cases clk (loaded clk s)) as [(-> & Hn)|(-> & _)];
    [|discriminate].
  destruct (analytics_pass clk _) as [d'|e] eqn:E; [|discriminate].
  cbn [fst]. intros H. injection H as <-. exists d'. auto.
Qed.

(** ** The loop of [_get_recent_reports] *)

Lemma recent_reports_loop_filter (today : date) (days : Z) (items : list (string * Report)) :
  forall acc,
    recent_reports_loop today days items acc
    = acc ++ map snd (filter (selected today days) items).
Proof.
  induction items as [|[k r] rest IH]; intros acc; cbn [recent_reports_loop filter].
  - now rewrite app_nil_r.
  - unfold selected at 1. cbn [fst].
    destruct (strptime k) as [dt|]; [|apply IH].
    destruct (days_between today dt <? days); [|apply IH].
    rewrite IH. cbn [map snd]. now rewrite <- app_assoc.
Qed.

Lemma get_recent_reports_filter (clk : Clock) (d : Document) (days : Z) :
  _get_recent_reports clk d days
  = map snd (filter (selected (today clk) days) (reports d)).
Proof. unfold _get_recent_reports. now rewrite recent_reports_loop_filter. Qed.

(** ** Doubles between 0 and 1 *)

Lemma digits2_pos_bound (m : positive) : Z.pos m < 2 ^ Z.pos (digits2_pos m).
Proof.
  induction m as [p IH|p IH|]; cbn [digits2_pos].
  - rewrite Pos2Z.inj_succ, Z.pow_succ_r by lia. lia.
  - rewrite Pos2Z.inj_succ, Z.pow_succ_r by lia. lia.
  - reflexivity.
Qed.

(** A finite double has at most 53 binary digits. *)
Lemma canonical_digits (m : positive) (e : Z) :
  SpecFloat.valid_binary prec emax (S754_finite false m e) = true ->
  Z.pos (digits2_pos m) <= 53.
Proof.
  cbn [SpecFloat.valid_binary]. unfold bounded, canonical_mantissa, fexp.
  intros Hv. apply andb_true_iff in Hv. destruct Hv as (Hc & _). apply Z.eqb_eq in Hc.
  unfold prec in Hc. lia.
Qed.

Lemma finite_ltb (m c : positive) (e k : Z) :
  SFltb (S754_finite false m e) (S754_finite false c k) = true ->
  e < k \/ (e = k /\ (m < c)%positive).
Proof.
  unfold SFltb, SFcompare. intros H1.
  destruct (Z.compare_spec e k) as [He|He|He]; try discriminate.
  - right. split; [exact He|].
    rewrite Pos.compare_cont_spec in H1. unfold Pos.switch_Eq in H1.
    destruct (Pos.compare_spec m c) as [Hm|Hm|Hm]; try discriminate.
    exact Hm.
  - now left.
Qed.

(** A double strictly between 0 and 1 is a positive finite one whose
    mantissa is below [2 ^ (- e)]. *)
Lemma unit_interval_float (x : float) :
  (0 <? x)%float = true -> (x <? 1)%float = true ->
  exists m e, Prim2SF x = S754_finite false m e /\ e < 0 /\ Z.pos m < 2 ^ (- e).
Proof.
  rewrite !ltb_spec. intros H0 H1.
  pose proof (Prim2SF_valid x) as Hv.
  assert (E0 : Prim2SF 0 = S754_zero false) by (vm_compute; reflexivity).
  assert (E1 : exists c, Prim2SF 1 = S754_finite false c (-52) /\ Z.pos c = 2 ^ 52)
    by (eexists; split; vm_compute; reflexivity).
  destruct E1 as (c & E1 & Hc).
  rewrite E0 in H0. rewrite E1 in H1. clear E0 E1.
  destruct (Prim2SF x) as [sz|si| |s m e]; try discriminate.
  - destruct si; discriminate.
  - destruct s; [discriminate|]. exists m, e. split; [reflexivity|].
    pose proof (canonical_digits m e Hv) as Hdg.
    pose proof (digits2_pos_bound m) as Hd.
    destruct (finite_ltb m c e (-52) H1) as [He|(He & Hm)].
    + split; [lia|].
      apply (Z.lt_le_trans _ _ _ Hd). apply Z.pow_le_mono_r; lia.
    + subst e. split; [lia|]. apply Pos2Z.pos_lt_pos in Hm. rewrite Hc in Hm. exact Hm.
Qed.

Lemma round_half_even_bounds (p q : Z) :
  0 <= p -> 0 < q -> p < 100 * q -> 0 <= round_half_even p q <= 100.
Proof.
  intros Hp Hq Hlt. unfold round_half_even.
  assert (Hfl : 0 <= p / q < 100).
  { split; [apply Z.div_pos; lia|]. apply Z.div_lt_upper_bound; lia. }
  destruct (2 * (p mod q) ?= q); [destruct (Z.even (p / q))| |]; lia.
Qed.

(** [round(x, 2)] of a double strictly between 0 and 1 is a whole number of
    hundredths between 0 and 100. *)
Lemma round2_unit (x : float) :
  (0 <? x)%float = true -> (x <? 1)%float = true ->
  exists n, 0 <= n <= 100 /\ round2 x = (float_of_Z n / 100)%float.
Proof.
  intros H0 H1. destruct (unit_interval_float x H0 H1) as (m & e & E & He & Hm).
  unfold round2. rewrite E.
  assert (Hq : 0 < 2 ^ (- e)) by (apply Z.pow_pos_nonneg; lia).
  replace (e >=? 0) with false by (symmetry; rewrite Z.geb_leb; apply Z.leb_gt; lia).
  rewrite (Z.div_small (Z.pos m) (2 ^ (- e))) by lia.
  replace (2 ^ 46 <=? 0) with false by (vm_compute; reflexivity). cbn [orb].
  exists (round_half_even (Z.pos m * 100) (2 ^ (- e))). split; [|reflexivity].
  apply round_half_even_bounds; lia.
Qed.

Lemma hundredths_in_unit (n : Z) :
  0 <= n <= 100 ->
  (0 <=? float_of_Z n / 100)%float = true /\ (float_of_Z n / 100 <=? 1)%float = true.
Proof.
  intros H.
  assert (E : exists k : nat, (k <= 100)%nat /\ n = Z.of_nat k)
    by (exists (Z.to_nat n); lia).
  destruct E as (k & Hk & ->).
  do 101 (destruct k as [|k]; [vm_compute; auto|]). lia.
Qed.

(** The clamped and rounded score. *)
Lemma clamped_score (x : float) :
  exists n, 0 <= n <= 100 /\ round2 (max0 (min1 x)) = (float_of_Z n / 100)%float.
Proof.
  unfold min1. destruct (x <? 1)%float eqn:H1.
  - unfold max0. destruct (0 <? x)%float eqn:H0.
    + exact (round2_unit x H0 H1).
    + exists 0. split; [lia|]. vm_compute. reflexivity.
  - exists 100. split; [lia|]. vm_compute. reflexivity.
Qed.

(** ** The day-off score *)

Lemma day_off_phase_rule_reasons (phase : string) (score : float) (reasons : list Reason) :
  exists more, snd (day_off_phase_rule phase score reasons) = reasons ++ more.
Proof.
  unfold day_off_phase_rule.
  repeat match goal with
         | |- context [if ?b then _ else _] => destruct b
         end; cbn [snd]; eauto using app_nil_r.
Qed.

Lemma day_off_answer_returns (clk : Clock) (data : Document) (resp : Response) :
  day_off_answer clk data = Returns resp ->
  exists x percent more,
    resp = DayOffScore (round2 (max0 (min1 x))) (DedicationIsAt percent :: more).
Proof.
  unfold day_off_answer, day_off_raw_score.
  destruct (int_of_float _) as [percent|]; [|discriminate]. cbn [obind].
  destruct (day_off_phase_rule_reasons (semester_phase (analytics data))
              (0.5 + (dedication_percentage (analytics data) - 0.7) * 0.5)%float
              [DedicationIsAt percent]) as (more1 & E1).
  destruct (day_off_phase_rule _ _ _) as [sc1 rs1]. cbn [fst snd app] in *. subst rs1.
  unfold day_off_holiday_rule.
  assert (Hb : forall sc rs,
             exists x more,
               day_off_burnout_rule (burnout_risk (analytics data)) sc
                 (DedicationIsAt percent :: rs)
               = (x, DedicationIsAt percent :: more)).
  { intros sc rs. unfold day_off_burnout_rule.
    destruct (_ || _); cbn [app]; eauto. }
  destruct (rev (holidays_log (analytics data))) as [|h older].
  - cbn [obind fst snd]. destruct (Hb sc1 more1) as (x & more & ->).
    cbn [fst snd]. intros H. injection H as <-. eauto.
  - destruct (strptime (log_date h)); [|discriminate].
    destruct (_ <=? 4); cbn [obind fst snd app].
    + destruct (Hb (sc1 - 0.4)%float (more1 ++ [RecentDayOff])) as (x & more & ->).
      cbn [fst snd]. intros H. injection H as <-. eauto.
    + destruct (Hb sc1 more1) as (x & more & ->).
      cbn [fst snd]. intros H. injection H as <-. eauto.
Qed.

(** ** Critical burnout *)

Lemma critical_needs_a_streak (data : Document) :
  _calculate_burnout_risk data = "critical" ->
  3 <= consecutive_high_intensity_days (analytics data).
Proof.
  unfold _calculate_burnout_risk. cbv zeta.
  destruct (consecutive_high_intensity_days (analytics data) >=? 3) eqn:H3.
  - intros _. rewrite Z.geb_leb in H3. now apply Z.leb_le in H3.
  - destruct (consecutive_high_intensity_days (analytics data) >=? 5) eqn:H5.
    { exfalso. rewrite Z.geb_leb in H3, H5.
      apply Z.leb_gt in H3. apply Z.leb_le in H5. lia. }
    destruct (last_7_days (completion_trends (analytics data)) <? 0.6)%float;
    destruct (dedication_percentage (analytics data) <? 0.5)%float;
    destruct (String.eqb (semester_phase (analytics data)) "mid_semester") eqn:Hm;
    destruct (String.eqb (semester_phase (analytics data)) "late_semester") eqn:Hl;
    destruct (String.eqb (semester_phase (analytics data)) "finals_period") eqn:Hf;
    try (exfalso; apply String.eqb_eq in Hf;
         first [ apply String.eqb_eq in Hm; rewrite Hm in Hf
               | apply String.eqb_eq in Hl; rewrite Hl in Hf ]; discriminate);
    destruct (absence_counter (analytics data) >? 2); discriminate.
Qed.

Lemma analytics_pass_burnout (clk : Clock) (d d' : Document) :
  analytics_pass clk d = Returns d' ->
  exists d2, burnout_risk (analytics d') = _calculate_burnout_risk d2 /\
             consecutive_high_intensity_days (analytics d2)
             = consecutive_high_intensity_days (analytics d) /\
             consecutive_high_intensity_days (analytics d')
             = consecutive_high_intensity_days (analytics d).
Proof.
  unfold analytics_pass.
  destruct (_calculate_dedication_percentage clk _) as [de|]; [|discriminate].
  cbn [obind]. intros H. injection H as <-. eexists. split; [reflexivity|].
  split; reflexivity.
Qed.

(** The recommendation, by its table. *)
Lemma recommend_table (clk : Clock) (d : Document) (rest : Recommendation) :
  _recommend_rest_or_light_day clk d = Returns rest ->
  (holiday_within clk 2 d -> recommendation rest = "PROCEED_NORMALLY") /\
  (~ holiday_within clk 2 d ->
   recommendation rest
   = rest_table (burnout_risk (analytics d))
       (consecutive_high_intensity_days (analytics d))).
Proof.
  unfold _recommend_rest_or_light_day, holiday_within, rest_table.
  destruct (rev (holidays_log (analytics d))) as [|h older].
  - intros H. split.
    + intros (h' & o & dt & E & _). discriminate.
    + intros _.
      repeat match type of H with
             | context [if ?b then _ else _] => destruct b
             end; injection H as <-; reflexivity.
  - destruct (strptime (log_date h)) as [dt|] eqn:E; [|discriminate].
    destruct (Z.leb_spec (days_between (today clk) dt) 2) as [Hle|Hgt].
    + intros H. injection H as <-. split; [reflexivity|].
      intros Hn. exfalso. apply Hn. exists h, older, dt. auto.
    + intros H. split.
      * intros (h' & o & dt' & E' & Es & Hd). injection E' as <- <-.
        rewrite E in Es. injection Es as <-. lia.
      * intros _.
        repeat match type of H with
               | context [if ?b then _ else _] => destruct b
               end; injection H as <-; reflexivity.
Qed.

(** ** The intensity streak under each call *)

Lemma run_call_streak (clk : Clock) (c : Call) (d : Document) :
  consecutive_high_intensity_days (analytics (stored_after clk c (Some d)))
  = streak_after c (consecutive_high_intensity_days (analytics d)).
Proof.
  assert (Hfoot : ~ In FIntensity (writes (kind c)) ->
                  consecutive_high_intensity_days (analytics (stored_after clk c (Some d)))
                  = consecutive_high_intensity_days (analytics d))
    by (intros H; exact (run_call_footprint clk c (Some d) FIntensity H)).
  destruct c as [|days|dt completed partial skipped was_absent ar was_holiday hr
                |dt ts ctx energy| |phase| |new_tasks|];
    cbn [streak_after]; try (apply Hfoot; cbn; intuition discriminate).
  - destruct was_holiday.
    + unfold stored_after. cbn [run_call]. rewrite report_holiday_eq. reflexivity.
    + destruct was_absent.
      * unfold stored_after. cbn [run_call]. rewrite report_absence_eq. reflexivity.
      * apply Hfoot. cbn. intuition discriminate.
  - unfold stored_after. cbn [run_call]. rewrite set_daily_plan_eq. cbn [snd loaded].
    apply (plan_set_fields clk dt ts ctx energy d).
Qed.

Lemma not_editor_keeps_long_term_tasks (c : Call) :
  is_edit_long_term_tasks c = false -> ~ In FLongTermTasks (writes (kind c)).
Proof.
  destruct c as [|days|dt completed partial skipped was_absent ar was_holiday hr
                |dt ts ctx energy| |phase| |new_tasks|]; cbn; try discriminate;
    try (intros _; intuition discriminate).
  destruct was_holiday, was_absent; cbn; intros _; intuition discriminate.
Qed.

(** * The claims *)

(** ** C1: the readiness gate blocks on the earliest unreported plan *)

(** C1. For every stored document and every date today,
    [check_readiness_for_planning] answers BLOCKED exactly when some date key
    of [plan] is strictly earlier than today and absent from [reports]
    (whatever else holds of today's plan or report, so BLOCKED comes before
    PLAN_EXIST, ALREADY_REPORTED and READY); the date it surfaces is such a
    date, it is the earliest one, and the tasks surfaced are that plan's task
    list.  In particular a plan for 2025-01-01 without a report, checked on
    2025-01-03, answers BLOCKED with that date.  Strictly earlier is [<] on the
    date strings, as the code compares them: on the ISO strings of calendar
    dates this is the order of the dates. *)
Theorem readiness_blocked_iff_earliest_unreported :
  (forall (clk : Clock) (data : Document),
     let r := fst (check_readiness_for_planning clk (Some data)) in
     ((exists date, blocking (today_str clk) data date) <->
      (exists e ts, r = Returns (BLOCKED e ts))) /\
     (forall e ts, r = Returns (BLOCKED e ts) ->
        blocking (today_str clk) data e /\
        (forall date, blocking (today_str clk) data date -> str_le e date = true) /\
        (exists p, get e (plan data) = Some p /\ ts = tasks p))) /\
  (forall (p : Plan) (rs : dict Report) (ltt : LongTermTasks) (a : Analytics)
          (now weekday : string),
     mem "2025-01-01" rs = false ->
     fst (check_readiness_for_planning (mkClock (mkdate 2025 1 3) now weekday)
            (Some (mkDocument [("2025-01-01", p)] rs ltt a)))
     = Returns (BLOCKED "2025-01-01" (tasks p))) /\
  (forall a b : date,
     valid_date a -> valid_date b ->
     (str_lt (isoformat a) (isoformat b) = true <-> days_between b a > 0)).
Proof.
  split; [|split; [|exact iso_strings_order_as_dates]].
  - intros clk data r. split.
    + split.
      * intros [date Hd]. apply unreported_dates_In in Hd.
        subst r. unfold check_readiness_for_planning, bind, _load_data, ret. simpl.
        destruct (unreported_dates (today_str clk) data) as [|e rest]; [destruct Hd|].
        simpl. eauto.
      * intros (e & ts & Hr). apply check_readiness_blocked_inv in Hr.
        destruct Hr as (rest & Hu & _). exists e.
        apply unreported_dates_In. rewrite Hu. now left.
    + intros e ts Hr. apply check_readiness_blocked_inv in Hr.
      destruct Hr as (rest & Hu & Hts).
      assert (Hb : blocking (today_str clk) data e).
      { apply unreported_dates_In. rewrite Hu. now left. }
      split; [exact Hb|]. split.
      * intros date Hd. apply unreported_dates_In in Hd.
        unfold unreported_dates in Hu, Hd. rewrite sorted_In in Hd.
        exact (sorted_head_least _ _ _ Hu _ Hd).
      * destruct Hb as (Hin & _). destruct (get_In_keys _ _ Hin) as [p Hp].
        exists p. rewrite Hp in Hts. auto.
  - intros p rs ltt a now weekday Hrs.
    unfold check_readiness_for_planning, bind, _load_data, ret, unreported_dates.
    simpl. rewrite Hrs. reflexivity.
Qed.

Lemma readiness_blocked_iff_earliest_unreported_witness :
  fst (check_readiness_for_planning
         (mkClock (mkdate 2025 1 3) "2025-01-03T09:00:00" "Friday")
         (Some (mkDocument [("2025-01-01", sample_plan)] [] []
                  (analytics (_get_default_data
                     (mkClock (mkdate 2025 1 1) "2025-01-01T08:00:00" "Wednesday"))))))
  = Returns (BLOCKED "2025-01-01" (tasks sample_plan)).
Proof.
  apply (proj1 (proj2 readiness_blocked_iff_earliest_unreported)). reflexivity.
Defined.

(** ** C2: the absence counter that dedication reads *)

(** C2 fails on the code.  On 2025-01-10, for a document whose last plan was
    set on 2025-01-01 and whose stored absence counter is 0, recomputation
    writes the refreshed counter 8 to the file only: the document it returns
    still carries 0, and the dedication it computes, 0.5, is the formula on
    that stale 0, where the formula on the refreshed 8 gives 0.2.  The gate
    surfaces the stale counter as well. *)
Theorem dedication_reads_the_stale_absence_counter :
  exists data' stored rest,
    _update_full_analytics later_clock idle_document (Some idle_document)
    = (Returns data', Some stored) /\
    absence_counter (analytics stored) = 8 /\
    absence_counter (analytics data') = 0 /\
    dedication_percentage (analytics data') = 0.5%float /\
    dedication_formula later_clock idle_document 0 = Returns 0.5%float /\
    dedication_formula later_clock idle_document 8 = Returns 0.2%float /\
    fst (check_readiness_for_planning later_clock (Some idle_document))
    = Returns (READY rest [] "Friday" "N/A" 0).
Proof.
  do 3 eexists. split; [vm_compute; reflexivity|].
  repeat split; vm_compute; reflexivity.
Qed.

(** ** C3: the window of the completion trends *)

(** C3 fails on the code.  On 2025-01-03, a report dated 2025-01-10 is outside
    the window [0 <= today - d < 7], yet [_get_recent_reports] selects it (its
    test is [today - d < days] alone), and the recomputed 7-day and 30-day
    trends are 1.0 where the empty window gives 0.0. *)
Theorem future_report_enters_the_trends :
  window_reports sample_clock future_document 7 = [] /\
  window_reports sample_clock future_document 30 = [] /\
  _get_recent_reports sample_clock future_document 7 = [future_report] /\
  _get_recent_reports sample_clock future_document 30 = [future_report] /\
  exists data' s',
    _update_full_analytics sample_clock future_document (Some future_document)
    = (Returns data', s') /\
    completion_trends (analytics data') = {| last_7_days := 1; last_30_days := 1 |}.
Proof.
  repeat split; try (vm_compute; reflexivity).
  do 2 eexists. split; vm_compute; reflexivity.
Qed.

(** ** C4: what the readiness gate leaves in the data file *)

(** C4, as the code has it.  For every stored document,
    [check_readiness_for_planning] leaves the file unchanged when it answers
    BLOCKED, PLAN_EXIST or ALREADY_REPORTED.  On the READY path the recomputed
    trends, dedication and burnout risk are not persisted, but the absence
    counter is: the file is left holding the document with only its
    [absence_counter] rewritten, to [max(0, (today - last_task_date) - 1)] when
    [last_task_date] is set and is a calendar date.  A call that raises leaves
    either the document or that refreshed document. *)
Theorem readiness_persists_only_the_absence_refresh (clk : Clock) (d : Document) :
  let r := fst (check_readiness_for_planning clk (Some d)) in
  let s' := snd (check_readiness_for_planning clk (Some d)) in
  match r with
  | Returns (READY _ _ _ _ _) => s' = Some (refresh_absence clk d)
  | Returns _ => s' = Some d
  | Raises _ => s' = Some d \/ s' = Some (refresh_absence clk d)
  end /\
  (exists c,
     refresh_absence clk d = set_analytics (set_absence_counter c (analytics d)) d) /\
  (forall str ltd,
     last_task_date (analytics d) = Some str -> str <> EmptyString ->
     strptime str = Some ltd ->
     absence_counter (analytics (refresh_absence clk d))
     = Z.max 0 (days_between (today clk) ltd - 1)).
Proof.
  cbv zeta. split; [|split].
  - rewrite check_readiness_eq. unfold gate_on. cbn [loaded].
    destruct (unreported_dates (today_str clk) d); [|reflexivity].
    destruct (mem (today_str clk) (plan d)); [reflexivity|].
    destruct (get (today_str clk) (reports d)); [reflexivity|].
    cbn [fst snd].
    destruct (fst (_update_full_analytics clk d (Some d))) as [data|e]; [|now right].
    destruct (_recommend_rest_or_light_day clk data); [reflexivity|now right].
  - apply refresh_absence_frame.
  - intros str ltd Hl Hne Hp. unfold refresh_absence. rewrite Hl.
    destruct str; [contradiction|]. cbn [falsy_str]. rewrite Hp. reflexivity.
Qed.

Lemma readiness_persists_only_the_absence_refresh_witness :
  absence_counter (analytics (refresh_absence later_clock idle_document))
  = Z.max 0 (days_between (today later_clock) (mkdate 2025 1 1) - 1).
Proof.
  apply (proj2 (proj2 (readiness_persists_only_the_absence_refresh
                         later_clock idle_document)) "2025-01-01");
    [reflexivity | discriminate | reflexivity].
Defined.

(** C4 as stated fails: on 2025-01-10 the gate answers READY for a document
    whose last plan was set on 2025-01-01, and the file it leaves is not the
    document it found (the stored absence counter went from 0 to 8). *)
Lemma readiness_ready_branch_writes_the_file :
  (exists rest ltt wd ph n,
     fst (check_readiness_for_planning later_clock (Some idle_document))
     = Returns (READY rest ltt wd ph n)) /\
  snd (check_readiness_for_planning later_clock (Some idle_document))
  <> Some idle_document /\
  option_map (fun d => absence_counter (analytics d))
    (snd (check_readiness_for_planning later_clock (Some idle_document))) = Some 8.
Proof.
  split; [|split].
  - vm_compute. do 5 eexists. reflexivity.
  - intros H.
    apply (f_equal (option_map (fun d => absence_counter (analytics d)))) in H.
    vm_compute in H. discriminate.
  - vm_compute. reflexivity.
Qed.

(** ** C5: the burnout band *)

(** C5 fails on the code.  After five hectic plans on five days in a row
    (from no data file), [get_analytics_context] on 2025-01-03 finds an
    intensity streak of 5, a 7-day trend of 0.0 and a dedication of 0.4, in no
    weighted phase and with no absences: the stated score is
    0.3 + 0.2 + 0.2 + 0.1 = 0.8, whose band is critical.  The code adds the
    same weights in double precision, obtains 0.7999999999999999 and rates the
    risk high; the same four weights added in the opposite order reach the 0.8
    threshold.  The next day, once the last plan is reported with nothing
    completed, the readiness gate recommends RECOMMENDED_REST where the
    critical band makes it MANDATORY_REST. *)
Theorem exact_score_0_8_is_rated_high :
  (exists a,
     fst (get_analytics_context sample_clock (run_calls five_hectic_plans None))
     = Returns (AnalyticsContext a) /\
     consecutive_high_intensity_days a = 5 /\
     last_7_days (completion_trends a) = 0%float /\
     dedication_percentage a = 0.4%float /\
     semester_phase a = "N/A" /\
     absence_counter a = 0 /\
     stated_risk_score a = 80 /\
     stated_risk_band (stated_risk_score a) = "critical" /\
     cumulative_risk_score (risk_contributions a) = (0 + 0.3 + 0.2 + 0.2 + 0.1)%float /\
     burnout_risk a = "high") /\
  (0 + 0.3 + 0.2 + 0.2 + 0.1 <? 0.8)%float = true /\
  (0.8 <=? 0 + 0.1 + 0.2 + 0.2 + 0.3)%float = true /\
  fst (check_readiness_for_planning next_day_clock
         (run_calls (five_hectic_plans ++ [(next_day_clock, nothing_done_report)]) None))
  = Returns (READY {| recommendation := "RECOMMENDED_REST";
                      reason := "High burnout risk detected." |}
               [] "Saturday" "N/A" 0).
Proof.
  split; [|split; [|split]].
  - eexists. split; [vm_compute; reflexivity|].
    repeat split; vm_compute; reflexivity.
  - vm_compute. reflexivity.
  - vm_compute. reflexivity.
  - vm_compute. reflexivity.
Qed.

(** ** The critical boundary of the burnout score *)

(** X1. With an intensity streak of at least 5, a 7-day trend below 0.6 and a
    dedication below 0.5, outside the weighted semester phases and with at
    most 2 absences, the weights added are 0.3, 0.2, 0.2 and 0.1.  Their
    double-precision sum is 0.7999999999999999, below the 0.8 threshold, and
    the band is high. *)
Theorem burnout_band_at_the_critical_boundary (data : Document) :
  consecutive_high_intensity_days (analytics data) >= 5 ->
  (last_7_days (completion_trends (analytics data)) <? 0.6)%float = true ->
  (dedication_percentage (analytics data) <? 0.5)%float = true ->
  existsb (String.eqb (semester_phase (analytics data)))
    ["mid_semester"; "late_semester"; "finals_period"] = false ->
  absence_counter (analytics data) <= 2 ->
  cumulative_risk_score (risk_contributions (analytics data))
  = (0 + 0.3 + 0.2 + 0.2 + 0.1)%float /\
  (cumulative_risk_score (risk_contributions (analytics data)) <? 0.8)%float = true /\
  _calculate_burnout_risk data = "high".
Proof.
  intros Hi Ht Hd Hp Ha.
  assert (Hscore : cumulative_risk_score (risk_contributions (analytics data))
                   = (0 + 0.3 + 0.2 + 0.2 + 0.1)%float).
  { unfold cumulative_risk_score, risk_contributions. cbn [fold_left fst snd].
    cbn [existsb] in Hp. rewrite !orb_false_iff in Hp.
    destruct Hp as (Hm & Hl & Hf & _).
    rewrite Ht, Hd, Hm, Hl, Hf.
    replace (consecutive_high_intensity_days (analytics data) >=? 3) with true
      by (symmetry; apply Z.geb_le; lia).
    replace (consecutive_high_intensity_days (analytics data) >=? 5) with true
      by (symmetry; apply Z.geb_le; lia).
    replace (absence_counter (analytics data) >? 2) with false
      by (symmetry; rewrite Z.gtb_ltb; apply Z.ltb_ge; lia).
    reflexivity. }
  rewrite calculate_burnout_risk_eq, Hscore. repeat split.
Qed.

Lemma burnout_band_at_the_critical_boundary_witness :
  exists data' s',
    _update_full_analytics sample_clock strained_document (Some strained_document)
    = (Returns data', s') /\
    cumulative_risk_score (risk_contributions (analytics data'))
    = (0 + 0.3 + 0.2 + 0.2 + 0.1)%float /\
    (cumulative_risk_score (risk_contributions (analytics data')) <? 0.8)%float = true /\
    _calculate_burnout_risk data' = "high".
Proof.
  do 2 eexists. split; [vm_compute; reflexivity|].
  apply burnout_band_at_the_critical_boundary;
    first [ reflexivity | discriminate | (cbn; lia) ].
Defined.

(** X2. For every document, [_calculate_burnout_risk] returns the band of
    the exactly added score (weights 0.3, 0.2, 0.2, 0.1, 0.15, 0.25, 0.1;
    thresholds 0.8, 0.6, 0.4), except when that score is exactly 0.8: there
    the double-precision sum stays below the threshold and the code returns
    high where the exact band is critical.  The exact score is 0.8 only with
    an intensity streak of at least 5, a 7-day trend below 0.6, no weighted
    semester phase, and exactly one of dedication below 0.5 and more than 2
    absences. *)
Theorem burnout_band_is_exact_except_at_0_8 (data : Document) :
  (stated_risk_score (analytics data) <> 80 ->
   _calculate_burnout_risk data = stated_risk_band (stated_risk_score (analytics data))) /\
  (stated_risk_score (analytics data) = 80 ->
   _calculate_burnout_risk data = "high" /\
   stated_risk_band (stated_risk_score (analytics data)) = "critical" /\
   (consecutive_high_intensity_days (analytics data) >=? 5) = true /\
   (last_7_days (completion_trends (analytics data)) <? 0.6)%float = true /\
   existsb (String.eqb (semester_phase (analytics data)))
     ["mid_semester"; "late_semester"; "finals_period"] = false /\
   (dedication_percentage (analytics data) <? 0.5)%float
   = negb (absence_counter (analytics data) >? 2)).
Proof.
  unfold _calculate_burnout_risk, stated_risk_score. cbv zeta. cbn [existsb].
  destruct (consecutive_high_intensity_days (analytics data) >=? 3) eqn:H3;
  destruct (consecutive_high_intensity_days (analytics data) >=? 5) eqn:H5;
  try (exfalso; rewrite Z.geb_leb in H3, H5;
       apply Z.leb_gt in H3; apply Z.leb_le in H5; lia);
  destruct (last_7_days (completion_trends (analytics data)) <? 0.6)%float;
  destruct (dedication_percentage (analytics data) <? 0.5)%float;
  destruct (String.eqb (semester_phase (analytics data)) "mid_semester") eqn:Hm;
  destruct (String.eqb (semester_phase (analytics data)) "late_semester") eqn:Hl;
  destruct (String.eqb (semester_phase (analytics data)) "finals_period") eqn:Hf;
  try (exfalso; apply String.eqb_eq in Hf;
       first [ apply String.eqb_eq in Hm; rewrite Hm in Hf
             | apply String.eqb_eq in Hl; rewrite Hl in Hf ]; discriminate);
  destruct (absence_counter (analytics data) >? 2);
  (split; intros H;
   [ first [ reflexivity | exfalso; apply H; reflexivity ]
   | first [ discriminate H | repeat split ] ]).
Qed.

(** ** C6: the stored completion rate *)

(** C6, as the code has it.  For every normal report against a date that has
    a plan, the completion rate stored under that date is
    [|completed| / |plan.tasks|] rounded to two decimal places, and 0 when the
    plan has no task (the division is guarded); a plan with 4 tasks reported
    with 2 completed names stores 0.5. *)
Theorem report_stores_the_rounded_completion_rate
  (clk : Clock) (d : Document) (date : string) (completed : list string)
  (partial skipped : list Item) (absence_reason holiday_reason : string)
  (p : Plan) (resp : Response) (s' : Store) :
  get date (plan d) = Some p ->
  report clk date completed partial skipped false absence_reason false holiday_reason
    (Some d) = (Returns resp, s') ->
  exists d' r,
    s' = Some d' /\ get date (reports d') = Some r /\
    completion_rate r
    = match tasks p with
      | [] => 0%float
      | _ :: _ =>
          round2 (float_of_Z (Z.of_nat (List.length completed))
                  / float_of_Z (Z.of_nat (List.length (tasks p))))%float
      end /\
    (List.length (tasks p) = 4%nat -> List.length completed = 2%nat ->
     completion_rate r = 0.5%float).
Proof.
  intros Hp Hr.
  destruct (report_normal_returns _ _ _ _ _ _ _ _ _ _ _ Hp Hr) as (t & de & br & -> & _).
  eexists. eexists. split; [reflexivity|].
  cbn [reports set_analytics reported_document set_reports].
  split; [apply get_set_same|]. cbn [completion_rate].
  assert (Hrate : round2 (raw_completion_rate completed p)
                  = match tasks p with
                    | [] => 0%float
                    | _ :: _ =>
                        round2 (float_of_Z (Z.of_nat (List.length completed))
                                / float_of_Z (Z.of_nat (List.length (tasks p))))%float
                    end).
  { unfold raw_completion_rate. destruct (tasks p) as [|x xs]; [reflexivity|].
    replace (Z.of_nat (List.length (x :: xs)) >? 0) with true; [reflexivity|].
    symmetry. apply Z.gtb_lt. cbn [List.length]. lia. }
  split; [exact Hrate|].
  intros H4 H2. rewrite Hrate.
  destruct (tasks p) as [|x xs]; [discriminate|].
  rewrite H4, H2. vm_compute. reflexivity.
Qed.

Lemma report_stores_the_rounded_completion_rate_witness :
  exists d' r,
    snd (report february_clock "2025-02-01" ["Essay"; "Lab"] [] [] false "" false ""
           (Some (set_plan [("2025-02-01", four_task_plan)] planned_document)))
    = Some d' /\
    get "2025-02-01" (reports d') = Some r /\
    completion_rate r = 0.5%float.
Proof.
  destruct (report_stores_the_rounded_completion_rate february_clock
              (set_plan [("2025-02-01", four_task_plan)] planned_document)
              "2025-02-01" ["Essay"; "Lab"] [] [] "" "" four_task_plan
              (ReportLogged 0.75 [])
              (snd (report february_clock "2025-02-01" ["Essay"; "Lab"] [] [] false ""
                      false ""
                      (Some (set_plan [("2025-02-01", four_task_plan)]
                               planned_document)))))
    as (d' & r & Hs & Hr & _ & H).
  - reflexivity.
  - vm_compute. reflexivity.
  - exists d', r. repeat split; [exact Hs | exact Hr | apply H; reflexivity].
Defined.

(** C6 as stated fails: with 3 planned tasks and 1 completed, the stored rate
    is 0.33, which is not 1/3. *)
Lemma stored_completion_rate_is_not_the_quotient :
  exists d' r,
    snd (report sample_clock "2025-01-03" ["Essay"] [] [] false "" false ""
           (Some (set_plan [("2025-01-03", three_task_plan)] planned_document)))
    = Some d' /\
    get "2025-01-03" (reports d') = Some r /\
    completion_rate r = 0.33%float /\
    completion_rate r <> raw_completion_rate ["Essay"] three_task_plan /\
    (completion_rate r =? 1 / 3)%float = false.
Proof.
  eexists. eexists. split; [vm_compute; reflexivity|].
  split; [vm_compute; reflexivity|]. cbn [completion_rate].
  split; [reflexivity|]. split; [|vm_compute; reflexivity].
  intros H. apply (f_equal (fun x => PrimFloat.eqb x 0.33)) in H.
  vm_compute in H. discriminate.
Qed.

(** ** C7: skip patterns *)

(** C7, as the code has it.  For every normal report that returns, every
    skipped task is grouped under the part of its name before the first space
    character ([name.split(" ")[0]]): that key's [skip_count] in the file
    grows by the number of skipped tasks under it and their reasons are
    appended in order; the returned alert list contains the alert of a key
    exactly when the key was skipped in this report and its accumulated count
    is at least 3, so the alert fires on the report that reaches 3 and again on
    every later report that skips the key. *)
Theorem report_skip_patterns
  (clk : Clock) (d : Document) (date : string) (completed : list string)
  (partial skipped : list Item) (absence_reason holiday_reason : string)
  (p : Plan) (resp : Response) (s' : Store) :
  get date (plan d) = Some p ->
  report clk date completed partial skipped false absence_reason false holiday_reason
    (Some d) = (Returns resp, s') ->
  exists de alerts d',
    resp = ReportLogged de alerts /\ s' = Some d' /\
    (forall k, skip_count_of k (problem_tasks (analytics d'))
               = skip_count_of k (problem_tasks (analytics d)) + occurrences k skipped) /\
    (forall k, skip_reasons_of k (problem_tasks (analytics d'))
               = skip_reasons_of k (problem_tasks (analytics d))
                 ++ reasons_for k skipped) /\
    (forall k, In (pattern_alert k) alerts <->
               In k (map task_name_base skipped) /\
               skip_count_of k (problem_tasks (analytics d')) >= 3) /\
    (forall k, In k (map task_name_base skipped) ->
               skip_count_of k (problem_tasks (analytics d)) >= 2 ->
               In (pattern_alert k) alerts).
Proof.
  intros Hp Hr.
  destruct (report_normal_returns _ _ _ _ _ _ _ _ _ _ _ Hp Hr) as (t & de & br & -> & ->).
  do 3 eexists. split; [reflexivity|]. split; [reflexivity|].
  cbn [analytics set_analytics problem_tasks set_burnout_risk set_dedication_percentage
       set_completion_trends reported_document set_reports set_problem_tasks].
  destruct (skip_loop_spec skipped (problem_tasks (analytics d)) []) as (Hc & Hrs & Ha).
  split; [exact Hc|]. split; [exact Hrs|].
  assert (Hiff : forall k,
             In (pattern_alert k) (snd (skip_loop skipped (problem_tasks (analytics d)) []))
             <-> In k (map task_name_base skipped) /\
                 skip_count_of k
                   (fst (skip_loop skipped (problem_tasks (analytics d)) [])) >= 3).
  { intros k. rewrite Ha. cbn [In]. tauto. }
  split; [exact Hiff|].
  intros k Hin H2. apply Hiff. split; [exact Hin|].
  rewrite Hc. apply occurrences_pos_iff in Hin. lia.
Qed.

Lemma report_skip_patterns_witness :
  exists de alerts d',
    fst (report sample_clock "2025-01-03" ["Math homework"] []
           [mkItem "Read paper" (Some "no time")] false "" false ""
           (Some planned_document)) = Returns (ReportLogged de alerts) /\
    snd (report sample_clock "2025-01-03" ["Math homework"] []
           [mkItem "Read paper" (Some "no time")] false "" false ""
           (Some planned_document)) = Some d' /\
    skip_count_of "Read" (problem_tasks (analytics d')) = 1 /\
    ~ In (pattern_alert "Read") alerts.
Proof.
  destruct (report_skip_patterns sample_clock planned_document "2025-01-03"
              ["Math homework"] [] [mkItem "Read paper" (Some "no time")] "" ""
              sample_plan
              (ReportLogged 0.75 [])
              (snd (report sample_clock "2025-01-03" ["Math homework"] []
                      [mkItem "Read paper" (Some "no time")] false "" false ""
                      (Some planned_document))))
    as (de & alerts & d' & Hresp & Hs & Hc & _ & Ha & _).
  - reflexivity.
  - vm_compute. reflexivity.
  - exists de, alerts, d'. split; [vm_compute; now rewrite Hresp|].
    split; [exact Hs|]. split; [now rewrite Hc|].
    rewrite Ha, Hc. cbn. lia.
Defined.

(** C7 as stated fails on the grouping key: a skipped task named
    [Math<TAB>quiz] has [Math] as its first whitespace-delimited token, but is
    counted under its whole name, and no counter is kept for [Math]. *)
Lemma skip_key_is_not_the_first_whitespace_token :
  first_whitespace_token tabbed_name = "Math" /\
  task_name_base (mkItem tabbed_name None) = tabbed_name /\
  exists d',
    snd (report sample_clock "2025-01-03" [] [] [mkItem tabbed_name None]
           false "" false "" (Some planned_document)) = Some d' /\
    keys (problem_tasks (analytics d')) = [tabbed_name] /\
    get "Math" (problem_tasks (analytics d')) = None.
Proof.
  split; [reflexivity|]. split; [reflexivity|].
  eexists. split; [vm_compute; reflexivity|]. split; reflexivity.
Qed.

(** The skip-pattern scenario: of four successive reports each skipping a
    task whose name starts with [Math], the first two return no alert and the
    third and the fourth each return the alert for [Math]. *)
Example skip_pattern_refires :
  map triggered_of
    (responses
       [ (sample_clock, math_report "Math homework");
         (sample_clock, math_report "Math quiz");
         (sample_clock, math_report "Math revision");
         (sample_clock, math_report "Math exam") ]
       (Some planned_document))
  = [ []; []; ["3rd_skip_pattern for Math"]; ["3rd_skip_pattern for Math"] ].
Proof. vm_compute. reflexivity. Qed.

(** ** C8: recomputation is idempotent *)

(** C8. Recomputing analytics on an unchanged document is idempotent: when
    [_update_full_analytics] returns a document (leaving the data file in some
    state), running it again on that document and that file, at the same date,
    returns the same document and leaves the file as it is; so the second pass
    changes no analytics field (trends, dedication, burnout risk, absence
    counter), in the caller's document or in the file.  Whatever the file
    holds, a later pass over the returned document that returns, returns that
    same document.  The same holds of the whole cycle of
    [get_analytics_context] (load, recompute, persist): a second call at the
    same date answers the same analytics and leaves the same file. *)
Theorem update_full_analytics_idempotent :
  (forall (clk : Clock) (data data' : Document) (s s' : Store),
     _update_full_analytics clk data s = (Returns data', s') ->
     _update_full_analytics clk data' s' = (Returns data', s')) /\
  (forall (clk : Clock) (data data' data'' : Document) (s s' s2 : Store),
     _update_full_analytics clk data s = (Returns data', s') ->
     fst (_update_full_analytics clk data' s2) = Returns data'' ->
     data'' = data') /\
  (forall (clk : Clock) (s s' : Store) (r : Response),
     get_analytics_context clk s = (Returns r, s') ->
     get_analytics_context clk s' = (Returns r, s')).
Proof.
  split; [|split].
  - intros clk data data' s s'. rewrite update_full_analytics_eq.
    destruct (fst (_update_absence_counter clk s)) as [u|e] eqn:Hfst;
      [|discriminate].
    intros H. injection H as Hpass <-.
    rewrite update_full_analytics_eq.
    rewrite (update_absence_counter_returns_again clk (loaded clk s)
               (refresh_absence clk (loaded clk s)) u
               (refresh_absence_last_task_date clk (loaded clk s))).
    + cbn [loaded].
      rewrite refresh_absence_idem, (analytics_pass_idem _ _ _ Hpass). reflexivity.
    + rewrite update_absence_counter_eq in Hfst |- *. exact Hfst.
  - intros clk data data' data'' s s' s2. rewrite !update_full_analytics_eq.
    destruct (fst (_update_absence_counter clk s)); [|discriminate].
    intros H. injection H as Hpass _.
    destruct (fst (_update_absence_counter clk s2)); [|discriminate].
    cbn [fst]. rewrite (analytics_pass_idem _ _ _ Hpass). congruence.
  - intros clk s s' r. rewrite get_analytics_context_eq.
    destruct (fst (_update_absence_counter clk (Some (loaded clk s)))) as [u|e]
      eqn:Hfst; [|discriminate].
    destruct (analytics_pass clk (loaded clk s)) as [data'|e] eqn:Hpass;
      [|discriminate].
    intros H. injection H as <- <-.
    rewrite get_analytics_context_eq. cbn [loaded].
    destruct (analytics_pass_frame _ _ _ Hpass) as (t & de & br & Hd').
    rewrite (update_absence_counter_returns_again clk (loaded clk s) data' u).
    + rewrite (analytics_pass_idem _ _ _ Hpass). reflexivity.
    + rewrite Hd'. reflexivity.
    + exact Hfst.
Qed.

Lemma update_full_analytics_idempotent_witness :
  _update_full_analytics later_clock
    (set_analytics
       (set_burnout_risk "low"
          (set_dedication_percentage 0.5 (analytics idle_document))) idle_document)
    (Some (refresh_absence later_clock idle_document))
  = (Returns
       (set_analytics
          (set_burnout_risk "low"
             (set_dedication_percentage 0.5 (analytics idle_document))) idle_document),
     Some (refresh_absence later_clock idle_document)).
Proof.
  apply (proj1 update_full_analytics_idempotent later_clock idle_document _
           (Some idle_document)).
  vm_compute. reflexivity.
Defined.

(** ** C9: the plan mapping is a single slot *)

(** C9. The plan mapping is a single slot: [set_daily_plan] leaves in the file
    a plan mapping made of exactly the one entry for its date (whatever was
    there before); every other tool leaves the plan mapping as it found it;
    hence after any sequence of calls from the default document, or from no
    file at all, the plan mapping holds at most one entry and the readiness
    gate's scan finds at most one blocking date. *)
Theorem plan_is_a_single_slot :
  (forall clk date ts ctx energy s,
     exists p,
       plan_of (snd (set_daily_plan clk date ts ctx energy s)) = [(date, p)] /\
       tasks p = ts /\ context p = ctx /\ energy_level p = energy) /\
  (forall clk c s,
     is_set_daily_plan c = false -> plan_of (snd (run_call clk c s)) = plan_of s) /\
  (forall clk0 calls s0,
     s0 = None \/ s0 = Some (_get_default_data clk0) ->
     (List.length (plan_of (run_calls calls s0)) <= 1)%nat /\
     (forall today_s,
        List.length (unreported_dates today_s (loaded clk0 (run_calls calls s0)))
        <= 1)%nat).
Proof.
  split; [|split].
  - intros. eexists. rewrite set_daily_plan_plan. repeat split.
  - apply run_call_keeps_plan.
  - intros clk0 calls s0 Hs0.
    assert (H : (List.length (plan_of (run_calls calls s0)) <= 1)%nat).
    { apply run_calls_single_slot. destruct Hs0; subst; cbn; lia. }
    split; [exact H|]. intros today_s.
    etransitivity; [apply unreported_dates_length|].
    rewrite plan_loaded. exact H.
Qed.

Lemma plan_is_a_single_slot_witness :
  (List.length (plan_of (run_calls sample_calls None)) <= 1)%nat /\
  (forall today_s,
     List.length
       (unreported_dates today_s (loaded sample_clock (run_calls sample_calls None)))
     <= 1)%nat.
Proof.
  apply (proj2 (proj2 plan_is_a_single_slot) sample_clock sample_calls None).
  left. reflexivity.
Defined.

(** ** C10: tools that raise *)

(** C10 fails on the code.  A holiday logged with a date range, as the
    [report] tool asks for consecutive days, is accepted; from then on
    [check_readiness_for_planning] (on its READY path) and
    [validate_day_off_request] raise [ValueError] when they parse the last
    holiday's date. *)
Theorem range_holiday_makes_the_tools_raise :
  exists stored,
    report sample_clock "2025-07-15 to 2025-07-23" [] [] [] false "" true "trip" None
    = (Returns (HolidayLogged "2025-07-15 to 2025-07-23"), Some stored) /\
    map log_date (holidays_log (analytics stored)) = ["2025-07-15 to 2025-07-23"] /\
    fst (check_readiness_for_planning sample_clock (Some stored)) = Raises ValueError /\
    fst (validate_day_off_request sample_clock (Some stored)) = Raises ValueError.
Proof.
  eexists. split; [vm_compute; reflexivity|].
  repeat split; vm_compute; reflexivity.
Qed.

(** * Further properties of the engine *)

(** ** Invariants of the data file *)

(** X3. Every document the tools leave in the data file is well formed when
    the document they started from is (and the default document is): the
    absence counter and the intensity streak are never negative, the burnout
    risk is one of low, medium, high, critical, the semester phase is N/A or
    one of the five valid phases, no report date and no problem task occurs
    twice, and every problem task's skip count is at least 1 and equals the
    number of reasons recorded with it. This holds after any sequence of
    calls of the nine tools, at any clock readings, whether they return or
    raise. *)
Theorem tools_keep_the_document_well_formed (calls : list (Clock * Call)) (s : Store)
  (clk : Clock) :
  well_formed (loaded clk s) -> well_formed (loaded clk (run_calls calls s)).
Proof.
  intros Hwf. destruct calls as [|[clk1 c] rest]; [exact Hwf|].
  cbn [run_calls].
  destruct (run_call_file_step clk1 c s) as (d1 & E1 & Hstep). rewrite E1.
  destruct (run_calls_file_steps rest d1) as (d2 & E2 & Hsteps). rewrite E2.
  cbn [loaded]. apply (file_steps_well_formed d1 d2 Hsteps).
  apply (file_step_well_formed clk1 _ _ Hstep).
  destruct s as [d|]; [exact Hwf|apply well_formed_default].
Qed.

Lemma tools_keep_the_document_well_formed_witness :
  well_formed (loaded later_clock (run_calls sample_calls (Some strained_document))).
Proof.
  apply (tools_keep_the_document_well_formed sample_calls (Some strained_document)
           later_clock).
  cbn [loaded]. unfold well_formed, strained_document. cbn.
  repeat split; try lia; try tauto; try constructor; discriminate.
Defined.

(** X4. The tools never lose history: after any sequence of calls the
    holiday log and the absence log are the old logs with entries appended,
    every date that had a report still has one, no skip counter has decreased
    and every recorded skip reason is still recorded, in its place. *)
Theorem tools_only_extend_the_history (calls : list (Clock * Call)) (d : Document) :
  exists d', run_calls calls (Some d) = Some d' /\ keeps_history d d'.
Proof.
  destruct (run_calls_file_steps calls d) as (d' & E & Hsteps).
  exists d'. split; [exact E|]. now apply file_steps_keeps_history.
Qed.

(** X5. Each tool changes only its own fields of the stored document:
    [check_readiness_for_planning] and [validate_day_off_request] at most the
    absence counter; [get_recent_reports] and [show_long_term_tasks] nothing;
    a holiday report the holiday log and the intensity streak; an absence
    report the absence log and the intensity streak; a normal report the
    reports, the problem tasks, the trends, dedication, burnout risk and the
    absence counter; [set_daily_plan] the plan, the last task date, the
    absence counter and the intensity streak; [get_analytics_context] the
    trends, dedication, burnout risk and the absence counter;
    [update_semester_phase] the semester phase; [edit_long_term_tasks] the
    long-term tasks. A field that no call of a sequence may write is the same
    after the sequence as before it, whether the calls return or raise. *)
Theorem field_changes_only_by_its_writers (calls : list (Clock * Call)) (f : Field) :
  (forall clk c, In (clk, c) calls -> ~ In f (writes (kind c))) ->
  forall d, exists d', run_calls calls (Some d) = Some d' /\ same_field f d d'.
Proof. apply run_calls_footprint. Qed.

Lemma field_changes_only_by_its_writers_witness :
  exists d', run_calls sample_calls (Some strained_document) = Some d'
             /\ same_field FSemesterPhase strained_document d'.
Proof.
  apply (field_changes_only_by_its_writers sample_calls FSemesterPhase).
  intros clk c Hin. cbn in Hin.
  repeat (destruct Hin as [Hin|Hin]; [injection Hin as <- <-; cbn; intuition discriminate|]).
  destruct Hin.
Defined.

(** ** The readiness gate *)

(** X6. The readiness gate answers by precedence. With no plan date both
    unreported and before today: it answers PLAN_EXIST, carrying the whole
    plan mapping and the semester phase, exactly when [plan] has an entry for
    today, also when today is already reported; it answers ALREADY_REPORTED,
    carrying today's report, exactly when [plan] has no entry for today and
    [reports] has one; and it reaches the recalculation (answering READY, or
    raising) exactly when neither has an entry for today. A READY answer
    carries the long-term tasks, the semester phase and the absence counter
    of the document as it was loaded, so the absence counter shown is the one
    from before this call's refresh. The gate gives no other answer. *)
Theorem readiness_answers_by_precedence (clk : Clock) (s : Store) :
  let d := loaded clk s in
  let t := today_str clk in
  let r := fst (check_readiness_for_planning clk s) in
  ((exists t' pl ph, r = Returns (PLAN_EXIST t' pl ph)) <->
   no_blocking t d /\ mem t (plan d) = true) /\
  (forall t' pl ph, r = Returns (PLAN_EXIST t' pl ph) ->
     t' = t /\ pl = plan d /\ ph = semester_phase (analytics d)) /\
  ((exists rep c, r = Returns (ALREADY_REPORTED rep c)) <->
   no_blocking t d /\ mem t (plan d) = false /\ mem t (reports d) = true) /\
  (forall rep c, r = Returns (ALREADY_REPORTED rep c) ->
     get t (reports d) = Some rep /\ c = performance_comment (completion_rate rep)) /\
  ((exists rest ltt wd ph n, r = Returns (READY rest ltt wd ph n)) \/
   (exists e, r = Raises e) <-> ready_path clk d) /\
  (forall rest ltt wd ph n, r = Returns (READY rest ltt wd ph n) ->
     ltt = long_term_tasks d /\ wd = day_of_week clk /\
     ph = semester_phase (analytics d) /\ n = absence_counter (analytics d)) /\
  (forall resp, r = Returns resp ->
     match resp with
     | BLOCKED _ _ | PLAN_EXIST _ _ _ | ALREADY_REPORTED _ _ | READY _ _ _ _ _ => True
     | _ => False
     end).
Proof.
  cbv zeta. unfold ready_path.
  destruct (unreported_dates (today_str clk) (loaded clk s)) as [|e0 rest0] eqn:E.
  - pose proof E as Hnb. apply unreported_dates_nil_iff in Hnb.
    rewrite (gate_unblocked clk s Hnb). cbv zeta.
    destruct (mem (today_str clk) (plan (loaded clk s))) eqn:Hm;
      [gate_split; gate_leaf|].
    destruct (get (today_str clk) (reports (loaded clk s))) as [rep0|] eqn:Hg.
    { assert (Hmr : mem (today_str clk) (reports (loaded clk s)) = true)
        by (apply mem_get; eauto).
      rewrite Hmr. gate_split; gate_leaf. }
    assert (Hmr : mem (today_str clk) (reports (loaded clk s)) = false)
      by (unfold mem; now rewrite Hg).
    rewrite Hmr.
    destruct (fst (_update_full_analytics clk (loaded clk s) (Some (loaded clk s))))
      as [data|e1] eqn:Eu; [|gate_split; gate_leaf].
    apply recalculation_returns_pass in Eu. destruct Eu as (_ & Hp).
    destruct (analytics_pass_frame _ _ _ Hp) as (tr & de & br & ->).
    cbn [long_term_tasks set_analytics analytics semester_phase absence_counter
           set_burnout_risk set_dedication_percentage set_completion_trends].
    destruct (_recommend_rest_or_light_day clk _) as [rest|e2]; gate_split; gate_leaf.
  - rewrite (gate_blocked clk s e0 rest0 E).
    assert (Hb : ~ no_blocking (today_str clk) (loaded clk s)).
    { intros H. apply unreported_dates_nil_iff in H. congruence. }
    gate_split; gate_leaf.
Qed.

(** ** When the tools raise *)


(** ** A missing data file *)



(** ** Planning and the gate *)

(** X9. [set_daily_plan] overrides whatever blocked planning: right after a
    plan for [date] is stored, the readiness gate can only block on that very
    date, and does so exactly when [date] sorts before today (as strings) and
    has no report; every plan that was unreported before the call is gone. If
    [date] is today the gate answers PLAN_EXIST with the new plan. *)
Theorem planning_replaces_what_blocked (clk0 clk : Clock) (date : string)
  (ts : list Task) (ctx energy : string) (s : Store) :
  let s1 := snd (set_daily_plan clk0 date ts ctx energy s) in
  let r := fst (check_readiness_for_planning clk s1) in
  (r = Returns (BLOCKED date ts) <->
   str_lt date (today_str clk) = true /\ mem date (reports (loaded clk0 s)) = false) /\
  (forall e ts', r = Returns (BLOCKED e ts') -> e = date /\ ts' = ts) /\
  (date = today_str clk ->
   r = Returns (PLAN_EXIST date [(date, plan_data_of clk0 ts ctx energy)]
                  (semester_phase (analytics (loaded clk0 s))))).
Proof.
  cbv zeta. rewrite set_daily_plan_eq. cbn [snd].
  destruct (plan_set_fields clk0 date ts ctx energy (loaded clk0 s))
    as (Hp & Hr & Hph & _).
  destruct (gate_single_plan clk date _ _ Hp) as (Hb & He & Hinv).
  rewrite Hr in Hb, Hinv. cbn [tasks plan_data_of] in Hb, Hinv.
  split; [|split].
  - split.
    + intros H. destruct (Hinv _ _ H) as (_ & _ & Hc).
      apply andb_true_iff in Hc. destruct Hc as (Hc1 & Hc2).
      apply negb_true_iff in Hc1. auto.
    + intros (H1 & H2). apply Hb. now rewrite H1, H2.
  - intros e ts' H. destruct (Hinv _ _ H) as (-> & -> & _). auto.
  - intros Hd. rewrite (He Hd). now rewrite Hp, Hph.
Qed.

(** X10. Once a plan for today is stored, the readiness gate answers
    PLAN_EXIST for the rest of that day whatever else is called, as long as
    no other plan is set: reporting today's plan does not turn the answer
    into ALREADY_REPORTED, since the plan entry stays and is tested first. *)
Theorem todays_plan_holds_the_gate (clk0 clk : Clock) (ts : list Task)
  (ctx energy : string) (s : Store) (calls : list (Clock * Call)) :
  today_str clk = today_str clk0 ->
  (forall clk' c, In (clk', c) calls -> is_set_daily_plan c = false) ->
  exists phase,
    fst (check_readiness_for_planning clk
           (run_calls calls (snd (set_daily_plan clk0 (today_str clk0) ts ctx energy s))))
    = Returns (PLAN_EXIST (today_str clk)
                 [(today_str clk0, plan_data_of clk0 ts ctx energy)] phase).
Proof.
  intros Ht Hc. rewrite set_daily_plan_eq. cbn [snd].
  destruct (plan_set_fields clk0 (today_str clk0) ts ctx energy (loaded clk0 s))
    as (Hp & _).
  destruct (run_calls_footprint calls FPlan
              (fun clk' c Hin => not_planner_keeps_plan c (Hc clk' c Hin))
              (plan_set clk0 (today_str clk0) ts ctx energy (loaded clk0 s)))
    as (d' & -> & Hsame).
  cbn [same_field] in Hsame. rewrite Hp in Hsame.
  destruct (gate_single_plan clk (today_str clk0) _ d' Hsame) as (_ & He & _).
  rewrite (He (eq_sym Ht)). rewrite Hsame, Ht. eauto.
Qed.

Lemma todays_plan_holds_the_gate_witness :
  exists phase,
    fst (check_readiness_for_planning sample_clock
           (run_calls [(sample_clock, math_report "Math homework");
                       (sample_clock, GetAnalyticsContext)]
              (snd (set_daily_plan sample_clock (today_str sample_clock)
                      (tasks sample_plan) "normal" "high" None))))
    = Returns (PLAN_EXIST (today_str sample_clock)
                 [(today_str sample_clock,
                   plan_data_of sample_clock (tasks sample_plan) "normal" "high")] phase).
Proof.
  apply (todays_plan_holds_the_gate sample_clock sample_clock (tasks sample_plan)
           "normal" "high" None
           [(sample_clock, math_report "Math homework");
            (sample_clock, GetAnalyticsContext)]).
  - reflexivity.
  - intros clk' c [H|[H|[]]]; injection H as <- <-; reflexivity.
Defined.

(** ** Reports and the gate *)

(** X11. A holiday or absence report needs no plan and never raises; it
    appends one entry (date, reason, today) to its log, resets the intensity
    streak to 0, and creates no report, whatever [completed], [partial] and
    [skipped] hold; when both flags are set it is logged as a holiday only.
    It therefore does not lift a block: at any later clock reading the
    readiness gate answers BLOCKED for a date after the call exactly when it
    did before, also when the holiday or absence is logged for that very
    date. *)
Theorem day_off_reports_do_not_lift_the_block (clk : Clock) (date : string)
  (completed : list string) (partial skipped : list Item) (was_absent : bool)
  (absence_reason : string) (was_holiday : bool) (holiday_reason : string) (s : Store) :
  was_holiday = true \/ was_absent = true ->
  exists d',
    report clk date completed partial skipped was_absent absence_reason was_holiday
      holiday_reason s
    = (Returns (if was_holiday then HolidayLogged date else AbsenceLogged), Some d') /\
    plan d' = plan (loaded clk s) /\
    reports d' = reports (loaded clk s) /\
    consecutive_high_intensity_days (analytics d') = 0 /\
    holidays_log (analytics d')
    = holidays_log (analytics (loaded clk s))
      ++ (if was_holiday then [mkLogEntry date holiday_reason (today_str clk)] else []) /\
    absence_log (analytics d')
    = absence_log (analytics (loaded clk s))
      ++ (if was_holiday then [] else [mkLogEntry date absence_reason (today_str clk)]) /\
    forall clk' e ts,
      fst (check_readiness_for_planning clk' (Some d')) = Returns (BLOCKED e ts) <->
      fst (check_readiness_for_planning clk' (Some (loaded clk s)))
      = Returns (BLOCKED e ts).
Proof.
  intros Hflag. destruct was_holiday.
  - rewrite report_holiday_eq.
    destruct (holiday_logged_fields clk date holiday_reason (loaded clk s))
      as (Hp & Hr & Hi & Hh & Ha).
    eexists. split; [reflexivity|]. rewrite app_nil_r.
    repeat split; try assumption; now apply gate_blocked_ext.
  - destruct Hflag as [H | ->]; [discriminate|].
    rewrite report_absence_eq.
    destruct (absence_logged_fields clk date absence_reason (loaded clk s))
      as (Hp & Hr & Hi & Ha & Hh).
    eexists. split; [reflexivity|]. rewrite app_nil_r.
    repeat split; try assumption; now apply gate_blocked_ext.
Qed.

Lemma day_off_reports_do_not_lift_the_block_witness :
  exists d',
    report later_clock "2025-01-03" [] [] [] true "ill" false "" (Some planned_document)
    = (Returns AbsenceLogged, Some d') /\
    fst (check_readiness_for_planning later_clock (Some d'))
    = Returns (BLOCKED "2025-01-03" (tasks sample_plan)).
Proof.
  destruct (day_off_reports_do_not_lift_the_block later_clock "2025-01-03" [] [] []
              true "ill" false "" (Some planned_document) (or_intror eq_refl))
    as (d' & E & _ & _ & _ & _ & _ & Hg).
  exists d'. split; [exact E|]. apply Hg. reflexivity.
Defined.

(** X12. A normal report needs a plan for its date: without one it answers
    that no plan was found and leaves the data file as it was loaded. With
    one, when it returns, the date has a report and the plan is kept, so the
    date blocks at no clock reading any more, no other date starts to block,
    and when the plan held that one date the gate no longer answers
    BLOCKED. *)
Theorem normal_report_lifts_the_block (clk : Clock) (date : string)
  (completed : list string) (partial skipped : list Item)
  (absence_reason holiday_reason : string) (s : Store) :
  let out := report clk date completed partial skipped false absence_reason false
               holiday_reason s in
  (mem date (plan (loaded clk s)) = false ->
   out = (Returns (NoPlanFound date), Some (loaded clk s))) /\
  (forall resp, mem date (plan (loaded clk s)) = true -> fst out = Returns resp ->
   exists d',
     snd out = Some d' /\
     plan d' = plan (loaded clk s) /\
     mem date (reports d') = true /\
     (forall today_s, ~ blocking today_s d' date) /\
     (forall today_s x, blocking today_s d' x -> blocking today_s (loaded clk s) x) /\
     (keys (plan (loaded clk s)) = [date] ->
      forall clk' e ts,
        fst (check_readiness_for_planning clk' (Some d')) <> Returns (BLOCKED e ts))).
Proof.
  cbv zeta. split.
  - intros Hm. apply report_no_plan_eq. unfold mem in Hm.
    destruct (get date (plan (loaded clk s))); [discriminate|reflexivity].
  - intros resp Hm Hret. apply mem_get in Hm. destruct Hm as (p & Hp).
    destruct (report_normal_stored clk s date completed partial skipped absence_reason
                holiday_reason p resp Hp Hret) as (d' & E & _ & Hpass & _).
    exists d'. rewrite E. cbn [snd]. split; [reflexivity|].
    assert (Hplan : plan d' = plan (loaded clk s)).
    { rewrite (analytics_pass_plan _ _ _ Hpass).
      apply (reported_document_counters clk (loaded clk s) date completed partial
               skipped p). }
    assert (Hrep : forall k, mem k (reports d')
                             = String.eqb date k || mem k (reports (loaded clk s))).
    { intros k. rewrite (analytics_pass_reports _ _ _ Hpass), reported_document_reports.
      apply mem_set. }
    assert (Hnb : forall today_s, ~ blocking today_s d' date).
    { intros today_s (_ & _ & H). rewrite Hrep, String.eqb_refl in H. discriminate. }
    split; [exact Hplan|]. split; [now rewrite Hrep, String.eqb_refl|].
    split; [exact Hnb|]. split.
    + intros today_s x (Hin & Hlt & Hno). rewrite Hplan in Hin. rewrite Hrep in Hno.
      apply orb_false_iff in Hno. destruct Hno as (_ & Hno). repeat split; assumption.
    + intros Hk clk' e ts. apply gate_unblocked_not_blocked. cbn [loaded].
      intros x Hx. pose proof Hx as (Hin & _). rewrite Hplan, Hk in Hin.
      destruct Hin as [<-|[]]. exact (Hnb _ Hx).
Qed.

Lemma normal_report_lifts_the_block_witness :
  report later_clock "2025-01-02" ["Math homework"] [] [] false "" false ""
    (Some planned_document)
  = (Returns (NoPlanFound "2025-01-02"), Some planned_document).
Proof.
  apply (proj1 (normal_report_lifts_the_block later_clock "2025-01-02"
                  ["Math homework"] [] [] "" "" (Some planned_document))).
  reflexivity.
Defined.

(** X13. [set_daily_plan] stores its [date] argument as [last_task_date]
    unchecked. When that string is not empty and is not a YYYY-MM-DD date,
    every recalculation raises ValueError from then on: the plan can never be
    reported (the report raises before anything is saved, so [reports] stays
    as it was), [get_analytics_context] and [validate_day_off_request] raise,
    and if the string sorts before today's date the readiness gate keeps
    answering BLOCKED on it after each reporting attempt. Only another
    [set_daily_plan] ends this. *)
Theorem plan_with_unreadable_date_cannot_be_reported (clk0 clk : Clock) (date : string)
  (ts : list Task) (ctx energy : string) (s : Store) (completed : list string)
  (partial skipped : list Item) (absence_reason holiday_reason : string) :
  strptime date = None -> date <> EmptyString ->
  let s1 := snd (set_daily_plan clk0 date ts ctx energy s) in
  let out := report clk date completed partial skipped false absence_reason false
               holiday_reason s1 in
  fst out = Raises ValueError /\
  snd out = s1 /\
  fst (get_analytics_context clk s1) = Raises ValueError /\
  fst (validate_day_off_request clk s1) = Raises ValueError /\
  (str_lt date (today_str clk) = true ->
   mem date (reports (loaded clk0 s)) = false ->
   fst (check_readiness_for_planning clk (snd out)) = Returns (BLOCKED date ts)).
Proof.
  intros Hn Hne. cbv zeta. rewrite set_daily_plan_eq. cbn [snd].
  set (d1 := plan_set clk0 date ts ctx energy (loaded clk0 s)).
  destruct (plan_set_fields clk0 date ts ctx energy (loaded clk0 s))
    as (Hp & Hr & _ & Hl & _). fold d1 in Hp, Hr, Hl.
  assert (Hu : unreadable_last_task_date d1) by (exists date; auto).
  assert (Hrr : recalculation_raises d1 ValueError) by (left; auto).
  assert (Hrefresh : refresh_absence clk d1 = d1).
  { unfold refresh_absence. rewrite Hl, Hn. now destruct (falsy_str (Some date)). }
  assert (Hget : get date (plan d1) = Some (plan_data_of clk0 ts ctx energy))
    by (rewrite Hp; apply get_single).
  assert (Hout : report clk date completed partial skipped false absence_reason false
                   holiday_reason (Some d1) = (Raises ValueError, Some d1)).
  { rewrite (report_normal_pass_eq _ _ _ _ _ _ _ _ _ Hget).
    destruct (update_absence_counter_cases clk d1) as [(_ & H)|(-> & _)];
      [contradiction|]. now rewrite Hrefresh. }
  rewrite Hout. cbn [fst snd].
  split; [reflexivity|]. split; [reflexivity|]. split; [|split].
  - apply (run_call_raises_iff clk GetAnalyticsContext (Some d1)). exact Hrr.
  - apply (run_call_raises_iff clk ValidateDayOffRequest (Some d1)). now left.
  - intros Hlt Hm. apply (gate_single_plan clk date _ d1 Hp).
    now rewrite Hr, Hm, Hlt.
Qed.

Lemma plan_with_unreadable_date_cannot_be_reported_witness :
  fst (check_readiness_for_planning later_clock
         (snd (report later_clock "01/03/2025" ["Essay"] [] [] false "" false ""
                 (snd (set_daily_plan sample_clock "01/03/2025" (tasks three_task_plan)
                         "normal" "medium" None)))))
  = Returns (BLOCKED "01/03/2025" (tasks three_task_plan)).
Proof.
  apply (plan_with_unreadable_date_cannot_be_reported sample_clock later_clock
           "01/03/2025" (tasks three_task_plan) "normal" "medium" None ["Essay"] [] []
           "" ""); [reflexivity|discriminate|reflexivity|reflexivity].
Defined.

(** ** The absence counter *)

(** X14. The tools that save after recalculating lose the refresh of the
    absence counter: when [get_analytics_context] or a normal report returns,
    the absence counter in the analytics it returns and in the file it leaves
    is the one that was loaded, not [max(0, today - last_task_date - 1)],
    because the caller's save overwrites what [_update_absence_counter] wrote.
    [validate_day_off_request] saves nothing afterwards and leaves the
    refreshed counter, and [set_daily_plan] sets it to 0. *)
Theorem saving_tools_lose_the_absence_refresh (clk : Clock) (s : Store) :
  let n := absence_counter (analytics (loaded clk s)) in
  (forall a d', get_analytics_context clk s = (Returns (AnalyticsContext a), Some d') ->
     absence_counter a = n /\ absence_counter (analytics d') = n) /\
  (forall date completed partial skipped absence_reason holiday_reason resp d',
     report clk date completed partial skipped false absence_reason false holiday_reason s
     = (Returns resp, Some d') ->
     absence_counter (analytics d') = n) /\
  snd (validate_day_off_request clk s) = Some (refresh_absence clk (loaded clk s)) /\
  (forall date ts ctx energy d',
     snd (set_daily_plan clk date ts ctx energy s) = Some d' ->
     absence_counter (analytics d') = 0).
Proof.
  cbv zeta. split; [|split; [|split]].
  - intros a d'. rewrite get_analytics_context_eq.
    destruct (fst (_update_absence_counter clk _)); [|discriminate].
    destruct (analytics_pass clk (loaded clk s)) as [data'|] eqn:Hp; [|discriminate].
    intros H. injection H as <- <-.
    split; apply (analytics_pass_absence_counter _ _ _ Hp).
  - intros date completed partial skipped ar hr resp d' H.
    destruct (get date (plan (loaded clk s))) as [p|] eqn:Hp.
    + assert (Hret : fst (report clk date completed partial skipped false ar false hr s)
                     = Returns resp) by now rewrite H.
      destruct (report_normal_stored clk s date completed partial skipped ar hr p resp
                  Hp Hret) as (d1 & E & _ & Hpass & _).
      rewrite E in H. injection H as <-.
      rewrite (analytics_pass_absence_counter _ _ _ Hpass).
      apply (reported_document_counters clk (loaded clk s) date completed partial
               skipped p).
    + rewrite (report_no_plan_eq _ _ _ _ _ _ _ _ Hp) in H. now injection H as _ <-.
  - now rewrite validate_day_off_request_eq.
  - intros date ts ctx energy d'. rewrite set_daily_plan_eq. cbn [snd].
    intros H. injection H as <-.
    apply (plan_set_fields clk date ts ctx energy (loaded clk s)).
Qed.

(** ** Recent reports *)

(** X15. [_get_recent_reports(data, days)] returns, in the order in which
    [reports] holds them, the reports whose key is a YYYY-MM-DD date [d] with
    [today - d < days]; keys that are not dates are skipped. A larger [days]
    selects at least the same reports. When no report is dated after today
    the result is the window [0 <= today - d < days], and is empty for
    [days <= 0]; a report dated after today is selected for every
    [days >= 0]. [get_recent_reports] answers with that list and leaves the
    data file as loaded. *)
Theorem recent_reports_window (clk : Clock) (d : Document) (days : Z) :
  _get_recent_reports clk d days
  = map snd (filter (selected (today clk) days) (reports d)) /\
  (forall r, In r (_get_recent_reports clk d days) <->
     exists k dt, In (k, r) (reports d) /\ strptime k = Some dt /\
                  days_between (today clk) dt < days) /\
  (forall days', days <= days' ->
     incl (_get_recent_reports clk d days) (_get_recent_reports clk d days')) /\
  (no_future_report clk d ->
   _get_recent_reports clk d days = window_reports clk d days /\
   (days <= 0 -> _get_recent_reports clk d days = [])) /\
  (forall s, get_recent_reports clk days s
             = (Returns (RecentReports (_get_recent_reports clk (loaded clk s) days)),
                Some (loaded clk s))).
Proof.
  assert (Hin : forall n r, In r (_get_recent_reports clk d n) <->
                  exists k dt, In (k, r) (reports d) /\ strptime k = Some dt /\
                               days_between (today clk) dt < n).
  { intros n r. rewrite get_recent_reports_filter, in_map_iff. split.
    - intros ([k r'] & <- & H). apply filter_In in H. destruct H as (Hi & Hs).
      unfold selected in Hs. cbn [fst snd] in *.
      destruct (strptime k) as [dt|] eqn:E; [|discriminate].
      exists k, dt. split; [assumption|]. split; [exact E|]. now apply Z.ltb_lt.
    - intros (k & dt & Hi & E & Hlt). exists (k, r). split; [reflexivity|].
      apply filter_In. split; [assumption|]. unfold selected. cbn [fst].
      rewrite E. now apply Z.ltb_lt. }
  split; [apply get_recent_reports_filter|]. split; [apply Hin|].
  split; [|split].
  - intros days' Hle r Hr. apply Hin in Hr. apply Hin.
    destruct Hr as (k & dt & Hi & E & Hlt). exists k, dt.
    split; [assumption|]. split; [assumption|]. lia.
  - intros Hnf.
    assert (Hw : _get_recent_reports clk d days = window_reports clk d days).
    { rewrite get_recent_reports_filter. unfold window_reports. f_equal.
      apply filter_ext_in. intros [k r] Hi. unfold selected. cbn [fst].
      destruct (strptime k) as [dt|] eqn:E; [|reflexivity].
      pose proof (Hnf k r dt Hi E) as H0.
      replace (0 <=? days_between (today clk) dt) with true
        by (symmetry; now apply Z.leb_le).
      reflexivity. }
    split; [exact Hw|]. intros Hd.
    destruct (_get_recent_reports clk d days) as [|r rest] eqn:E; [reflexivity|].
    exfalso. assert (Hr : In r (_get_recent_reports clk d days)) by (rewrite E; now left).
    apply Hin in Hr. destruct Hr as (k & dt & Hi & Ek & Hlt).
    pose proof (Hnf k r dt Hi Ek). lia.
  - intros s. apply get_recent_reports_eq.
Qed.

(** ** The day-off score *)

(** X16. Whenever [validate_day_off_request] returns, its answer is a
    permissibility score with reasons; the score is a whole number of
    hundredths between 0.0 and 1.0 (the clamp [max(0.0, min(1.0, score))]
    followed by [round(_, 2)]), also when the dedication read from the file
    is out of range, and the first reason is the dedication percentage. *)
Theorem day_off_score_is_between_0_and_1 (clk : Clock) (s : Store) (resp : Response) :
  fst (validate_day_off_request clk s) = Returns resp ->
  exists score percent more n,
    resp = DayOffScore score (DedicationIsAt percent :: more) /\
    0 <= n <= 100 /\ score = (float_of_Z n / 100)%float /\
    (0 <=? score)%float = true /\ (score <=? 1)%float = true.
Proof.
  rewrite validate_day_off_request_eq. cbn [fst].
  destruct (fst (_update_absence_counter clk _)); [|discriminate].
  destruct (analytics_pass clk (loaded clk s)) as [data|]; [|discriminate].
  cbn [obind]. intros H.
  destruct (day_off_answer_returns clk data resp H) as (x & percent & more & ->).
  destruct (clamped_score x) as (n & Hn & E).
  exists (round2 (max0 (min1 x))), percent, more, n.
  split; [reflexivity|]. split; [exact Hn|]. split; [exact E|].
  rewrite E. exact (hundredths_in_unit n Hn).
Qed.

Lemma day_off_score_is_between_0_and_1_witness :
  exists score percent more n,
    DayOffScore 0.4 [DedicationIsAt 50] = DayOffScore score (DedicationIsAt percent :: more) /\
    0 <= n <= 100 /\ score = (float_of_Z n / 100)%float /\
    (0 <=? score)%float = true /\ (score <=? 1)%float = true.
Proof.
  apply (day_off_score_is_between_0_and_1 sample_clock None).
  vm_compute. reflexivity.
Defined.

(** ** Rest recommendations *)

(** X17. What the readiness gate recommends when it answers READY. If the
    last logged holiday is dated at most 2 days before today (a holiday dated
    after today counts as well) the recommendation is PROCEED_NORMALLY
    whatever the burnout risk. MANDATORY_REST is recommended only with an
    intensity streak of at least 3 and no such holiday, since without the
    streak the burnout score stays below 0.8. With a streak of at least 3 and
    no such holiday the gate never recommends PROCEED_NORMALLY. *)
Theorem mandatory_rest_needs_an_intensity_streak (clk : Clock) (s : Store)
  (rest : Recommendation) (ltt : LongTermTasks) (wd ph : string) (n : Z) :
  fst (check_readiness_for_planning clk s) = Returns (READY rest ltt wd ph n) ->
  let d := loaded clk s in
  (holiday_within clk 2 d -> recommendation rest = "PROCEED_NORMALLY") /\
  (recommendation rest = "MANDATORY_REST" ->
   3 <= consecutive_high_intensity_days (analytics d) /\ ~ holiday_within clk 2 d) /\
  (3 <= consecutive_high_intensity_days (analytics d) -> ~ holiday_within clk 2 d ->
   recommendation rest <> "PROCEED_NORMALLY").
Proof.
  intros H. cbv zeta.
  assert (Hrp : ready_path clk (loaded clk s)).
  { destruct (unreported_dates (today_str clk) (loaded clk s)) as [|e0 r0] eqn:E.
    - apply unreported_dates_nil_iff in E.
      rewrite (gate_unblocked clk s E) in H. cbv zeta in H.
      destruct (mem (today_str clk) (plan (loaded clk s))) eqn:Hm; [discriminate|].
      destruct (get (today_str clk) (reports (loaded clk s))) eqn:Hg; [discriminate|].
      repeat split; assumption.
    - rewrite (gate_blocked clk s e0 r0 E) in H. discriminate. }
  rewrite (gate_ready_path clk s Hrp) in H. cbv zeta in H.
  destruct (fst (_update_full_analytics clk (loaded clk s) (Some (loaded clk s))))
    as [data|] eqn:Eu; [|discriminate].
  apply recalculation_returns_pass in Eu. destruct Eu as (_ & Hp).
  destruct (_recommend_rest_or_light_day clk data) as [rest'|] eqn:Er; [|discriminate].
  injection H as <- _ _ _ _.
  destruct (recommend_table clk data rest' Er) as (Hh & Ht).
  assert (Hw : holiday_within clk 2 data <-> holiday_within clk 2 (loaded clk s))
    by (unfold holiday_within; now rewrite (analytics_pass_holidays_log _ _ _ Hp)).
  destruct (analytics_pass_burnout _ _ _ Hp) as (d2 & Hb & Hi2 & Hi).
  split; [|split].
  - intros Hy. apply Hh. now apply Hw.
  - intros Hm.
    assert (Hn : ~ holiday_within clk 2 (loaded clk s)).
    { intros Hy. apply Hw in Hy. rewrite (Hh Hy) in Hm. discriminate. }
    split; [|exact Hn].
    assert (Hn' : ~ holiday_within clk 2 data) by (intros Hy; apply Hn; now apply Hw).
    rewrite (Ht Hn') in Hm. unfold rest_table in Hm.
    destruct (String.eqb (burnout_risk (analytics data)) "critical") eqn:Ec.
    + apply String.eqb_eq in Ec. rewrite Hb in Ec.
      rewrite <- Hi2. now apply critical_needs_a_streak.
    + destruct (String.eqb (burnout_risk (analytics data)) "high"); [discriminate|].
      destruct (_ || _); discriminate.
  - intros H3 Hn.
    assert (Hn' : ~ holiday_within clk 2 data) by (intros Hy; apply Hn; now apply Hw).
    rewrite (Ht Hn'). unfold rest_table. rewrite Hi.
    replace (consecutive_high_intensity_days (analytics (loaded clk s)) >=? 3) with true
      by (symmetry; rewrite Z.geb_leb; apply Z.leb_le; lia).
    rewrite orb_true_r.
    destruct (String.eqb _ "critical"); [discriminate|].
    destruct (String.eqb _ "high"); discriminate.
Qed.

Lemma mandatory_rest_needs_an_intensity_streak_witness :
  recommendation {| recommendation := "PROCEED_NORMALLY";
                    reason := "A day off was taken very recently." |}
  = "PROCEED_NORMALLY".
Proof.
  assert (H : fst (check_readiness_for_planning sample_clock
                     (Some (holiday_logged sample_clock "2025-01-02" "trip"
                              strained_document)))
              = Returns (READY {| recommendation := "PROCEED_NORMALLY";
                                  reason := "A day off was taken very recently." |}
                           [] "Friday" "N/A" 0))
    by (vm_compute; reflexivity).
  destruct (mandatory_rest_needs_an_intensity_streak sample_clock _ _ _ _ _ _ H)
    as (Hh & _).
  apply Hh. exists (mkLogEntry "2025-01-02" "trip" "2025-01-03"), [], (mkdate 2025 1 2).
  split; [reflexivity|]. split; [reflexivity|]. vm_compute. discriminate.
Defined.

(** ** Counters across calls *)

(** X18. Sending a normal report twice for the same date counts its skipped
    tasks twice: [reports] keeps one entry for the date, holding the second
    report, while every problem task's skip count has grown by its
    occurrences in the first report and again by those in the second, and its
    reasons list holds both sets of reasons. *)
Theorem reporting_twice_counts_skips_twice (clk1 clk2 : Clock) (d d1 d2 : Document)
  (date : string) (completed1 completed2 : list string)
  (partial1 skipped1 partial2 skipped2 : list Item) (absence_reason holiday_reason : string)
  (resp1 resp2 : Response) :
  mem date (plan d) = true ->
  report clk1 date completed1 partial1 skipped1 false absence_reason false holiday_reason
    (Some d) = (Returns resp1, Some d1) ->
  report clk2 date completed2 partial2 skipped2 false absence_reason false holiday_reason
    (Some d1) = (Returns resp2, Some d2) ->
  keys (reports d2) = keys (reports d1) /\
  (exists rep, get date (reports d2) = Some rep /\
               completed rep = completed2 /\ skipped rep = skipped2 /\
               reported_at rep = now_isoformat clk2) /\
  (forall k, skip_count_of k (problem_tasks (analytics d2))
             = skip_count_of k (problem_tasks (analytics d))
               + occurrences k skipped1 + occurrences k skipped2) /\
  (forall k, skip_reasons_of k (problem_tasks (analytics d2))
             = skip_reasons_of k (problem_tasks (analytics d))
               ++ reasons_for k skipped1 ++ reasons_for k skipped2).
Proof.
  intros Hm H1 H2. apply mem_get in Hm. destruct Hm as (p & Hp).
  destruct (report_normal_returns clk1 d date completed1 partial1 skipped1 absence_reason
              holiday_reason p resp1 (Some d1) Hp H1) as (t1 & de1 & br1 & E1 & _).
  cbv zeta in E1. injection E1 as E1.
  assert (Hp1 : get date (plan d1) = Some p).
  { rewrite E1. cbn [plan set_analytics].
    now rewrite (proj2 (proj2 (proj2 (proj2
                   (reported_document_counters clk1 d date completed1 partial1 skipped1
                      p))))). }
  destruct (report_normal_returns clk2 d1 date completed2 partial2 skipped2 absence_reason
              holiday_reason p resp2 (Some d2) Hp1 H2) as (t2 & de2 & br2 & E2 & _).
  cbv zeta in E2. injection E2 as E2.
  assert (Hr1 : reports d1
                = set date {| completed := completed1; partial := partial1;
                              skipped := skipped1;
                              completion_rate := round2 (raw_completion_rate completed1 p);
                              reported_at := now_isoformat clk1 |} (reports d))
    by (rewrite E1; cbn [reports set_analytics]; apply reported_document_reports).
  assert (Hr2 : reports d2
                = set date {| completed := completed2; partial := partial2;
                              skipped := skipped2;
                              completion_rate := round2 (raw_completion_rate completed2 p);
                              reported_at := now_isoformat clk2 |} (reports d1))
    by (rewrite E2; cbn [reports set_analytics]; apply reported_document_reports).
  assert (Hpt1 : problem_tasks (analytics d1)
                 = fst (skip_loop skipped1 (problem_tasks (analytics d)) []))
    by (rewrite E1; reflexivity).
  assert (Hpt2 : problem_tasks (analytics d2)
                 = fst (skip_loop skipped2 (problem_tasks (analytics d1)) []))
    by (rewrite E2; reflexivity).
  destruct (skip_loop_spec skipped1 (problem_tasks (analytics d)) []) as (Hc1 & Hs1 & _).
  destruct (skip_loop_spec skipped2 (problem_tasks (analytics d1)) []) as (Hc2 & Hs2 & _).
  split; [|split; [|split]].
  - rewrite Hr2, keys_set.
    replace (mem date (reports d1)) with true; [reflexivity|].
    symmetry. rewrite Hr1, mem_set, String.eqb_refl. reflexivity.
  - rewrite Hr2, get_set_same. eexists. split; [reflexivity|]. repeat split.
  - intros k. rewrite Hpt2, Hc2, Hpt1, Hc1. lia.
  - intros k. rewrite Hpt2, Hs2, Hpt1, Hs1. now rewrite app_assoc.
Qed.

Lemma reporting_twice_counts_skips_twice_witness :
  exists d2,
    run_calls [(sample_clock, math_report "Math homework");
               (sample_clock, math_report "Math homework")] (Some planned_document)
    = Some d2 /\
    keys (reports d2) = ["2025-01-03"] /\
    skip_count_of "Math" (problem_tasks (analytics d2)) = 2.
Proof.
  destruct (run_calls_some [(sample_clock, math_report "Math homework")]
              planned_document) as (d1 & E1).
  destruct (run_calls_some [(sample_clock, math_report "Math homework")] d1)
    as (d2 & E2).
  revert E1 E2. cbn [run_calls run_call math_report]. intros E1 E2.
  exists d2. split; [now rewrite E1|].
  assert (R1 : exists resp1, fst (report sample_clock "2025-01-03" [] []
                                    [mkItem "Math homework" (Some "too hard")] false ""
                                    false "" (Some planned_document)) = Returns resp1)
    by (vm_compute; eexists; reflexivity).
  destruct R1 as (resp1 & R1).
  assert (R2 : exists resp2, fst (report sample_clock "2025-01-03" [] []
                                    [mkItem "Math homework" (Some "too hard")] false ""
                                    false "" (Some d1)) = Returns resp2).
  { injection E1 as <-. vm_compute. eexists. reflexivity. }
  destruct R2 as (resp2 & R2).
  destruct (reporting_twice_counts_skips_twice sample_clock sample_clock planned_document
              d1 d2 "2025-01-03" [] [] [] [mkItem "Math homework" (Some "too hard")] []
              [mkItem "Math homework" (Some "too hard")] "" "" resp1 resp2 eq_refl)
    as (Hk & _ & Hc & _).
  - rewrite (surjective_pairing (report _ _ _ _ _ _ _ _ _ _)). now rewrite R1, E1.
  - rewrite (surjective_pairing (report _ _ _ _ _ _ _ _ _ _)). now rewrite R2, E2.
  - split.
    + rewrite Hk. injection E1 as <-. vm_compute. reflexivity.
    + rewrite Hc. reflexivity.
Defined.


(** ** Long-term tasks *)

(** X20. [edit_long_term_tasks] replaces the long-term tasks and answers with
    the new ones; whatever is called afterwards, short of another edit,
    [show_long_term_tasks] answers with exactly the tasks of the last edit. *)
Theorem long_term_tasks_are_those_of_the_last_edit (clk0 clk : Clock)
  (new_tasks : LongTermTasks) (s : Store) (calls : list (Clock * Call)) :
  (forall clk' c, In (clk', c) calls -> is_edit_long_term_tasks c = false) ->
  fst (edit_long_term_tasks clk0 new_tasks s) = Returns (LongTermTasksShown new_tasks) /\
  fst (show_long_term_tasks clk
         (run_calls calls (snd (edit_long_term_tasks clk0 new_tasks s))))
  = Returns (LongTermTasksShown new_tasks).
Proof.
  intros Hc. rewrite edit_long_term_tasks_eq. cbn [fst snd]. split; [reflexivity|].
  destruct (run_calls_footprint calls FLongTermTasks
              (fun clk' c Hin => not_editor_keeps_long_term_tasks c (Hc clk' c Hin))
              (set_long_term_tasks new_tasks (loaded clk0 s)))
    as (d' & -> & Hsame).
  rewrite show_long_term_tasks_eq. cbn [fst loaded]. cbn [same_field] in Hsame.
  now rewrite Hsame.
Qed.

Lemma long_term_tasks_are_those_of_the_last_edit_witness :
  fst (show_long_term_tasks later_clock
         (run_calls sample_calls
            (snd (edit_long_term_tasks sample_clock [("thesis", "chapter 2")] None))))
  = Returns (LongTermTasksShown [("thesis", "chapter 2")]).
Proof.
  apply (long_term_tasks_are_those_of_the_last_edit sample_clock later_clock
           [("thesis", "chapter 2")] None sample_calls).
  intros clk' c Hin. cbn in Hin.
  repeat (destruct Hin as [Hin|Hin]; [injection Hin as <- <-; reflexivity|]).
  destruct Hin.
Defined.

(** ** The semester phase *)

(** X21. [update_semester_phase] stores a phase exactly when it is one of
    early_semester, mid_semester, late_semester, finals_period and
    semester_break, spelled so; any other string is answered with an error and
    the data file is left as loaded. A stored phase is the one the next
    [get_analytics_context] reports. *)
Theorem semester_phase_changes_only_to_a_valid_phase (clk : Clock) (phase : string)
  (s : Store) :
  (In phase valid_phases ->
   update_semester_phase clk phase s
   = (Returns (PhaseUpdated phase),
      Some (set_analytics (set_semester_phase phase (analytics (loaded clk s)))
              (loaded clk s))) /\
   forall clk' a,
     fst (get_analytics_context clk' (snd (update_semester_phase clk phase s)))
     = Returns (AnalyticsContext a) ->
     semester_phase a = phase) /\
  (~ In phase valid_phases ->
   update_semester_phase clk phase s = (Returns InvalidPhase, Some (loaded clk s))).
Proof.
  rewrite update_semester_phase_eq.
  assert (Hv : is_valid_phase phase = true <-> In phase valid_phases).
  { unfold is_valid_phase. rewrite existsb_exists. split.
    - intros (x & Hin & E). apply String.eqb_eq in E. now subst x.
    - intros Hin. exists phase. split; [exact Hin|apply String.eqb_refl]. }
  split.
  - intros Hin. apply Hv in Hin. rewrite Hin. split; [reflexivity|].
    intros clk' a. cbn [snd]. rewrite get_analytics_context_eq. cbn [loaded].
    destruct (fst (_update_absence_counter clk' _)); [|discriminate].
    destruct (analytics_pass clk' _) as [d'|] eqn:Hp; [|discriminate].
    cbn [fst]. intros H. injection H as <-.
    destruct (analytics_pass_frame _ _ _ Hp) as (t & de & br & ->). reflexivity.
  - intros Hn. destruct (is_valid_phase phase) eqn:E; [|reflexivity].
    exfalso. apply Hn. now apply Hv.
Qed.
